(** * ARBA-DELIVERY: order lifecycle, courier assignment and pricing

    A shallow embedding of the Django back end under [backend/orders]:
    the models of [models.py], the serializers of [serializers.py], the
    services of [services.py] and the order and pricing view sets of
    [views.py].  Database tables are finite maps keyed by primary key,
    [timezone.now()] is an explicit argument, and a view is a function from a
    store to the store it leaves behind and the response it gives.  Django
    runs in autocommit mode here, so the rows written before a view answers
    with an error stay written. *)

From Stdlib Require Import ZArith String Ascii List Lia Sorted.
From stdpp Require Import gmap strings list fin_maps.

Local Open Scope Z_scope.

(** ** Data model ([accounts/models.py], [orders/models.py]) *)

Inductive Role := CUSTOMER | COURIER | ADMIN.

Inductive OrderStatus :=
  CREATED | ASSIGNED | PICKED_UP | IN_TRANSIT | DELIVERED | CANCELLED.

#[global] Instance Role_eq_dec : EqDecision Role.
Proof. solve_decision. Defined.

#[global] Instance OrderStatus_eq_dec : EqDecision OrderStatus.
Proof. solve_decision. Defined.

(** The first component of [Order.STATUS_CHOICES], as the f-strings print it. *)
Definition status_name (st : OrderStatus) : string :=
  match st with
  | CREATED => "CREATED"
  | ASSIGNED => "ASSIGNED"
  | PICKED_UP => "PICKED_UP"
  | IN_TRANSIT => "IN_TRANSIT"
  | DELIVERED => "DELIVERED"
  | CANCELLED => "CANCELLED"
  end.

Record User := {
  user_pk : nat;
  role : Role
}.

(** [DecimalField(max_digits=10, decimal_places=2)] columns hold hundredths:
    [distance_km], [price], [base_fee] and [per_km_rate] are the integer
    number of hundredths.  Instants are integers; a nullable
    [DateTimeField] is an [option]. *)
Record Order := {
  order_pk : nat;
  customer : nat;
  assigned_courier : option nat;
  pickup_address : string;
  delivery_address : string;
  distance_km : Z;
  price : Z;
  status : OrderStatus;
  created_at : Z;
  assigned_at : option Z;
  picked_up_at : option Z;
  in_transit_at : option Z;
  delivered_at : option Z
}.

Record PricingConfig := {
  base_fee : Z;
  per_km_rate : Z;
  is_active : bool;
  config_created_at : Z;
  created_by : nat
}.

(** A [CourierStatus] row; the one-to-one [courier] column is the key of the
    table. *)
Record CourierStatus := {
  is_available : bool;
  current_orders_count : Z;
  last_activity : Z;
  location_description : string
}.

(** The relational store.  [pricing_configs] is in primary-key order, the
    order [.first()] reads an unordered query set in. *)
Record Store := {
  users : gmap nat User;
  orders : gmap nat Order;
  courier_statuses : gmap nat CourierStatus;
  pricing_configs : list PricingConfig
}.

(** Attribute assignments on an [Order] instance. *)
Definition set_status (st : OrderStatus) (o : Order) : Order :=
  {| order_pk := order_pk o; customer := customer o;
     assigned_courier := assigned_courier o;
     pickup_address := pickup_address o;
     delivery_address := delivery_address o;
     distance_km := distance_km o; price := price o; status := st;
     created_at := created_at o; assigned_at := assigned_at o;
     picked_up_at := picked_up_at o; in_transit_at := in_transit_at o;
     delivered_at := delivered_at o |}.

Definition set_assigned_courier (c : option nat) (o : Order) : Order :=
  {| order_pk := order_pk o; customer := customer o;
     assigned_courier := c;
     pickup_address := pickup_address o;
     delivery_address := delivery_address o;
     distance_km := distance_km o; price := price o; status := status o;
     created_at := created_at o; assigned_at := assigned_at o;
     picked_up_at := picked_up_at o; in_transit_at := in_transit_at o;
     delivered_at := delivered_at o |}.

Definition set_assigned_at (t : option Z) (o : Order) : Order :=
  {| order_pk := order_pk o; customer := customer o;
     assigned_courier := assigned_courier o;
     pickup_address := pickup_address o;
     delivery_address := delivery_address o;
     distance_km := distance_km o; price := price o; status := status o;
     created_at := created_at o; assigned_at := t;
     picked_up_at := picked_up_at o; in_transit_at := in_transit_at o;
     delivered_at := delivered_at o |}.

Definition set_picked_up_at (t : option Z) (o : Order) : Order :=
  {| order_pk := order_pk o; customer := customer o;
     assigned_courier := assigned_courier o;
     pickup_address := pickup_address o;
     delivery_address := delivery_address o;
     distance_km := distance_km o; price := price o; status := status o;
     created_at := created_at o; assigned_at := assigned_at o;
     picked_up_at := t; in_transit_at := in_transit_at o;
     delivered_at := delivered_at o |}.

Definition set_in_transit_at (t : option Z) (o : Order) : Order :=
  {| order_pk := order_pk o; customer := customer o;
     assigned_courier := assigned_courier o;
     pickup_address := pickup_address o;
     delivery_address := delivery_address o;
     distance_km := distance_km o; price := price o; status := status o;
     created_at := created_at o; assigned_at := assigned_at o;
     picked_up_at := picked_up_at o; in_transit_at := t;
     delivered_at := delivered_at o |}.

Definition set_delivered_at (t : option Z) (o : Order) : Order :=
  {| order_pk := order_pk o; customer := customer o;
     assigned_courier := assigned_courier o;
     pickup_address := pickup_address o;
     delivery_address := delivery_address o;
     distance_km := distance_km o; price := price o; status := status o;
     created_at := created_at o; assigned_at := assigned_at o;
     picked_up_at := picked_up_at o; in_transit_at := in_transit_at o;
     delivered_at := t |}.

(** Writes to one table of the store. *)
Definition with_orders (f : gmap nat Order -> gmap nat Order) (s : Store)
  : Store :=
  {| users := users s; orders := f (orders s);
     courier_statuses := courier_statuses s;
     pricing_configs := pricing_configs s |}.

Definition with_courier_statuses
  (f : gmap nat CourierStatus -> gmap nat CourierStatus) (s : Store) : Store :=
  {| users := users s; orders := orders s;
     courier_statuses := f (courier_statuses s);
     pricing_configs := pricing_configs s |}.

Definition with_pricing_configs
  (f : list PricingConfig -> list PricingConfig) (s : Store) : Store :=
  {| users := users s; orders := orders s;
     courier_statuses := courier_statuses s;
     pricing_configs := f (pricing_configs s) |}.

(** [order.save()] on an instance that has a primary key. *)
Definition save_order (o : Order) (s : Store) : Store :=
  with_orders (insert (order_pk o) o) s.

(** ** Responses *)

(** Why a serializer field refuses its value: the three failures of DRF's
    own fields that this program can meet, and the message of a
    [validate_<field>] method.  [TooManyDigits] stands for the two messages
    of [DecimalField.validate_precision] about [max_digits] and the digits
    before the decimal point; which of them is given depends on how the body
    writes the number. *)
Inductive FieldFailure :=
| Blank
| NullCharacters
| TooManyDigits
| Message (msg : string).

(** What a view or a service answers when it does not succeed.
    [ValidationError] is DRF's [serializers.ValidationError] (HTTP 400) with
    a message, [FieldErrors] the same exception with the dictionary of the
    fields that failed, in the order of the fields; [PermissionDenied] the
    refusal of a permission class, [Http404] the failure of [get_object],
    [ValueError] the Python exception of the service layer,
    [InvalidOperation] the [decimal.InvalidOperation] a decimal column raises
    on saving a number of more than [max_digits] digits; the two [HTTP_*]
    constructors are the explicit error responses of the views. *)
Inductive Error :=
| ValidationError (msg : string)
| FieldErrors (errors : list (string * FieldFailure))
| ValueError (msg : string)
| InvalidOperation
| HTTP_400_BAD_REQUEST (msg : string)
| HTTP_403_FORBIDDEN (msg : string)
| PermissionDenied
| Http404.

Inductive result (A : Type) :=
| Ok (a : A)
| Err (e : Error).

Arguments Ok {A} a.
Arguments Err {A} e.

Definition is_ok {A} (r : result A) : bool :=
  match r with Ok _ => true | Err _ => false end.

(** ** Python strings: [str.strip] and [str.lower] on ASCII text *)

(** A [string] holds the characters of a Python [str] one by one.  The
    functions below are [str.isspace], [str.strip] and [str.lower] on the
    characters below 128; Python folds and strips further characters above
    127, so what is proved of text through [strip] and [lower] is stated for
    [ascii_text]. *)
Fixpoint ascii_text (s : string) : bool :=
  match s with
  | EmptyString => true
  | String a s' => (nat_of_ascii a <? 128)%nat && ascii_text s'
  end.

(** ['\x00' in value], the test of Django's
    [ProhibitNullCharactersValidator]. *)
Fixpoint has_null_character (s : string) : bool :=
  match s with
  | EmptyString => false
  | String a s' => (nat_of_ascii a =? 0)%nat || has_null_character s'
  end.

(** The ASCII characters [str.isspace] accepts: tab to carriage return, the
    four separators 28 to 31, and the space. *)
Definition is_space (a : ascii) : bool :=
  let n := nat_of_ascii a in
  ((9 <=? n)%nat && (n <=? 13)%nat) || ((28 <=? n)%nat && (n <=? 32)%nat).

Fixpoint lstrip (s : string) : string :=
  match s with
  | EmptyString => EmptyString
  | String a s' => if is_space a then lstrip s' else s
  end.

Fixpoint rstrip (s : string) : string :=
  match s with
  | EmptyString => EmptyString
  | String a s' =>
      match rstrip s' with
      | EmptyString => if is_space a then EmptyString else String a EmptyString
      | r => String a r
      end
  end.

Definition strip (s : string) : string := rstrip (lstrip s).

Definition lower_ascii (a : ascii) : ascii :=
  let n := nat_of_ascii a in
  if ((65 <=? n)%nat && (n <=? 90)%nat) then ascii_of_nat (n + 32) else a.

Fixpoint lower (s : string) : string :=
  match s with
  | EmptyString => EmptyString
  | String a s' => String (lower_ascii a) (lower s')
  end.

(** Python's truth value of a string. *)
Definition truthy (s : string) : bool :=
  match s with EmptyString => false | _ => true end.

(** ** Python's [decimal.Decimal] *)

(** A finite decimal [coefficient * 10 ^ exponent].  The columns of this
    program have at most ten digits, so the 28 digits of the default context
    are never exceeded and sums and products are exact. *)
Record Decimal := {
  coefficient : Z;
  exponent : Z
}.

Module Dec.

  (** The value of a [decimal_places=2] column. *)
Definition of_hundredths (n : Z) : Decimal :=
    {| coefficient := n; exponent := -2 |}.

  (** [Decimal('0.01')]. *)
Definition cent : Decimal := {| coefficient := 1; exponent := -2 |}.

Definition add (a b : Decimal) : Decimal :=
    let e := Z.min (exponent a) (exponent b) in
    {| coefficient := coefficient a * 10 ^ (exponent a - e)
                      + coefficient b * 10 ^ (exponent b - e);
       exponent := e |}.

Definition mul (a b : Decimal) : Decimal :=
    {| coefficient := coefficient a * coefficient b;
       exponent := exponent a + exponent b |}.

  (** [n / d] rounded to the nearest integer, ties to the even one
      ([ROUND_HALF_EVEN], the rounding of the default context), for
      [0 <= n] and [0 < d]. *)
Definition round_half_even (n d : Z) : Z :=
    let q := n / d in
    let r := n mod d in
    if 2 * r <? d then q
    else if d <? 2 * r then q + 1
    else if Z.even q then q else q + 1.

  (** [a.quantize(exp)]: [a] at the exponent of [exp], rounded on the
      magnitude with the context's rounding. *)
Definition quantize (a exp : Decimal) : Decimal :=
    let e := exponent exp in
    if e <=? exponent a
    then {| coefficient := coefficient a * 10 ^ (exponent a - e);
            exponent := e |}
    else {| coefficient :=
              Z.sgn (coefficient a)
              * round_half_even (Z.abs (coefficient a)) (10 ^ (e - exponent a));
            exponent := e |}.

End Dec.

(** ** Decimal columns and serializer fields *)

(** Whether a number of hundredths fits [DecimalField(max_digits=10,
    decimal_places=2)]: at most ten digits, the sign not counted.  DRF's
    [DecimalField.validate_precision] refuses a body value that does not,
    and the model field raises [decimal.InvalidOperation] when such a value
    is saved ([format_number] quantizes in a context of precision
    [max_digits]). *)
Definition fits_column (n : Z) : bool := Z.abs n <? 10 ^ 10.

(** DRF's [DecimalField(max_digits=10, decimal_places=2).run_validation] on
    a body value of at most two decimal places. *)
Definition run_decimal_field (value : Z) : Z + FieldFailure :=
  if fits_column value then inl value else inr TooManyDigits.

(** DRF's [CharField.run_validation] with [allow_blank=False] and
    [trim_whitespace=True]: a value that is blank once stripped is refused,
    the value is stripped, and the field's validators refuse a null
    character. *)
Definition run_char_field (value : string) : string + FieldFailure :=
  if bool_decide (value = EmptyString)
     || bool_decide (strip value = EmptyString)
  then inr Blank
  else
    let value := strip value in
    if has_null_character value then inr NullCharacters else inl value.

(** The entry of the error dictionary for the field [name]. *)
Definition field_error {A} (name : string) (r : A + FieldFailure)
  : list (string * FieldFailure) :=
  match r with
  | inl _ => []
  | inr failure => [(name, failure)]
  end.

(** ** Pricing ([ConfigurationService], [OrderCreateSerializer]) *)

(** [PricingConfig.objects.filter(is_active=True).first()]. *)
Definition first_active (configs : list PricingConfig)
  : option PricingConfig :=
  List.find is_active configs.

Definition deactivate (c : PricingConfig) : PricingConfig :=
  {| base_fee := base_fee c; per_km_rate := per_km_rate c;
     is_active := false; config_created_at := config_created_at c;
     created_by := created_by c |}.

Definition activate_config (c : PricingConfig) : PricingConfig :=
  {| base_fee := base_fee c; per_km_rate := per_km_rate c;
     is_active := true; config_created_at := config_created_at c;
     created_by := created_by c |}.

(** The expression [base_fee + (distance * per_km_rate)] followed by
    [.quantize(Decimal('0.01'))], which [OrderCreateSerializer.create] and
    [ConfigurationService.calculate_price] both evaluate. *)
Definition price_of (distance_km : Decimal) (pricing_config : PricingConfig)
  : Decimal :=
  let price :=
    Dec.add (Dec.of_hundredths (base_fee pricing_config))
      (Dec.mul distance_km (Dec.of_hundredths (per_km_rate pricing_config))) in
  Dec.quantize price Dec.cent.

Definition no_active_config : string :=
  "No active pricing configuration found".

Module ConfigurationService.

Definition get_active_pricing_config (s : Store) : option PricingConfig :=
    first_active (pricing_configs s).

Definition calculate_price (distance_km : Decimal)
    (pricing_config : option PricingConfig) (s : Store) : result Decimal :=
    let pricing_config :=
      match pricing_config with
      | None => get_active_pricing_config s
      | Some c => Some c
      end in
    match pricing_config with
    | None => Err (ValueError no_active_config)
    | Some c => Ok (price_of distance_km c)
    end.

  (** [update_pricing_config]; the amounts are hundredths, so
      [Decimal('0.01')] is 1, [Decimal('1000.00')] is 100000 and
      [Decimal('100.00')] is 10000.  The log entry is not part of the
      store. *)
Definition update_pricing_config (new_base_fee new_per_km_rate : Z)
    (admin_user : User) (now : Z) (s : Store) : Store * result PricingConfig :=
    if new_base_fee <? 1
    then (s, Err (ValueError "Base fee must be at least 0.01"))
    else if new_per_km_rate <? 1
    then (s, Err (ValueError "Per-kilometer rate must be at least 0.01"))
    else if 100000 <? new_base_fee
    then (s, Err (ValueError "Base fee cannot exceed 1000.00"))
    else if 10000 <? new_per_km_rate
    then (s, Err (ValueError "Per-kilometer rate cannot exceed 100.00"))
    else if negb (bool_decide (role admin_user = ADMIN))
    then (s, Err (ValueError
                    "Only admin users can update pricing configuration"))
    else
      let s1 :=
        with_pricing_configs
          (map (fun c => if is_active c then deactivate c else c)) s in
      let new_config :=
        {| base_fee := new_base_fee; per_km_rate := new_per_km_rate;
           is_active := true; config_created_at := now;
           created_by := user_pk admin_user |} in
      (with_pricing_configs (fun l => l ++ [new_config]) s1, Ok new_config).

End ConfigurationService.

Module PricingConfigViewSet.

  (** [PricingConfigSerializer.is_valid] on a body that carries [base_fee]
      and [per_km_rate]: both are [DecimalField(max_digits=10,
      decimal_places=2)]. *)
Definition is_valid (new_base_fee new_per_km_rate : Z) : result (Z * Z) :=
    match run_decimal_field new_base_fee,
          run_decimal_field new_per_km_rate with
    | inl new_base_fee, inl new_per_km_rate =>
        Ok (new_base_fee, new_per_km_rate)
    | base_fee_result, per_km_rate_result =>
        Err (FieldErrors (field_error "base_fee" base_fee_result
                          ++ field_error "per_km_rate" per_km_rate_result))
    end.

  (** [create] with [perform_create]: the body carries [base_fee] and
      [per_km_rate]; [is_active] is overridden by the [save] call. *)
Definition create (user : User) (new_base_fee new_per_km_rate : Z)
    (now : Z) (s : Store) : Store * result PricingConfig :=
    if negb (bool_decide (role user = ADMIN)) then (s, Err PermissionDenied)
    else
      match is_valid new_base_fee new_per_km_rate with
      | Err e => (s, Err e)
      | Ok (new_base_fee, new_per_km_rate) =>
          let s1 := with_pricing_configs (map deactivate) s in
          let new_config :=
            {| base_fee := new_base_fee; per_km_rate := new_per_km_rate;
               is_active := true; config_created_at := now;
               created_by := user_pk user |} in
          (with_pricing_configs (fun l => l ++ [new_config]) s1,
           Ok new_config)
      end.

  (** [activate]: [config] is read before the bulk update and saved after
      it, under its primary key [pk]. *)
Definition activate (user : User) (pk : nat) (s : Store)
    : Store * result PricingConfig :=
    if negb (bool_decide (role user = ADMIN)) then (s, Err PermissionDenied)
    else
      match pricing_configs s !! pk with
      | None => (s, Err Http404)
      | Some config =>
          let s1 := with_pricing_configs (map deactivate) s in
          let config := activate_config config in
          (with_pricing_configs (fun l => <[pk := config]> l) s1, Ok config)
      end.

  (** [update] (PUT) through [PricingConfigSerializer], whose writable
      fields are [base_fee], [per_km_rate] and [is_active]. *)
Definition update (user : User) (pk : nat)
    (new_base_fee new_per_km_rate : Z) (new_is_active : bool) (s : Store)
    : Store * result PricingConfig :=
    if negb (bool_decide (role user = ADMIN)) then (s, Err PermissionDenied)
    else
      match pricing_configs s !! pk with
      | None => (s, Err Http404)
      | Some config =>
          match is_valid new_base_fee new_per_km_rate with
          | Err e => (s, Err e)
          | Ok (new_base_fee, new_per_km_rate) =>
              let config :=
                {| base_fee := new_base_fee; per_km_rate := new_per_km_rate;
                   is_active := new_is_active;
                   config_created_at := config_created_at config;
                   created_by := created_by config |} in
              (with_pricing_configs (fun l => <[pk := config]> l) s,
               Ok config)
          end
      end.

End PricingConfigViewSet.

(** ** Order creation ([OrderCreateSerializer], [OrderService]) *)

(** The body of a creation request with its three fields present:
    [distance_km] is a number of at most two decimal places, in
    hundredths. *)
Record OrderData := {
  data_pickup_address : string;
  data_delivery_address : string;
  data_distance_km : Z
}.

(** [Order.objects.create(...)] with [status='CREATED'], for numbers that
    fit their columns: the new row takes a primary key no row has,
    [created_at] is [auto_now_add], the courier and the other instants are
    null. *)
Definition new_order (s : Store) (customer_pk : nat)
  (pickup delivery : string) (distance : Z) (new_price : Z) (now : Z)
  : Order :=
  {| order_pk := fresh (dom (orders s)); customer := customer_pk;
     assigned_courier := None;
     pickup_address := pickup; delivery_address := delivery;
     distance_km := distance; price := new_price; status := CREATED;
     created_at := now; assigned_at := None; picked_up_at := None;
     in_transit_at := None; delivered_at := None |}.

Module OrderCreateSerializer.

Definition validate_distance_km (value : Z) : result Z :=
  if value <=? 0
  then Err (ValidationError "Distance must be greater than 0")
  else Ok value.

Definition validate_pickup_address (value : string) : result string :=
  if negb (truthy value) || negb (truthy (strip value))
  then Err (ValidationError "Pickup address is required")
  else Ok (strip value).

Definition validate_delivery_address (value : string) : result string :=
  if negb (truthy value) || negb (truthy (strip value))
  then Err (ValidationError "Delivery address is required")
  else Ok (strip value).

Definition validate (data : OrderData) : result OrderData :=
  if bool_decide (lower (strip (data_pickup_address data))
                  = lower (strip (data_delivery_address data)))
  then Err (ValidationError
              "Pickup and delivery addresses cannot be the same")
  else Ok data.

(** One field of [Serializer.to_internal_value]: the field's own
    [run_validation], then the [validate_<field>] method on the value it
    gives; a [ValidationError] of the method becomes the field's entry. *)
Definition run_field {A B} (run_validation : A → B + FieldFailure)
  (validate_method : B → result B) (primitive_value : A)
  : B + FieldFailure :=
  match run_validation primitive_value with
  | inr failure => inr failure
  | inl validated_value =>
      match validate_method validated_value with
      | Ok validated_value => inl validated_value
      | Err (ValidationError msg) => inr (Message msg)
      | Err _ => inr (Message EmptyString)
      end
  end.

(** [is_valid(raise_exception=True)]: every field of [Meta.fields] is run,
    a [CharField] for each address (the model has [TextField]s) and a
    [DecimalField(max_digits=10, decimal_places=2)] for the distance; the
    failures are raised together, and [validate] runs when there is
    none. *)
Definition is_valid (data : OrderData) : result OrderData :=
  let pickup :=
    run_field run_char_field validate_pickup_address
      (data_pickup_address data) in
  let delivery :=
    run_field run_char_field validate_delivery_address
      (data_delivery_address data) in
  let distance :=
    run_field run_decimal_field validate_distance_km
      (data_distance_km data) in
  match pickup, delivery, distance with
  | inl pickup, inl delivery, inl distance =>
      validate {| data_pickup_address := pickup;
                  data_delivery_address := delivery;
                  data_distance_km := distance |}
  | _, _, _ =>
      Err (FieldErrors (field_error "pickup_address" pickup
                        ++ field_error "delivery_address" delivery
                        ++ field_error "distance_km" distance))
  end.

Definition create (request_user : User) (validated_data : OrderData)
  (now : Z) (s : Store) : Store * result Order :=
  match first_active (pricing_configs s) with
  | None => (s, Err (ValidationError no_active_config))
  | Some pricing_config =>
      let distance := data_distance_km validated_data in
      let new_price :=
        price_of (Dec.of_hundredths distance) pricing_config in
      if negb (fits_column distance
               && fits_column (coefficient new_price))
      then (s, Err InvalidOperation)
      else
        let order :=
          new_order s (user_pk request_user)
            (data_pickup_address validated_data)
            (data_delivery_address validated_data)
            distance (coefficient new_price) now in
        (save_order order s, Ok order)
  end.

End OrderCreateSerializer.

(** ** Courier workload and assignment *)

(** [CourierStatus.objects.get_or_create(courier=courier,
    defaults={'is_available': True, 'current_orders_count': 0})]. *)
Definition get_or_create (courier : nat) (now : Z) (s : Store)
  : Store * CourierStatus :=
  match courier_statuses s !! courier with
  | Some courier_status => (s, courier_status)
  | None =>
      let courier_status :=
        {| is_available := true; current_orders_count := 0;
           last_activity := now; location_description := "" |} in
      (with_courier_statuses (insert courier courier_status) s,
       courier_status)
  end.

(** [courier_status.save()]: [last_activity] is [auto_now]. *)
Definition save_courier_status (courier : nat) (cs : CourierStatus)
  (now : Z) (s : Store) : Store :=
  with_courier_statuses
    (insert courier
       {| is_available := is_available cs;
          current_orders_count := current_orders_count cs;
          last_activity := now;
          location_description := location_description cs |}) s.

Definition set_current_orders_count (n : Z) (cs : CourierStatus)
  : CourierStatus :=
  {| is_available := is_available cs; current_orders_count := n;
     last_activity := last_activity cs;
     location_description := location_description cs |}.

(** [OrderViewSet._update_courier_workload]. *)
Definition _update_courier_workload (courier : nat) (change : Z) (now : Z)
  (s : Store) : Store :=
  let '(s1, courier_status) := get_or_create courier now s in
  let courier_status :=
    set_current_orders_count
      (Z.max 0 (current_orders_count courier_status + change))
      courier_status in
  save_courier_status courier courier_status now s1.

(** The join [courier__role='COURIER']. *)
Definition has_courier_role (s : Store) (courier : nat) : bool :=
  match users s !! courier with
  | Some u => bool_decide (role u = COURIER)
  | None => false
  end.

(** [order_by('current_orders_count')]: a stable insertion sort of the
    rows. *)
Fixpoint insert_by_count (x : nat * CourierStatus)
  (l : list (nat * CourierStatus)) : list (nat * CourierStatus) :=
  match l with
  | [] => [x]
  | y :: l' =>
      if current_orders_count (snd x) <=? current_orders_count (snd y)
      then x :: y :: l'
      else y :: insert_by_count x l'
  end.

Definition order_by_current_orders_count (l : list (nat * CourierStatus))
  : list (nat * CourierStatus) :=
  foldr insert_by_count [] l.

(** The eligibility filter [is_available=True, courier__role='COURIER']. *)
Definition eligible (s : Store) (row : nat * CourierStatus) : bool :=
  is_available (snd row) && has_courier_role s (fst row).

(** The query set [available_couriers] of [_try_auto_assignment]. *)
Definition available_couriers (s : Store) : list (nat * CourierStatus) :=
  order_by_current_orders_count
    (List.filter (eligible s) (map_to_list (courier_statuses s))).

(** The three assignments every assignment path makes on the order. *)
Definition assign_fields (courier : nat) (now : Z) (order : Order) : Order :=
  set_assigned_at (Some now)
    (set_status ASSIGNED (set_assigned_courier (Some courier) order)).

(** The assignments of [reassign_courier] on the order: the new courier,
    a fresh [assigned_at], and the way back from [PICKED_UP]. *)
Definition reassign_fields (new_courier : nat) (now : Z) (order : Order)
  : Order :=
  let order :=
    set_assigned_at (Some now)
      (set_assigned_courier (Some new_courier) order) in
  if bool_decide (status order = PICKED_UP)
  then set_picked_up_at None (set_status ASSIGNED order)
  else order.

(** [OrderViewSet._try_auto_assignment]; the order instance is changed in
    place, so the changed instance is returned with the store. *)
Definition _try_auto_assignment (order : Order) (now : Z) (s : Store)
  : Store * Order :=
  match available_couriers s with
  | [] => (s, order)
  | (courier, _) :: _ =>
      let order := assign_fields courier now order in
      let s1 := save_order order s in
      (_update_courier_workload courier 1 now s1, order)
  end.

Module CourierAssignmentSerializer.

(** [validate_courier_id]: the row created by [get_or_create] stays when
    the validation fails afterwards. *)
Definition validate_courier_id (value : nat) (now : Z) (s : Store)
  : Store * result nat :=
  match users s !! value with
  | None => (s, Err (ValidationError "Courier not found"))
  | Some u =>
      if negb (bool_decide (role u = COURIER))
      then (s, Err (ValidationError "Courier not found"))
      else
        let '(s1, courier_status) := get_or_create value now s in
        if negb (is_available courier_status)
        then (s1, Err (ValidationError "Courier is not available"))
        else (s1, Ok value)
  end.

End CourierAssignmentSerializer.

Module OrderStatusUpdateSerializer.

(** The dictionary [valid_transitions] of [validate_status]. *)
Definition valid_transitions (current_status : OrderStatus)
  : list OrderStatus :=
  match current_status with
  | CREATED => [ASSIGNED; CANCELLED]
  | ASSIGNED => [PICKED_UP; CANCELLED]
  | PICKED_UP => [IN_TRANSIT; CANCELLED]
  | IN_TRANSIT => [DELIVERED; CANCELLED]
  | DELIVERED => []
  | CANCELLED => []
  end.

Definition transition_message (current_status value : OrderStatus) : string :=
  "Cannot transition from " +:+ status_name current_status +:+ " to "
    +:+ status_name value.

Definition validate_status (instance : option Order) (value : OrderStatus)
  : result OrderStatus :=
  match instance with
  | None => Ok value
  | Some inst =>
      let current_status := status inst in
      if negb (bool_decide (value ∈ valid_transitions current_status))
      then Err (ValidationError (transition_message current_status value))
      else Ok value
  end.

(** The attribute assignments of [update], before its [save()]. *)
Definition update_fields (instance : Order) (new_status : OrderStatus)
  (now : Z) : Order :=
  let instance := set_status new_status instance in
  match new_status with
  | ASSIGNED => set_assigned_at (Some now) instance
  | PICKED_UP => set_picked_up_at (Some now) instance
  | IN_TRANSIT => set_in_transit_at (Some now) instance
  | DELIVERED => set_delivered_at (Some now) instance
  | _ => instance
  end.

Definition update (instance : Order) (new_status : OrderStatus) (now : Z)
  (s : Store) : Store * Order :=
  let instance := update_fields instance new_status now in
  (save_order instance s, instance).

End OrderStatusUpdateSerializer.

(** ** The order views ([OrderViewSet]) *)

Module OrderViewSet.

(** [get_queryset]: which orders the role of [user] lets them see. *)
Definition in_queryset (user : User) (o : Order) : bool :=
  match role user with
  | ADMIN => true
  | COURIER =>
      bool_decide (assigned_courier o = Some (user_pk user))
      || bool_decide (status o = CREATED)
  | CUSTOMER => bool_decide (customer o = user_pk user)
  end.

(** [get_object]: the row of key [pk] in the query set of [user]. *)
Definition get_object (user : User) (pk : nat) (s : Store) : result Order :=
  match orders s !! pk with
  | None => Err Http404
  | Some o => if in_queryset user o then Ok o else Err Http404
  end.

(** [create], behind the permission class [IsCustomerUser]. *)
Definition create (user : User) (data : OrderData) (now : Z) (s : Store)
  : Store * result Order :=
  if negb (bool_decide (role user = CUSTOMER)) then (s, Err PermissionDenied)
  else
    match OrderCreateSerializer.is_valid data with
    | Err e => (s, Err e)
    | Ok validated_data =>
        match OrderCreateSerializer.create user validated_data now s with
        | (s1, Err e) => (s1, Err e)
        | (s1, Ok order) =>
            let '(s2, order) := _try_auto_assignment order now s1 in
            (s2, Ok order)
        end
    end.

(** The body of [update_status] once its permission check has passed: the
    serializer validates and saves, then the workload of the courier of a
    delivered or cancelled order goes down.  This is the operation the
    specification names [apply_status_transition]. *)
Definition apply_status_transition (order : Order) (requested : OrderStatus)
  (now : Z) (s : Store) : Store * result Order :=
  match OrderStatusUpdateSerializer.validate_status (Some order) requested with
  | Err e => (s, Err e)
  | Ok new_status =>
      let '(s1, updated_order) :=
        OrderStatusUpdateSerializer.update order new_status now s in
      if bool_decide (status updated_order ∈ [DELIVERED; CANCELLED])
      then
        match assigned_courier updated_order with
        | Some courier =>
            (_update_courier_workload courier (-1) now s1, Ok updated_order)
        | None => (s1, Ok updated_order)
        end
      else (s1, Ok updated_order)
  end.

Definition update_status (user : User) (pk : nat) (requested : OrderStatus)
  (now : Z) (s : Store) : Store * result Order :=
  match get_object user pk s with
  | Err e => (s, Err e)
  | Ok order =>
      if bool_decide (role user = COURIER)
         && negb (bool_decide (assigned_courier order = Some (user_pk user)))
      then (s, Err (HTTP_403_FORBIDDEN
                      "You can only update status of your assigned orders"))
      else apply_status_transition order requested now s
  end.

(** [assign_courier], behind the permission class [IsAdminUser]. *)
Definition assign_courier (user : User) (pk courier_id : nat) (now : Z)
  (s : Store) : Store * result Order :=
  if negb (bool_decide (role user = ADMIN)) then (s, Err PermissionDenied)
  else
    match get_object user pk s with
    | Err e => (s, Err e)
    | Ok order =>
        if negb (bool_decide (status order ∈ [CREATED; ASSIGNED]))
        then (s, Err (HTTP_400_BAD_REQUEST
          "Can only assign couriers to orders with CREATED or ASSIGNED status"))
        else
          match CourierAssignmentSerializer.validate_courier_id
                  courier_id now s with
          | (s1, Err e) => (s1, Err e)
          | (s1, Ok courier) =>
              let old_courier := assigned_courier order in
              let s2 :=
                match old_courier with
                | Some old =>
                    if bool_decide (old ≠ courier)
                    then _update_courier_workload old (-1) now s1
                    else s1
                | None => s1
                end in
              let order := assign_fields courier now order in
              let s3 := save_order order s2 in
              if bool_decide (old_courier ≠ Some courier)
              then (_update_courier_workload courier 1 now s3, Ok order)
              else (s3, Ok order)
          end
    end.

Definition reassign_courier (user : User) (pk courier_id : nat) (now : Z)
  (s : Store) : Store * result Order :=
  match get_object user pk s with
  | Err e => (s, Err e)
  | Ok order =>
      if negb (bool_decide (status order ∈ [ASSIGNED; PICKED_UP]))
      then (s, Err (HTTP_400_BAD_REQUEST
        "Can only reassign orders with ASSIGNED or PICKED_UP status"))
      else
        match assigned_courier order with
        | None => (s, Err (HTTP_400_BAD_REQUEST
                    "Order is not currently assigned to any courier"))
        | Some old_courier =>
            match CourierAssignmentSerializer.validate_courier_id
                    courier_id now s with
            | (s1, Err e) => (s1, Err e)
            | (s1, Ok new_courier) =>
                if bool_decide (old_courier = new_courier)
                then (s1, Err (HTTP_400_BAD_REQUEST
                        "Order is already assigned to this courier"))
                else
                  let s2 := _update_courier_workload old_courier (-1) now s1 in
                  let s3 := _update_courier_workload new_courier 1 now s2 in
                  let order := reassign_fields new_courier now order in
                  (save_order order s3, Ok order)
            end
        end
  end.

Definition accept_order (user : User) (pk : nat) (now : Z) (s : Store)
  : Store * result Order :=
  if negb (bool_decide (role user = COURIER))
  then (s, Err (HTTP_403_FORBIDDEN "Only couriers can accept orders"))
  else
    match get_object user pk s with
    | Err e => (s, Err e)
    | Ok order =>
        if negb (bool_decide (status order = CREATED))
        then (s, Err (HTTP_400_BAD_REQUEST
                        "Order is not available for acceptance"))
        else
          let '(s1, courier_status) := get_or_create (user_pk user) now s in
          if negb (is_available courier_status)
          then (s1, Err (HTTP_400_BAD_REQUEST
                           "You are not available for new orders"))
          else
            let order := assign_fields (user_pk user) now order in
            let s2 := save_order order s1 in
            (_update_courier_workload (user_pk user) 1 now s2, Ok order)
    end.

End OrderViewSet.

Module CourierStatusViewSet.

(** [update_availability]; the two optional arguments are what
    [request.data.get] returns for [is_available] and
    [location_description]. *)
Definition update_availability (user : User) (new_is_available : option bool)
  (new_location : option string) (now : Z) (s : Store)
  : Store * result CourierStatus :=
  if negb (bool_decide (role user = COURIER))
  then (s, Err (HTTP_403_FORBIDDEN
                  "Only couriers can update their availability"))
  else
    let '(s1, courier_status) := get_or_create (user_pk user) now s in
    let courier_status :=
      {| is_available := default (is_available courier_status) new_is_available;
         current_orders_count := current_orders_count courier_status;
         last_activity := now;
         location_description :=
           default (location_description courier_status) new_location |} in
    (save_courier_status (user_pk user) courier_status now s1,
     Ok courier_status).

End CourierStatusViewSet.

Module OrderService.

(** [create_order]; [distance_km] has the two decimal places of its
    column. *)
Definition create_order (customer_user : User) (pickup delivery : string)
  (distance : Z) (now : Z) (s : Store) : Store * result Order :=
  match ConfigurationService.calculate_price
          (Dec.of_hundredths distance) None s with
  | Err e => (s, Err e)
  | Ok new_price =>
      if negb (fits_column distance
               && fits_column (coefficient new_price))
      then (s, Err InvalidOperation)
      else
        let order :=
          new_order s (user_pk customer_user) pickup delivery distance
            (coefficient new_price) now in
        (save_order order s, Ok order)
  end.

Definition assign_courier (order : Order) (courier : User) (now : Z)
  (s : Store) : Store * result Order :=
  if negb (bool_decide (status order = CREATED))
  then (s, Err (ValueError ("Cannot assign courier to order with status "
                            +:+ status_name (status order))))
  else if negb (bool_decide (role courier = COURIER))
  then (s, Err (ValueError "Assigned user must be a courier"))
  else
    let '(s1, courier_status) := get_or_create (user_pk courier) now s in
    if negb (is_available courier_status)
    then (s1, Err (ValueError "Courier is not available"))
    else
      let order := assign_fields (user_pk courier) now order in
      let s2 := save_order order s1 in
      let courier_status :=
        set_current_orders_count (current_orders_count courier_status + 1)
          courier_status in
      (save_courier_status (user_pk courier) courier_status now s2, Ok order).

End OrderService.

(** ** Requests and runs *)

(** The operations of the program that the runs are made of, with their
    arguments: the creation of an order and the four order actions
    [update_status], [assign_courier], [reassign_courier] and
    [accept_order], [update_availability], the two [OrderService] calls and
    the four ways to write a pricing configuration.  The routes
    [OrderViewSet] inherits from [ModelViewSet] to rewrite or delete an order
    row ([update], [partial_update], [destroy]) are not among them: they are
    embedded apart, as [OrderViewSet_partial_update] and
    [OrderViewSet_destroy], and what is proved of runs is proved of the
    operations listed here. *)
Inductive Request :=
| CreateOrder (user : User) (data : OrderData)
| UpdateStatus (user : User) (pk : nat) (requested : OrderStatus)
| AssignCourier (user : User) (pk courier_id : nat)
| ReassignCourier (user : User) (pk courier_id : nat)
| AcceptOrder (user : User) (pk : nat)
| UpdateAvailability (user : User) (new_is_available : option bool)
    (new_location : option string)
| ServiceCreateOrder (customer_user : User) (pickup delivery : string)
    (distance : Z)
| ServiceAssignCourier (pk : nat) (courier : User)
| CreatePricingConfig (user : User) (new_base_fee new_per_km_rate : Z)
| ActivatePricingConfig (user : User) (pk : nat)
| UpdatePricingConfig (user : User) (pk : nat)
    (new_base_fee new_per_km_rate : Z) (new_is_active : bool)
| ServiceUpdatePricingConfig (new_base_fee new_per_km_rate : Z)
    (admin_user : User).

(** The store a request leaves behind when it is served at instant [now].
    [OrderService.assign_courier] is given the stored row of key [pk]. *)
Definition handle (now : Z) (req : Request) (s : Store) : Store :=
  match req with
  | CreateOrder user data => fst (OrderViewSet.create user data now s)
  | UpdateStatus user pk requested =>
      fst (OrderViewSet.update_status user pk requested now s)
  | AssignCourier user pk courier_id =>
      fst (OrderViewSet.assign_courier user pk courier_id now s)
  | ReassignCourier user pk courier_id =>
      fst (OrderViewSet.reassign_courier user pk courier_id now s)
  | AcceptOrder user pk => fst (OrderViewSet.accept_order user pk now s)
  | UpdateAvailability user a l =>
      fst (CourierStatusViewSet.update_availability user a l now s)
  | ServiceCreateOrder c p d km =>
      fst (OrderService.create_order c p d km now s)
  | ServiceAssignCourier pk courier =>
      match orders s !! pk with
      | Some order => fst (OrderService.assign_courier order courier now s)
      | None => s
      end
  | CreatePricingConfig user b r =>
      fst (PricingConfigViewSet.create user b r now s)
  | ActivatePricingConfig user pk =>
      fst (PricingConfigViewSet.activate user pk s)
  | UpdatePricingConfig user pk b r a =>
      fst (PricingConfigViewSet.update user pk b r a s)
  | ServiceUpdatePricingConfig b r admin_user =>
      fst (ConfigurationService.update_pricing_config b r admin_user now s)
  end.

(** A run serves timed requests one after the other. *)
Fixpoint run (reqs : list (Z * Request)) (s : Store) : Store :=
  match reqs with
  | [] => s
  | (now, req) :: reqs' => run reqs' (handle now req s)
  end.

(** A store before any order is placed: no order rows, and every courier
    status row at workload zero. *)
Definition initial (s : Store) : Prop :=
  orders s = ∅
  ∧ map_Forall (fun _ cs => current_orders_count cs = 0) (courier_statuses s).

Definition is_pricing_request (req : Request) : bool :=
  match req with
  | CreatePricingConfig _ _ _ | ActivatePricingConfig _ _
  | UpdatePricingConfig _ _ _ _ _ | ServiceUpdatePricingConfig _ _ _ => true
  | _ => false
  end.

(** A status update that asks for [ASSIGNED]. *)
Definition asks_assigned (req : Request) : bool :=
  match req with
  | UpdateStatus _ _ ASSIGNED => true
  | _ => false
  end.

(** ** The bookkeeping the claims speak of *)

(** The filter [assigned_courier=courier,
    status__in=['ASSIGNED', 'PICKED_UP', 'IN_TRANSIT']] that [my_profile]
    and [dispatch_statistics] count. *)
Definition live_for (courier : nat) (o : Order) : bool :=
  bool_decide (assigned_courier o = Some courier)
  && bool_decide (status o ∈ [ASSIGNED; PICKED_UP; IN_TRANSIT]).

Definition count_live (courier : nat) (m : gmap nat Order) : nat :=
  length (List.filter (fun row => live_for courier (snd row)) (map_to_list m)).

Definition live_count (s : Store) (courier : nat) : Z :=
  Z.of_nat (count_live courier (orders s)).

(** The workload counter of a courier: the [current_orders_count] of their
    row, and zero, the default the row is created with, before the row
    exists. *)
Definition workload (s : Store) (courier : nat) : Z :=
  match courier_statuses s !! courier with
  | Some cs => current_orders_count cs
  | None => 0
  end.

(** What one order contributes to the live count of [courier]. *)
Definition delta (courier : nat) (o : Order) : Z :=
  if live_for courier o then 1 else 0.

(** The invariant of the runs: the counters agree with the live counts, every
    row sits under its own key, and an order in [CREATED] has no courier. *)
Definition consistent (s : Store) : Prop :=
  (∀ c, workload s c = live_count s c)
  ∧ (∀ pk o, orders s !! pk = Some o →
       order_pk o = pk ∧ (status o = CREATED → assigned_courier o = None)).

(** The statuses past [CREATED] in which an order is or was carried. *)
Definition carried (st : OrderStatus) : Prop :=
  st ∈ [ASSIGNED; PICKED_UP; IN_TRANSIT; DELIVERED].

(** The transition table as the specification lists it: the pairs of a
    current status and a status allowed next. *)
Definition spec_table : list (OrderStatus * OrderStatus) :=
  [(CREATED, ASSIGNED); (CREATED, CANCELLED);
   (ASSIGNED, PICKED_UP); (ASSIGNED, CANCELLED);
   (PICKED_UP, IN_TRANSIT); (PICKED_UP, CANCELLED);
   (IN_TRANSIT, DELIVERED); (IN_TRANSIT, CANCELLED)].

(** Half-up rounding to two places, as the specification words the price:
    [n / d] rounded to the nearest integer, a tie going up, for [0 <= n]
    and [0 < d]. *)
Definition spec_round_half_up (n d : Z) : Z := (2 * n + d) / (2 * d).

(** The price of the specification for amounts in hundredths: the exact
    value [base_fee + distance * per_km_rate] in ten-thousandths, rounded
    half-up to hundredths. *)
Definition spec_price_half_up (distance b r : Z) : Z :=
  spec_round_half_up (b * 100 + distance * r) 100.

(** The exact price in ten-thousandths. *)
Definition exact_price (distance b r : Z) : Z := b * 100 + distance * r.

(** [p] hundredths is [x] ten-thousandths rounded to the nearest hundredth,
    ties to the even hundredth. *)
Definition nearest_even_hundredth (p x : Z) : Prop :=
  2 * Z.abs (100 * p - x) ≤ 100
  ∧ (2 * Z.abs (100 * p - x) = 100 → Z.even p = true).

(** The order row [o'] a request served at [now] may leave under a key
    whose row was [old]: a new row in [CREATED], possibly assigned at once;
    or the old row after a status update, an assignment or a
    reassignment. *)
Definition written (now : Z) (req : Request) (old : option Order)
  (o' : Order) : Prop :=
  match old with
  | None =>
      ∃ o0, status o0 = CREATED ∧ assigned_courier o0 = None
            ∧ (o' = o0 ∨ ∃ c, o' = assign_fields c now o0)
  | Some o =>
      (∃ user requested,
         req = UpdateStatus user (order_pk o) requested
         ∧ requested ∈ OrderStatusUpdateSerializer.valid_transitions (status o)
         ∧ o' = OrderStatusUpdateSerializer.update_fields o requested now)
      ∨ (∃ k, o' = assign_fields k now o)
      ∨ (∃ k, o' = reassign_fields k now o)
  end.

(** Every order that is or was carried has a courier. *)
Definition carried_has_courier (s : Store) : Prop :=
  ∀ pk o, orders s !! pk = Some o → carried (status o) →
          is_Some (assigned_courier o).

(** The order [order_by('current_orders_count')] sorts rows in. *)
Definition count_le (x y : nat * CourierStatus) : Prop :=
  current_orders_count (snd x) ≤ current_orders_count (snd y).

(** ** Example stores *)

Definition alice : User := {| user_pk := 1; role := CUSTOMER |}.
Definition bob : User := {| user_pk := 2; role := COURIER |}.
Definition carol : User := {| user_pk := 3; role := COURIER |}.
Definition root : User := {| user_pk := 4; role := ADMIN |}.

Definition tariff (b r : Z) : PricingConfig :=
  {| base_fee := b; per_km_rate := r; is_active := true;
     config_created_at := 0; created_by := 4 |}.

Definition idle (available : bool) : CourierStatus :=
  {| is_available := available; current_orders_count := 0;
     last_activity := 0; location_description := "" |}.

Definition people : gmap nat User :=
  <[1%nat := alice]> (<[2%nat := bob]> (<[3%nat := carol]>
    (<[4%nat := root]> ∅))).

(** One courier status row, for [bob], and the usual tariff; [carol] has no
    row yet. *)
Definition depot : Store :=
  {| users := people; orders := ∅;
     courier_statuses := <[2%nat := idle true]> ∅;
     pricing_configs := [tariff 5000 2000] |}.

Definition loaded (available : bool) (n : Z) : CourierStatus :=
  {| is_available := available; current_orders_count := n;
     last_activity := 0; location_description := "" |}.

(** Four available couriers with workloads 3, 1, 1 and 5, and an
    unavailable one with workload 0. *)
Definition busy_depot : Store :=
  {| users :=
       list_to_map
         [(11%nat, {| user_pk := 11; role := COURIER |});
          (12%nat, {| user_pk := 12; role := COURIER |});
          (13%nat, {| user_pk := 13; role := COURIER |});
          (14%nat, {| user_pk := 14; role := COURIER |});
          (15%nat, {| user_pk := 15; role := COURIER |});
          (1%nat, alice)];
     orders := ∅;
     courier_statuses :=
       list_to_map
         [(11%nat, loaded true 3); (12%nat, loaded true 1);
          (13%nat, loaded true 1); (14%nat, loaded true 5);
          (15%nat, loaded false 0)];
     pricing_configs := [tariff 5000 2000] |}.

(** No courier status row at all. *)
Definition empty_depot (b r : Z) : Store :=
  {| users := people; orders := ∅; courier_statuses := ∅;
     pricing_configs := [tariff b r] |}.

(** No pricing configuration is active. *)
Definition closed_depot : Store :=
  {| users := people; orders := ∅; courier_statuses := ∅;
     pricing_configs := [deactivate (tariff 5000 2000)] |}.

(** An order of [alice] in status [st], carried by [courier]. *)
Definition waybill (st : OrderStatus) (courier : option nat) : Order :=
  {| order_pk := 0; customer := 1; assigned_courier := courier;
     pickup_address := "12 Bole Road";
     delivery_address := "7 Churchill Avenue";
     distance_km := 500; price := 15000; status := st;
     created_at := 10; assigned_at := Some 10; picked_up_at := None;
     in_transit_at := None; delivered_at := None |}.

Definition parcel (km : Z) : OrderData :=
  {| data_pickup_address := "12 Bole Road";
     data_delivery_address := "7 Churchill Avenue";
     data_distance_km := km |}.

(** ** Further views and services *)

(** [a < b] on decimals: the coefficients at the smaller exponent. *)
Definition Decimal_lt (a b : Decimal) : bool :=
  let e := Z.min (exponent a) (exponent b) in
  coefficient a * 10 ^ (exponent a - e)
  <? coefficient b * 10 ^ (exponent b - e).

(** The entries ['is_valid'], ['errors'] and ['warnings'] of the answer of
    [ConfigurationService.validate_configuration_change]; the entry
    ['sample_impacts'], which carries floats, is not modelled. *)
Record Validation := {
  validation_is_valid : bool;
  validation_errors : list string;
  validation_warnings : list string
}.

(** One [if ... elif ...] of [validate_configuration_change]: what it appends
    to the errors and to the warnings. *)
Definition check_amount (is_error is_warning : bool) (error warning : string)
  (acc : list string * list string) : list string * list string :=
  if is_error then (fst acc ++ [error], snd acc)
  else if is_warning then (fst acc, snd acc ++ [warning])
  else acc.

Definition validate_configuration_change (new_base_fee new_per_km_rate : Decimal)
  : Validation :=
  let d (n : Z) := Dec.of_hundredths n in
  let acc := ([], []) in
  let acc :=
    check_amount (Decimal_lt new_base_fee (d 1))
      (Decimal_lt new_base_fee (d 1000))
      "Base fee must be at least 0.01"
      "Base fee is very low, consider minimum viable pricing" acc in
  let acc :=
    check_amount (Decimal_lt new_per_km_rate (d 1))
      (Decimal_lt new_per_km_rate (d 500))
      "Per-kilometer rate must be at least 0.01"
      "Per-kilometer rate is very low, may not cover costs" acc in
  let acc :=
    check_amount (Decimal_lt (d 100000) new_base_fee)
      (Decimal_lt (d 20000) new_base_fee)
      "Base fee cannot exceed 1000.00"
      "Base fee is very high, may deter customers" acc in
  let acc :=
    check_amount (Decimal_lt (d 10000) new_per_km_rate)
      (Decimal_lt (d 5000) new_per_km_rate)
      "Per-kilometer rate cannot exceed 100.00"
      "Per-kilometer rate is very high, may deter customers" acc in
  {| validation_is_valid := bool_decide (length (fst acc) = 0%nat);
     validation_errors := fst acc;
     validation_warnings := snd acc |}.

(** [PricingConfigViewSet.active], behind [IsAdminUser]. *)
Definition pricing_config_active (user : User) (s : Store)
  : result PricingConfig :=
  if negb (bool_decide (role user = ADMIN)) then Err PermissionDenied
  else
    match first_active (pricing_configs s) with
    | Some config => Ok config
    | None => Err Http404
    end.

(** [OrderViewSet.available_orders]: the orders in [CREATED], for
    couriers. *)
Definition available_orders (user : User) (s : Store) : result (list Order) :=
  if negb (bool_decide (role user = COURIER))
  then Err (HTTP_403_FORBIDDEN "Only couriers can view available orders")
  else
    Ok (List.filter (fun o => bool_decide (status o = CREATED))
          (map snd (map_to_list (orders s)))).

(** [CourierStatusViewSet.available_couriers], the method: the query set
    the automatic assignment reads, for admins and couriers. *)
Definition available_couriers_view (user : User) (s : Store)
  : result (list (nat * CourierStatus)) :=
  if negb (bool_decide (role user ∈ [ADMIN; COURIER]))
  then Err (HTTP_403_FORBIDDEN "Permission denied")
  else Ok (available_couriers s).

(** The answer of the method [CourierStatusViewSet.my_profile] without the
    serialized user profile: the courier's row and the three statistics. *)
Record CourierProfile := {
  profile_courier_status : CourierStatus;
  total_completed_orders : nat;
  current_active_orders : nat;
  current_orders : list Order
}.

Definition my_profile (user : User) (now : Z) (s : Store)
  : Store * result CourierProfile :=
  if negb (bool_decide (role user = COURIER))
  then (s, Err (HTTP_403_FORBIDDEN "Only couriers can view courier profile"))
  else
    let '(s1, courier_status) := get_or_create (user_pk user) now s in
    let rows := map snd (map_to_list (orders s1)) in
    let total_completed :=
      length
        (List.filter
           (fun o => bool_decide (assigned_courier o = Some (user_pk user))
                     && bool_decide (status o = DELIVERED)) rows) in
    let current :=
      List.filter
        (fun o => bool_decide (assigned_courier o = Some (user_pk user))
                  && bool_decide (status o ∈ [ASSIGNED; PICKED_UP; IN_TRANSIT]))
        rows in
    (s1, Ok {| profile_courier_status := courier_status;
               total_completed_orders := total_completed;
               current_active_orders := length current;
               current_orders := current |}).

(** The permission classes of [accounts/permissions.py] and DRF's
    [IsAuthenticated], for a request that carries an authenticated user. *)
Inductive Permission := IsAuthenticated | IsAdminUser | IsCustomerUser.

Definition has_permission (p : Permission) (user : User) : bool :=
  match p with
  | IsAuthenticated => true
  | IsAdminUser => bool_decide (role user = ADMIN)
  | IsCustomerUser => bool_decide (role user = CUSTOMER)
  end.

(** [CourierStatusViewSet.get_permissions], by the name of the action. *)
Definition courier_status_permission (action : string) : Permission :=
  if bool_decide (action ∈ ["list"; "retrieve"]) then IsAuthenticated
  else if bool_decide (action ∈ ["update"; "partial_update"])
  then IsAuthenticated
  else IsAdminUser.

(** [OrderViewSet.get_permissions], by the name of the action. *)
Definition order_permission (action : string) : Permission :=
  if bool_decide (action = "create") then IsCustomerUser
  else if bool_decide (action ∈ ["assign_courier"; "destroy"])
  then IsAdminUser
  else if bool_decide (action = "update_status") then IsAuthenticated
  else IsAuthenticated.

(** The three extra actions of [CourierStatusViewSet] as a request reaches
    them: the permission class of the action is checked, then the method
    runs. *)
Definition request_update_availability (user : User)
  (new_is_available : option bool) (new_location : option string) (now : Z)
  (s : Store) : Store * result CourierStatus :=
  if negb (has_permission (courier_status_permission "update_availability")
             user)
  then (s, Err PermissionDenied)
  else CourierStatusViewSet.update_availability user new_is_available
         new_location now s.

Definition request_my_profile (user : User) (now : Z) (s : Store)
  : Store * result CourierProfile :=
  if negb (has_permission (courier_status_permission "my_profile") user)
  then (s, Err PermissionDenied)
  else my_profile user now s.

Definition request_available_couriers (user : User) (s : Store)
  : result (list (nat * CourierStatus)) :=
  if negb (has_permission (courier_status_permission "available_couriers")
             user)
  then Err PermissionDenied
  else available_couriers_view user s.

(** The dictionary [progress_map] of [tracking_info]. *)
Definition progress_map (st : OrderStatus) : Z :=
  match st with
  | CREATED => 0
  | ASSIGNED => 25
  | PICKED_UP => 50
  | IN_TRANSIT => 75
  | DELIVERED => 100
  | CANCELLED => 0
  end.

Record TrackingStep := {
  step_status : OrderStatus;
  step_label : string;
  step_completed : bool;
  step_timestamp : option Z;
  step_progress : Z
}.

(** The list ['tracking_steps'] of [tracking_info]. *)
Definition tracking_steps (order : Order) : list TrackingStep :=
  [ {| step_status := CREATED; step_label := "Order Created";
       step_completed := negb (bool_decide (status order = CREATED));
       step_timestamp := Some (created_at order); step_progress := 0 |};
    {| step_status := ASSIGNED; step_label := "Courier Assigned";
       step_completed := negb (bool_decide (status order ∈ [CREATED]));
       step_timestamp := assigned_at order; step_progress := 25 |};
    {| step_status := PICKED_UP; step_label := "Order Picked Up";
       step_completed :=
         negb (bool_decide (status order ∈ [CREATED; ASSIGNED]));
       step_timestamp := picked_up_at order; step_progress := 50 |};
    {| step_status := IN_TRANSIT; step_label := "In Transit";
       step_completed :=
         negb (bool_decide (status order ∈ [CREATED; ASSIGNED; PICKED_UP]));
       step_timestamp := in_transit_at order; step_progress := 75 |};
    {| step_status := DELIVERED; step_label := "Delivered";
       step_completed := bool_decide (status order = DELIVERED);
       step_timestamp := delivered_at order; step_progress := 100 |} ].

(** The entries ['progress_percentage'] and ['tracking_steps'] of the answer
    of [OrderViewSet.tracking_info]; the notifications and the estimated
    delivery, which is computed in floats, are not modelled. *)
Definition tracking_info (user : User) (pk : nat) (s : Store)
  : result (Z * list TrackingStep) :=
  match OrderViewSet.get_object user pk s with
  | Err e => Err e
  | Ok order =>
      if bool_decide (role user = CUSTOMER)
         && negb (bool_decide (customer order = user_pk user))
      then Err (HTTP_403_FORBIDDEN "You can only track your own orders")
      else if bool_decide (role user = COURIER)
              && negb (bool_decide
                         (assigned_courier order = Some (user_pk user)))
      then Err (HTTP_403_FORBIDDEN
                  "You can only track orders assigned to you")
      else Ok (progress_map (status order), tracking_steps order)
  end.

(** ** Row shapes and run invariants *)

(** How a request served at [now] may rewrite the stored row [o]: a status
    update along the transition table, an assignment of an order in
    [CREATED] or [ASSIGNED], or a reassignment of an order in [ASSIGNED] or
    [PICKED_UP]. *)
Definition changed (now : Z) (o o' : Order) : Prop :=
  (∃ requested,
     requested ∈ OrderStatusUpdateSerializer.valid_transitions (status o)
     ∧ o' = OrderStatusUpdateSerializer.update_fields o requested now)
  ∨ (∃ k, status o ∈ [CREATED; ASSIGNED] ∧ o' = assign_fields k now o)
  ∨ (∃ k, status o ∈ [ASSIGNED; PICKED_UP] ∧ o' = reassign_fields k now o).

(** A row a request served at [now] may add: created at [now] in [CREATED]
    with no courier and no other instant, possibly assigned at once. *)
Definition added (now : Z) (o' : Order) : Prop :=
  ∃ o0,
    status o0 = CREATED ∧ assigned_courier o0 = None
    ∧ created_at o0 = now ∧ assigned_at o0 = None
    ∧ picked_up_at o0 = None ∧ in_transit_at o0 = None
    ∧ delivered_at o0 = None
    ∧ (o' = o0 ∨ ∃ c, o' = assign_fields c now o0).

(** The instants of an order stored by time [t]: which of them are set is
    decided by the status (for a cancelled order, by how far it had come),
    and those that are set are in order and not after [t]. *)
Definition stamps_ok (t : Z) (o : Order) : Prop :=
  created_at o ≤ t
  ∧ match assigned_at o with
    | None => picked_up_at o = None ∧ status o ∈ [CREATED; CANCELLED]
    | Some a =>
        created_at o ≤ a ≤ t ∧ status o ≠ CREATED
        ∧ match picked_up_at o with
          | None =>
              in_transit_at o = None ∧ status o ∈ [ASSIGNED; CANCELLED]
          | Some p =>
              a ≤ p ≤ t ∧ status o ≠ ASSIGNED
              ∧ match in_transit_at o with
                | None =>
                    delivered_at o = None
                    ∧ status o ∈ [PICKED_UP; CANCELLED]
                | Some i =>
                    p ≤ i ≤ t ∧ status o ≠ PICKED_UP
                    ∧ match delivered_at o with
                      | None => status o ∈ [IN_TRANSIT; CANCELLED]
                      | Some d => i ≤ d ≤ t ∧ status o = DELIVERED
                      end
                end
          end
    end
  ∧ (assigned_at o = None → in_transit_at o = None ∧ delivered_at o = None)
  ∧ (picked_up_at o = None → delivered_at o = None).

Definition stamps_inv (t : Z) (s : Store) : Prop :=
  ∀ pk o, orders s !! pk = Some o → stamps_ok t o.

(** The requests of a run are served at instants that do not go back,
    starting not before [t]. *)
Fixpoint clock_ok (t : Z) (reqs : list (Z * Request)) : Prop :=
  match reqs with
  | [] => True
  | (now, _) :: reqs' => t ≤ now ∧ clock_ok now reqs'
  end.

(** The instant of the last request of a run that starts at [t]. *)
Fixpoint last_instant (t : Z) (reqs : list (Z * Request)) : Z :=
  match reqs with
  | [] => t
  | (now, _) :: reqs' => last_instant now reqs'
  end.

(** No counter is negative. *)
Definition counters_nonneg (s : Store) : Prop :=
  ∀ c, 0 ≤ workload s c.

(** The configurations that are active. *)
Definition active_configs (s : Store) : list PricingConfig :=
  List.filter is_active (pricing_configs s).


(** Whether the request served at [now] is answered without an error.
    [OrderService.assign_courier] on a key that has no row counts as an
    error. *)
Definition succeeds (now : Z) (req : Request) (s : Store) : bool :=
  match req with
  | CreateOrder user data => is_ok (snd (OrderViewSet.create user data now s))
  | UpdateStatus user pk requested =>
      is_ok (snd (OrderViewSet.update_status user pk requested now s))
  | AssignCourier user pk courier_id =>
      is_ok (snd (OrderViewSet.assign_courier user pk courier_id now s))
  | ReassignCourier user pk courier_id =>
      is_ok (snd (OrderViewSet.reassign_courier user pk courier_id now s))
  | AcceptOrder user pk => is_ok (snd (OrderViewSet.accept_order user pk now s))
  | UpdateAvailability user a l =>
      is_ok (snd (CourierStatusViewSet.update_availability user a l now s))
  | ServiceCreateOrder c p d km =>
      is_ok (snd (OrderService.create_order c p d km now s))
  | ServiceAssignCourier pk courier =>
      match orders s !! pk with
      | Some order =>
          is_ok (snd (OrderService.assign_courier order courier now s))
      | None => false
      end
  | CreatePricingConfig user b r =>
      is_ok (snd (PricingConfigViewSet.create user b r now s))
  | ActivatePricingConfig user pk =>
      is_ok (snd (PricingConfigViewSet.activate user pk s))
  | UpdatePricingConfig user pk b r a =>
      is_ok (snd (PricingConfigViewSet.update user pk b r a s))
  | ServiceUpdatePricingConfig b r admin_user =>
      is_ok (snd (ConfigurationService.update_pricing_config
                    b r admin_user now s))
  end.

(** ** Proof automation *)

(** Membership of a status in a literal list, from the hypotheses. *)
Ltac status_mem :=
  rewrite ?elem_of_cons, ?elem_of_nil in *;
  intuition (try congruence; try discriminate).

(** Case analysis on the decisions left in a goal about counters. *)
Ltac count_cases :=
  repeat first [case_bool_decide | case_decide];
  simplify_eq; try lia; try done.

(** * Properties *)

(** ** Which tables an operation writes *)

Section Frames.

Implicit Types (s : Store) (c courier : nat) (now : Z).

Lemma get_or_create_orders courier now s :
  orders (fst (get_or_create courier now s)) = orders s.
Proof. unfold get_or_create. by destruct (courier_statuses s !! courier). Qed.

Lemma get_or_create_users courier now s :
  users (fst (get_or_create courier now s)) = users s.
Proof. unfold get_or_create. by destruct (courier_statuses s !! courier). Qed.

Lemma get_or_create_pricing courier now s :
  pricing_configs (fst (get_or_create courier now s)) = pricing_configs s.
Proof. unfold get_or_create. by destruct (courier_statuses s !! courier). Qed.

(** After [get_or_create] the row exists and is the one returned. *)
Lemma get_or_create_lookup courier now s :
  courier_statuses (fst (get_or_create courier now s)) !! courier
  = Some (snd (get_or_create courier now s)).
Proof.
  unfold get_or_create.
  destruct (courier_statuses s !! courier) eqn:E; simpl; [done|].
  apply lookup_insert_eq.
Qed.

Lemma get_or_create_workload courier now s c :
  workload (fst (get_or_create courier now s)) c = workload s c.
Proof.
  unfold get_or_create, workload.
  destruct (courier_statuses s !! courier) eqn:E; simpl; [done|].
  destruct (decide (courier = c)) as [->|Hne].
  - by rewrite lookup_insert_eq, E.
  - by rewrite lookup_insert_ne.
Qed.

(** The count a freshly read or created row carries is the workload. *)
Lemma get_or_create_count courier now s :
  current_orders_count (snd (get_or_create courier now s))
  = workload s courier.
Proof.
  unfold get_or_create, workload.
  by destruct (courier_statuses s !! courier).
Qed.

Lemma update_workload_orders courier change now s :
  orders (_update_courier_workload courier change now s) = orders s.
Proof.
  unfold _update_courier_workload.
  pose proof (get_or_create_orders courier now s) as H.
  destruct (get_or_create courier now s) as [s1 cs]. exact H.
Qed.

Lemma update_workload_users courier change now s :
  users (_update_courier_workload courier change now s) = users s.
Proof.
  unfold _update_courier_workload.
  pose proof (get_or_create_users courier now s) as H.
  destruct (get_or_create courier now s) as [s1 cs]. exact H.
Qed.

Lemma update_workload_pricing courier change now s :
  pricing_configs (_update_courier_workload courier change now s)
  = pricing_configs s.
Proof.
  unfold _update_courier_workload.
  pose proof (get_or_create_pricing courier now s) as H.
  destruct (get_or_create courier now s) as [s1 cs]. exact H.
Qed.

(** The counter moves by [change], floored at zero, for [courier] alone. *)
Lemma update_workload_workload courier change now s c :
  workload (_update_courier_workload courier change now s) c
  = if decide (c = courier) then Z.max 0 (workload s c + change)
    else workload s c.
Proof.
  unfold _update_courier_workload.
  pose proof (get_or_create_workload courier now s c) as Hw.
  pose proof (get_or_create_count courier now s) as Hc.
  destruct (get_or_create courier now s) as [s1 cs]. simpl in *.
  unfold workload at 1. simpl.
  destruct (decide (c = courier)) as [->|Hne].
  - rewrite lookup_insert_eq. simpl. by rewrite Hc.
  - rewrite lookup_insert_ne by done. exact Hw.
Qed.

Lemma save_order_workload o s c : workload (save_order o s) c = workload s c.
Proof. reflexivity. Qed.

Lemma save_order_lookup o s :
  orders (save_order o s) !! order_pk o = Some o.
Proof. simpl. apply lookup_insert_eq. Qed.

End Frames.

(** ** C1: the transition table *)

Lemma valid_transitions_table (st requested : OrderStatus) :
  bool_decide (requested ∈ OrderStatusUpdateSerializer.valid_transitions st)
  = bool_decide ((st, requested) ∈ spec_table).
Proof. destruct st, requested; reflexivity. Qed.

(** C1. For every order, requested status, instant and store,
    [apply_status_transition] succeeds exactly when the pair of the order's
    status and the requested status is one of the eight pairs of the
    transition table; when it does not succeed it answers the validation
    error "Cannot transition from <current> to <requested>" and hands the
    store back as it was, so the stored status is unchanged.  The view
    [update_status] around it also leaves the store as it was whenever it
    answers with an error, and it is this operation on the order it finds
    whenever the caller is not a courier other than the assigned one. *)
Theorem status_transition_iff_table :
  ∀ (order : Order) (requested : OrderStatus) (now : Z) (s : Store),
    let r := OrderViewSet.apply_status_transition order requested now s in
    (is_ok (snd r) = true ↔ (status order, requested) ∈ spec_table)
    ∧ (is_ok (snd r) = false →
       r = (s, Err (ValidationError
                      (OrderStatusUpdateSerializer.transition_message
                         (status order) requested))))
    ∧ (∀ user pk,
         is_ok (snd (OrderViewSet.update_status user pk requested now s))
         = false →
         fst (OrderViewSet.update_status user pk requested now s) = s)
    ∧ (∀ user pk,
         OrderViewSet.get_object user pk s = Ok order →
         (role user = COURIER →
          assigned_courier order = Some (user_pk user)) →
         OrderViewSet.update_status user pk requested now s = r).
Proof.
  intros order requested now s.
  assert (Hgen : ∀ o : Order,
    let r := OrderViewSet.apply_status_transition o requested now s in
    (is_ok (snd r) = true ↔ (status o, requested) ∈ spec_table)
    ∧ (is_ok (snd r) = false →
       r = (s, Err (ValidationError
                      (OrderStatusUpdateSerializer.transition_message
                         (status o) requested))))).
  { intros o. unfold OrderViewSet.apply_status_transition,
      OrderStatusUpdateSerializer.validate_status,
      OrderStatusUpdateSerializer.update.
    cbv zeta. rewrite valid_transitions_table.
    destruct (bool_decide ((status o, requested) ∈ spec_table)) eqn:E; simpl.
    - apply bool_decide_eq_true in E.
      repeat case_match; simpl; (split; [tauto | discriminate]).
    - apply bool_decide_eq_false in E.
      split; [split; [discriminate | tauto] | done]. }
  destruct (Hgen order) as [H1 H2]. split; [exact H1|]. split; [exact H2|].
  split.
  - intros user pk. unfold OrderViewSet.update_status.
    destruct (OrderViewSet.get_object user pk s) as [o|e]; [|done].
    case_match; [done|].
    intros Hf. destruct (Hgen o) as [_ Hs]. by rewrite (Hs Hf).
  - intros user pk Hget Hauth. unfold OrderViewSet.update_status.
    rewrite Hget.
    destruct (bool_decide (role user = COURIER)) eqn:Hrole; [|done].
    apply bool_decide_eq_true in Hrole.
    by rewrite (bool_decide_eq_true_2 _ (Hauth Hrole)).
Qed.

(** ** C4: the instant a transition stamps *)

(** C4. When the requested status is allowed from the order's status,
    [apply_status_transition] succeeds, stores the order it returns under the
    order's key, and that order has the requested status; the instant of
    the requested status ([assigned_at] for ASSIGNED, [picked_up_at] for
    PICKED_UP, [in_transit_at] for IN_TRANSIT, [delivered_at] for DELIVERED)
    is [now], CANCELLED stamps nothing, and every other instant, with
    [created_at], keeps the value it had. *)
Theorem transition_stamps_its_instant :
  ∀ (order : Order) (requested : OrderStatus) (now : Z) (s : Store),
    requested ∈ OrderStatusUpdateSerializer.valid_transitions (status order) →
    ∃ s' order',
      OrderViewSet.apply_status_transition order requested now s
      = (s', Ok order')
      ∧ orders s' !! order_pk order = Some order'
      ∧ status order' = requested
      ∧ created_at order' = created_at order
      ∧ assigned_at order'
        = (if decide (requested = ASSIGNED) then Some now
           else assigned_at order)
      ∧ picked_up_at order'
        = (if decide (requested = PICKED_UP) then Some now
           else picked_up_at order)
      ∧ in_transit_at order'
        = (if decide (requested = IN_TRANSIT) then Some now
           else in_transit_at order)
      ∧ delivered_at order'
        = (if decide (requested = DELIVERED) then Some now
           else delivered_at order).
Proof.
  intros order requested now s Hin.
  unfold OrderViewSet.apply_status_transition,
    OrderStatusUpdateSerializer.validate_status,
    OrderStatusUpdateSerializer.update.
  cbv zeta. rewrite (bool_decide_eq_true_2 _ Hin). simpl negb. cbv iota.
  set (o' := OrderStatusUpdateSerializer.update_fields order requested now).
  assert (Hpk : order_pk o' = order_pk order)
    by (subst o'; by destruct requested).
  assert (Hstored : ∀ s1, orders s1 = orders (save_order o' s) →
            orders s1 !! order_pk order = Some o').
  { intros s1 ->. rewrite <- Hpk. apply save_order_lookup. }
  assert (Hfields :
    status o' = requested
    ∧ created_at o' = created_at order
    ∧ assigned_at o'
      = (if decide (requested = ASSIGNED) then Some now
         else assigned_at order)
    ∧ picked_up_at o'
      = (if decide (requested = PICKED_UP) then Some now
         else picked_up_at order)
    ∧ in_transit_at o'
      = (if decide (requested = IN_TRANSIT) then Some now
         else in_transit_at order)
    ∧ delivered_at o'
      = (if decide (requested = DELIVERED) then Some now
         else delivered_at order)).
  { subst o'. by destruct requested. }
  destruct (bool_decide (status o' ∈ [DELIVERED; CANCELLED]));
    [destruct (assigned_courier o')|];
    eexists _, o'; (split; [reflexivity|]); (split; [|exact Hfields]);
    apply Hstored; [apply update_workload_orders|done|done].
Qed.

Lemma transition_stamps_its_instant_witness :
  ∃ s' order',
    OrderViewSet.apply_status_transition
      (waybill ASSIGNED (Some 2%nat)) PICKED_UP 30 depot = (s', Ok order')
    ∧ picked_up_at order' = Some 30
    ∧ assigned_at order' = Some 10.
Proof.
  destruct (transition_stamps_its_instant
              (waybill ASSIGNED (Some 2%nat)) PICKED_UP 30 depot)
    as (s' & o' & Heq & _ & _ & _ & Ha & Hp & _).
  - simpl. apply list_elem_of_here.
  - exists s', o'. split; [exact Heq|]. split; [exact Hp | exact Ha].
Defined.

(** ** C10: creation without an active pricing configuration *)




(** ** C5: the stored price *)

Lemma round_half_even_nearest (n d : Z) :
  0 ≤ n → 0 < d →
  2 * Z.abs (d * Dec.round_half_even n d - n) ≤ d
  ∧ (2 * Z.abs (d * Dec.round_half_even n d - n) = d →
     Z.even (Dec.round_half_even n d) = true).
Proof.
  intros Hn Hd. unfold Dec.round_half_even.
  pose proof (Z.div_mod n d ltac:(lia)) as Hdm.
  pose proof (Z.mod_pos_bound n d Hd) as Hr.
  set (q := n / d) in *. set (r := n mod d) in *.
  destruct (Z.ltb_spec (2 * r) d) as [H1|H1].
  - split; [lia|]. intros Heq. lia.
  - destruct (Z.ltb_spec d (2 * r)) as [H2|H2].
    + split; [lia|]. intros Heq. lia.
    + destruct (Z.even q) eqn:Eq.
      * split; [lia | done].
      * split; [lia|]. intros _.
        rewrite Z.even_add, Eq. reflexivity.
Qed.

(** The quantized price of a two-place distance: the exact value in
    ten-thousandths, rounded on its magnitude. *)
Lemma price_of_hundredths (distance : Z) (c : PricingConfig) :
  price_of (Dec.of_hundredths distance) c
  = {| coefficient :=
         Z.sgn (exact_price distance (base_fee c) (per_km_rate c))
         * Dec.round_half_even
             (Z.abs (exact_price distance (base_fee c) (per_km_rate c))) 100;
       exponent := -2 |}.
Proof.
  unfold price_of, Dec.quantize, Dec.add, Dec.mul, Dec.of_hundredths,
    Dec.cent, exact_price.
  cbn [coefficient exponent].
  replace (-2 + -2) with (-4) by reflexivity.
  replace (Z.min (-2) (-4)) with (-4) by reflexivity.
  replace (-2 <=? -4) with false by reflexivity.
  replace (-2 - -4) with 2 by reflexivity.
  replace (-4 - -4) with 0 by reflexivity.
  replace (10 ^ 2) with 100 by reflexivity.
  replace (10 ^ 0) with 1 by reflexivity.
  rewrite Z.mul_1_r. reflexivity.
Qed.

Lemma price_nearest_even (distance : Z) (c : PricingConfig) :
  nearest_even_hundredth
    (coefficient (price_of (Dec.of_hundredths distance) c))
    (exact_price distance (base_fee c) (per_km_rate c)).
Proof.
  rewrite price_of_hundredths. cbn [coefficient].
  set (x := exact_price distance (base_fee c) (per_km_rate c)).
  unfold nearest_even_hundredth.
  destruct (round_half_even_nearest (Z.abs x) 100 ltac:(lia) ltac:(lia))
    as [Hnear Htie].
  set (q := Dec.round_half_even (Z.abs x) 100) in *.
  clearbody q x.
  destruct (Z.sgn_spec x) as [[Hx Hs]|[[Hx Hs]|[Hx Hs]]]; rewrite Hs.
  - rewrite Z.mul_1_l. split; [lia|]. intros H. apply Htie. lia.
  - rewrite Z.mul_0_l. split; [lia|]. intros H. exfalso. lia.
  - replace (-1 * q) with (- q) by lia. rewrite Z.even_opp.
    split; [lia|]. intros H. apply Htie. lia.
Qed.

(** ** The validators of [OrderCreateSerializer] *)

Lemma lstrip_head (s : string) :
  match lstrip s with
  | EmptyString => True
  | String a _ => is_space a = false
  end.
Proof.
  induction s as [|a s IH]; simpl; [done|].
  destruct (is_space a) eqn:Ha; [done|]. exact Ha.
Qed.

Lemma rstrip_head (a : ascii) (s : string) :
  is_space a = false → rstrip (String a s) = String a (rstrip s).
Proof. intros Ha. simpl. rewrite Ha. by destruct (rstrip s). Qed.

Lemma rstrip_idem (s : string) : rstrip (rstrip s) = rstrip s.
Proof.
  induction s as [|a s IH]; simpl; [done|].
  destruct (rstrip s) as [|b r] eqn:Hr.
  - destruct (is_space a) eqn:Ha; simpl; [done|]. by rewrite Ha.
  - change (rstrip (String a (String b r))) with
      (match rstrip (String b r) with
       | EmptyString =>
           if is_space a then EmptyString else String a EmptyString
       | r0 => String a r0
       end).
    by rewrite IH.
Qed.

(** [str.strip] is idempotent. *)
Lemma strip_idem (s : string) : strip (strip s) = strip s.
Proof.
  unfold strip. pose proof (lstrip_head s) as Hh.
  destruct (lstrip s) as [|a t]; [done|].
  rewrite (rstrip_head a t Hh). simpl lstrip. rewrite Hh.
  rewrite <- (rstrip_head a t Hh). apply rstrip_idem.
Qed.

Lemma truthy_spec (s : string) : truthy s = true ↔ s ≠ EmptyString.
Proof. destruct s; simpl; split; try done. Qed.

Lemma blank_test (value : string) :
  negb (truthy value) || negb (truthy (strip value))
  = negb (truthy (strip value)).
Proof. by destruct value. Qed.

Lemma run_char_field_spec (value : string) :
  run_char_field value
  = if bool_decide (strip value = EmptyString) then inr Blank
    else if has_null_character (strip value) then inr NullCharacters
    else inl (strip value).
Proof.
  unfold run_char_field.
  destruct value as [|a value]; [done|].
  by rewrite (bool_decide_eq_false_2 (String a value = EmptyString)).
Qed.

(** The address validators never fire behind the field: the value they are
    given is stripped and not blank. *)
Lemma validate_address_after_field (value : string) (msg : string) :
  strip value ≠ EmptyString →
  (if negb (truthy (strip value)) || negb (truthy (strip (strip value)))
   then Err (ValidationError msg)
   else Ok (strip (strip value)))
  = Ok (strip value).
Proof.
  intros Hne. rewrite strip_idem.
  apply truthy_spec in Hne. by rewrite Hne.
Qed.

(** When [is_valid] accepts: both addresses are not blank once stripped and
    hold no null character, the distance fits its column and is positive,
    and the stripped addresses differ in lower case; the validated data are
    the stripped addresses and the distance. *)
Lemma is_valid_spec (data vd : OrderData) :
  OrderCreateSerializer.is_valid data = Ok vd
  ↔ strip (data_pickup_address data) ≠ EmptyString
    ∧ has_null_character (strip (data_pickup_address data)) = false
    ∧ strip (data_delivery_address data) ≠ EmptyString
    ∧ has_null_character (strip (data_delivery_address data)) = false
    ∧ fits_column (data_distance_km data) = true
    ∧ 0 < data_distance_km data
    ∧ lower (strip (data_pickup_address data))
      ≠ lower (strip (data_delivery_address data))
    ∧ vd = {| data_pickup_address := strip (data_pickup_address data);
              data_delivery_address := strip (data_delivery_address data);
              data_distance_km := data_distance_km data |}.
Proof.
  destruct data as [p d km]. simpl.
  unfold OrderCreateSerializer.is_valid, OrderCreateSerializer.run_field,
    OrderCreateSerializer.validate_pickup_address,
    OrderCreateSerializer.validate_delivery_address,
    OrderCreateSerializer.validate_distance_km,
    OrderCreateSerializer.validate, run_decimal_field.
  simpl. rewrite !run_char_field_spec.
  destruct (bool_decide (strip p = EmptyString)) eqn:Hp.
  { apply bool_decide_eq_true in Hp.
    split; [by repeat case_match|]. by intros [Hne _]. }
  apply bool_decide_eq_false in Hp.
  destruct (has_null_character (strip p)) eqn:Hpn.
  { split; [by repeat case_match|]. by intros (_ & ? & _). }
  rewrite (validate_address_after_field p _ Hp).
  destruct (bool_decide (strip d = EmptyString)) eqn:Hd.
  { apply bool_decide_eq_true in Hd.
    split; [by repeat case_match|]. by intros (_ & _ & Hne & _). }
  apply bool_decide_eq_false in Hd.
  destruct (has_null_character (strip d)) eqn:Hdn.
  { split; [by repeat case_match|]. by intros (_ & _ & _ & ? & _). }
  rewrite (validate_address_after_field d _ Hd).
  destruct (fits_column km) eqn:Hfit.
  2:{ split; [discriminate|]. by intros (_ & _ & _ & _ & ? & _). }
  destruct (km <=? 0) eqn:Hkm.
  { apply Z.leb_le in Hkm. split; [discriminate|].
    intros (_ & _ & _ & _ & _ & ? & _). lia. }
  apply Z.leb_gt in Hkm. simpl. rewrite !strip_idem.
  case_bool_decide as Hsame.
  - split; [discriminate|]. by intros (_ & _ & _ & _ & _ & _ & ? & _).
  - split; [by intros [= <-]|]. by intros (_ & _ & _ & _ & _ & _ & _ & ->).
Qed.

Lemma is_valid_ok (data vd : OrderData) :
  OrderCreateSerializer.is_valid data = Ok vd →
  data_distance_km vd = data_distance_km data ∧ 0 < data_distance_km data.
Proof.
  intros H. apply is_valid_spec in H as (_ & _ & _ & _ & _ & Hpos & _ & ->).
  done.
Qed.

Lemma is_valid_fits (data vd : OrderData) :
  OrderCreateSerializer.is_valid data = Ok vd →
  fits_column (data_distance_km vd) = true.
Proof.
  intros H. by apply is_valid_spec in H as (_ & _ & _ & _ & ? & _ & _ & ->).
Qed.

(** What [_try_auto_assignment] does, by the head of the sorted query set. *)
Lemma try_auto_assignment_cases (order : Order) (now : Z) (s : Store) :
  (available_couriers s = []
   ∧ _try_auto_assignment order now s = (s, order))
  ∨ (∃ c cs rest,
       available_couriers s = (c, cs) :: rest
       ∧ _try_auto_assignment order now s
         = (_update_courier_workload c 1 now
              (save_order (assign_fields c now order) s),
            assign_fields c now order)).
Proof.
  unfold _try_auto_assignment.
  destruct (available_couriers s) as [|[c cs] rest]; [by left|].
  right. by exists c, cs, rest.
Qed.

(** The view [create] on its success path: the order is created at the
    quantized price and handed to the automatic assignment. *)
Lemma create_success (user : User) (data vd : OrderData) (now : Z)
  (s : Store) (cfg : PricingConfig) :
  role user = CUSTOMER →
  OrderCreateSerializer.is_valid data = Ok vd →
  first_active (pricing_configs s) = Some cfg →
  fits_column
    (coefficient (price_of (Dec.of_hundredths (data_distance_km vd)) cfg))
  = true →
  let o0 :=
    new_order s (user_pk user) (data_pickup_address vd)
      (data_delivery_address vd) (data_distance_km vd)
      (coefficient (price_of (Dec.of_hundredths (data_distance_km vd)) cfg))
      now in
  OrderViewSet.create user data now s
  = (fst (_try_auto_assignment o0 now (save_order o0 s)),
     Ok (snd (_try_auto_assignment o0 now (save_order o0 s)))).
Proof.
  intros Hrole Hvalid Hcfg Hfit o0. unfold OrderViewSet.create.
  rewrite (bool_decide_eq_true_2 _ Hrole), Hvalid. simpl.
  unfold OrderCreateSerializer.create. rewrite Hcfg.
  cbv zeta. rewrite (is_valid_fits _ _ Hvalid), Hfit. simpl negb. cbv iota.
  fold o0.
  by destruct (_try_auto_assignment o0 now (save_order o0 s)).
Qed.

(** The view [create] when the price does not fit its column. *)
Lemma create_overflow (user : User) (data vd : OrderData) (now : Z)
  (s : Store) (cfg : PricingConfig) :
  role user = CUSTOMER →
  OrderCreateSerializer.is_valid data = Ok vd →
  first_active (pricing_configs s) = Some cfg →
  fits_column
    (coefficient (price_of (Dec.of_hundredths (data_distance_km vd)) cfg))
  = false →
  OrderViewSet.create user data now s = (s, Err InvalidOperation).
Proof.
  intros Hrole Hvalid Hcfg Hfit. unfold OrderViewSet.create.
  rewrite (bool_decide_eq_true_2 _ Hrole), Hvalid. simpl.
  unfold OrderCreateSerializer.create. rewrite Hcfg.
  cbv zeta. by rewrite (is_valid_fits _ _ Hvalid), Hfit.
Qed.

(** A customer's accepted request is answered with an order at the rounded
    price when that price fits the column. *)
Lemma create_priced (user : User) (data vd : OrderData) (now : Z)
  (s : Store) (cfg : PricingConfig) :
  role user = CUSTOMER →
  OrderCreateSerializer.is_valid data = Ok vd →
  first_active (pricing_configs s) = Some cfg →
  Z.abs (coefficient
           (price_of (Dec.of_hundredths (data_distance_km data)) cfg))
  < 10 ^ 10 →
  ∃ s' order,
    OrderViewSet.create user data now s = (s', Ok order)
    ∧ price order
      = coefficient
          (price_of (Dec.of_hundredths (data_distance_km data)) cfg).
Proof.
  intros Hrole Hvalid Hcfg Hlt.
  destruct (is_valid_ok _ _ Hvalid) as [Hd _]. rewrite <- Hd in *.
  apply Z.ltb_lt in Hlt.
  rewrite (create_success user data vd now s cfg Hrole Hvalid Hcfg Hlt).
  set (o0 := new_order s _ _ _ _ _ _).
  destruct (try_auto_assignment_cases o0 now (save_order o0 s))
    as [[_ ->]|(c & cs & rest & _ & ->)]; by eexists _, _.
Qed.

(** C5 counterexample. With base fee 50.00 and rate 0.10, a distance of 0.05
    has the exact price 50.0050: the created order stores 50.00, and half-up
    rounding gives 50.01. *)
Lemma price_is_not_half_up :
  match snd (OrderViewSet.create alice (parcel 5) 10 (empty_depot 5000 10)) with
  | Ok order =>
      price order = 5000
      ∧ spec_price_half_up 5 5000 10 = 5001
      ∧ price order ≠ spec_price_half_up (distance_km order) 5000 10
  | Err _ => False
  end.
Proof. vm_compute. repeat split; discriminate. Qed.

(** What the view [create] did when it answers an order. *)
Lemma create_inv (user : User) (data : OrderData) (now : Z)
  (s s' : Store) (order : Order) :
  OrderViewSet.create user data now s = (s', Ok order) →
  role user = CUSTOMER
  ∧ ∃ vd cfg,
      OrderCreateSerializer.is_valid data = Ok vd
      ∧ first_active (pricing_configs s) = Some cfg
      ∧ fits_column
          (coefficient
             (price_of (Dec.of_hundredths (data_distance_km vd)) cfg))
        = true
      ∧ let o0 :=
          new_order s (user_pk user) (data_pickup_address vd)
            (data_delivery_address vd) (data_distance_km vd)
            (coefficient
               (price_of (Dec.of_hundredths (data_distance_km vd)) cfg))
            now in
        s' = fst (_try_auto_assignment o0 now (save_order o0 s))
        ∧ order = snd (_try_auto_assignment o0 now (save_order o0 s)).
Proof.
  unfold OrderViewSet.create.
  destruct (bool_decide (role user = CUSTOMER)) eqn:Hrole; simpl negb;
    cbv iota; [|discriminate].
  apply bool_decide_eq_true in Hrole.
  destruct (OrderCreateSerializer.is_valid data) as [vd|e] eqn:Hvalid;
    [|discriminate].
  unfold OrderCreateSerializer.create.
  destruct (first_active (pricing_configs s)) as [cfg|] eqn:Hcfg;
    [|discriminate].
  cbv zeta. rewrite (is_valid_fits _ _ Hvalid). simpl andb.
  destruct (fits_column _) eqn:Hfit; simpl negb; cbv iota; [|discriminate].
  destruct (_try_auto_assignment _ _ _) as [s2 o2] eqn:Hauto.
  intros [= <- <-]. split; [done|]. exists vd, cfg.
  repeat (split; [done|]). cbv zeta. by rewrite Hauto.
Qed.

(** C5, amended. Distance 5.0 with base fee 50.00 and rate 20.00 gives the
    price 150.00.  Whenever the view [create] answers an order under the
    active configuration of base fee [b] and per-km rate [r], the order is
    stored, its distance [d] is the positive distance of the request, and
    its price is [b + d * r] rounded to two decimal places to the nearest
    hundredth, a tie going to the even hundredth (the rounding of
    [quantize] in the default decimal context), not half-up; the price has
    at most ten digits.  And for a customer's creation request that the
    validators accept, with addresses in ASCII text: when the rounded price
    has at most ten digits the view does answer an order, and when it has
    more, saving the row raises [decimal.InvalidOperation] and the store is
    left as it was. *)
Theorem price_rounds_half_even :
  price_of (Dec.of_hundredths 500) (tariff 5000 2000)
  = {| coefficient := 15000; exponent := -2 |}
  ∧ (∀ (user : User) (data : OrderData) (now : Z) (s s' : Store)
       (cfg : PricingConfig) (order : Order),
       first_active (pricing_configs s) = Some cfg →
       OrderViewSet.create user data now s = (s', Ok order) →
       orders s' !! order_pk order = Some order
       ∧ distance_km order = data_distance_km data
       ∧ 0 < distance_km order
       ∧ nearest_even_hundredth (price order)
           (exact_price (distance_km order) (base_fee cfg)
              (per_km_rate cfg))
       ∧ Z.abs (price order) < 10 ^ 10)
  ∧ (∀ (user : User) (data vd : OrderData) (now : Z) (s : Store)
       (cfg : PricingConfig),
       role user = CUSTOMER →
       ascii_text (data_pickup_address data) = true →
       ascii_text (data_delivery_address data) = true →
       OrderCreateSerializer.is_valid data = Ok vd →
       first_active (pricing_configs s) = Some cfg →
       let rounded :=
         coefficient
           (price_of (Dec.of_hundredths (data_distance_km data)) cfg) in
       (Z.abs rounded < 10 ^ 10 →
        ∃ s' order,
          OrderViewSet.create user data now s = (s', Ok order)
          ∧ price order = rounded)
       ∧ (10 ^ 10 ≤ Z.abs rounded →
          OrderViewSet.create user data now s = (s, Err InvalidOperation))).
Proof.
  split; [reflexivity|]. split.
  - intros user data now s s' cfg order Hcfg Hcreate.
    apply create_inv in Hcreate
      as (Hrole & vd & cfg' & Hvalid & Hcfg' & Hfit & Hs' & Horder).
    assert (cfg' = cfg) as -> by congruence.
    destruct (is_valid_ok _ _ Hvalid) as [Hd Hpos].
    set (o0 := new_order s _ _ _ _ _ _) in *.
    assert (Hprice : nearest_even_hundredth (price o0)
              (exact_price (distance_km o0) (base_fee cfg) (per_km_rate cfg)))
      by apply price_nearest_even.
    assert (Hlt : Z.abs (price o0) < 10 ^ 10)
      by (by apply Z.ltb_lt in Hfit).
    destruct (try_auto_assignment_cases o0 now (save_order o0 s))
      as [[_ Heq]|(c & cs & rest & _ & Heq)];
      rewrite Heq in Hs', Horder; simpl in Hs', Horder; subst s' order.
    + split; [apply save_order_lookup|].
      split; [exact Hd|]. split; [simpl; lia|]. split; [exact Hprice|done].
    + split; [rewrite update_workload_orders; apply save_order_lookup|].
      split; [exact Hd|]. split; [simpl; lia|]. split; [exact Hprice|done].
  - intros user data vd now s cfg Hrole _ _ Hvalid Hcfg rounded.
    destruct (is_valid_ok _ _ Hvalid) as [Hd _].
    subst rounded. rewrite <- Hd. split.
    + intros Hlt. apply Z.ltb_lt in Hlt.
      rewrite (create_success user data vd now s cfg Hrole Hvalid Hcfg Hlt).
      set (o0 := new_order s _ _ _ _ _ _).
      destruct (try_auto_assignment_cases o0 now (save_order o0 s))
        as [[_ ->]|(c & cs & rest & _ & ->)]; by eexists _, _.
    + intros Hge. apply Z.ltb_ge in Hge.
      exact (create_overflow user data vd now s cfg Hrole Hvalid Hcfg Hge).
Qed.

Lemma price_rounds_half_even_witness :
  (∃ s' order,
     OrderViewSet.create alice (parcel 500) 10 depot = (s', Ok order)
     ∧ price order = 15000)
  ∧ OrderViewSet.create alice (parcel 500000000) 10 depot
    = (depot, Err InvalidOperation).
Proof.
  destruct (proj2 (proj2 price_rounds_half_even) alice (parcel 500)
              (parcel 500) 10 depot (tariff 5000 2000))
    as [Hfit _]; try reflexivity.
  destruct (proj2 (proj2 price_rounds_half_even) alice (parcel 500000000)
              (parcel 500000000) 10 depot (tariff 5000 2000))
    as [_ Hover]; try reflexivity.
  split.
  - apply Hfit. vm_compute. reflexivity.
  - apply Hover. vm_compute. discriminate.
Defined.

(** ** C3: automatic assignment picks a least-loaded eligible courier *)

Section OrderBy.

Implicit Types (x y : nat * CourierStatus) (l : list (nat * CourierStatus)).

Lemma insert_by_count_elem x l y :
  y ∈ insert_by_count x l ↔ y = x ∨ y ∈ l.
Proof.
  induction l as [|z l IH]; simpl.
  - rewrite list_elem_of_singleton, elem_of_nil. tauto.
  - destruct (_ <=? _).
    + rewrite !elem_of_cons. tauto.
    + rewrite !elem_of_cons, IH. tauto.
Qed.

Lemma insert_by_count_sorted x l :
  StronglySorted count_le l → StronglySorted count_le (insert_by_count x l).
Proof.
  induction 1 as [|z l Hsorted IH Hz]; simpl.
  - repeat constructor.
  - destruct (Z.leb_spec (current_orders_count (snd x))
                (current_orders_count (snd z))) as [Hle|Hgt].
    + constructor; [by constructor|].
      constructor; [exact Hle|].
      eapply Forall_impl; [exact Hz|].
      intros y Hy. unfold count_le in *. lia.
    + constructor; [exact IH|].
      apply Forall_forall. intros y Hy.
      apply insert_by_count_elem in Hy as [->|Hy].
      * unfold count_le. lia.
      * rewrite Forall_forall in Hz. by apply Hz.
Qed.

Lemma order_by_elem l y : y ∈ order_by_current_orders_count l ↔ y ∈ l.
Proof.
  unfold order_by_current_orders_count.
  induction l as [|x l IH]; simpl; [done|].
  rewrite insert_by_count_elem, elem_of_cons, IH. tauto.
Qed.

Lemma order_by_sorted l :
  StronglySorted count_le (order_by_current_orders_count l).
Proof.
  unfold order_by_current_orders_count.
  induction l as [|x l IH]; simpl; [constructor|].
  by apply insert_by_count_sorted.
Qed.

(** The row [.first()] reads is a row of the list, and no row has a
    smaller count. *)
Lemma order_by_first l x rest :
  order_by_current_orders_count l = x :: rest →
  x ∈ l ∧ ∀ y, y ∈ l → count_le x y.
Proof.
  intros Heq. split.
  - apply order_by_elem. rewrite Heq. apply list_elem_of_here.
  - intros y Hy. apply order_by_elem in Hy.
    pose proof (order_by_sorted l) as Hs. rewrite Heq in *.
    apply StronglySorted_inv in Hs as [_ Hall].
    apply elem_of_cons in Hy as [->|Hy].
    + unfold count_le. lia.
    + rewrite Forall_forall in Hall. by apply Hall.
Qed.

End OrderBy.

Lemma elem_of_filter_rows (s : Store) (row : nat * CourierStatus) :
  row ∈ List.filter (eligible s) (map_to_list (courier_statuses s))
  ↔ courier_statuses s !! fst row = Some (snd row) ∧ eligible s row = true.
Proof.
  rewrite list_elem_of_In, filter_In, <- list_elem_of_In.
  destruct row as [c cs]. by rewrite elem_of_map_to_list.
Qed.

Lemma available_couriers_first (s : Store) c cs rest :
  available_couriers s = (c, cs) :: rest →
  courier_statuses s !! c = Some cs
  ∧ eligible s (c, cs) = true
  ∧ ∀ c' cs', courier_statuses s !! c' = Some cs' →
      eligible s (c', cs') = true →
      current_orders_count cs ≤ current_orders_count cs'.
Proof.
  intros Heq. apply order_by_first in Heq as [Hin Hmin].
  apply elem_of_filter_rows in Hin as [Hrow Hel].
  split; [exact Hrow|]. split; [exact Hel|].
  intros c' cs' Hrow' Hel'.
  apply (Hmin (c', cs')). by apply elem_of_filter_rows.
Qed.

Lemma available_couriers_nil (s : Store) :
  available_couriers s = [] ↔
  ∀ c cs, courier_statuses s !! c = Some cs → eligible s (c, cs) = false.
Proof.
  split.
  - intros Hnil c cs Hrow.
    destruct (eligible s (c, cs)) eqn:Hel; [|done].
    assert (Hin : (c, cs) ∈ available_couriers s).
    { apply order_by_elem. by apply elem_of_filter_rows. }
    rewrite Hnil in Hin. by apply elem_of_nil in Hin.
  - intros Hnone.
    destruct (available_couriers s) as [|[c cs] rest] eqn:Heq; [done|].
    apply available_couriers_first in Heq as (Hrow & Hel & _).
    rewrite (Hnone c cs Hrow) in Hel. discriminate.
Qed.

Lemma eligible_spec (s : Store) c cs :
  eligible s (c, cs) = true ↔
  is_available cs = true ∧ ∃ u, users s !! c = Some u ∧ role u = COURIER.
Proof.
  unfold eligible, has_courier_role. simpl.
  rewrite andb_true_iff.
  destruct (users s !! c) as [u|].
  - rewrite bool_decide_eq_true. split.
    + intros [Ha Hr]. split; [done|]. by exists u.
    + intros [Ha (u' & [= <-] & Hr)]. done.
  - split; [intros [_ ?]; discriminate|].
    intros [_ (u & ? & _)]. discriminate.
Qed.

(** C3. [_try_auto_assignment] looks at the courier status rows that are
    available and belong to a user of role COURIER.  When there is no such
    row it hands back the store and the order as they were; when there is
    one, it assigns the order to a courier [c] whose row is available, whose
    user has role COURIER, and whose [current_orders_count] is at most that
    of every eligible row, and stores the order with status ASSIGNED; so an
    unavailable courier is never selected.  In the view [create], a
    customer's request that the validators accept, with addresses in ASCII
    text and a price of at most ten digits, met by no eligible courier,
    succeeds with an order in CREATED without a courier. *)
Theorem auto_assign_least_loaded :
  ∀ (order : Order) (now : Z) (s : Store),
    let r := _try_auto_assignment order now s in
    ((∀ c cs, courier_statuses s !! c = Some cs →
              eligible s (c, cs) = false) →
     r = (s, order))
    ∧ ((∃ c cs, courier_statuses s !! c = Some cs
                ∧ eligible s (c, cs) = true) →
       ∃ c cs u,
         courier_statuses s !! c = Some cs
         ∧ is_available cs = true
         ∧ users s !! c = Some u ∧ role u = COURIER
         ∧ (∀ c' cs', courier_statuses s !! c' = Some cs' →
                      eligible s (c', cs') = true →
                      current_orders_count cs ≤ current_orders_count cs')
         ∧ assigned_courier (snd r) = Some c
         ∧ status (snd r) = ASSIGNED
         ∧ assigned_at (snd r) = Some now
         ∧ orders (fst r) !! order_pk order = Some (snd r))
    ∧ (∀ user data vd cfg,
         role user = CUSTOMER →
         ascii_text (data_pickup_address data) = true →
         ascii_text (data_delivery_address data) = true →
         OrderCreateSerializer.is_valid data = Ok vd →
         first_active (pricing_configs s) = Some cfg →
         Z.abs (coefficient
                  (price_of (Dec.of_hundredths (data_distance_km data)) cfg))
         < 10 ^ 10 →
         (∀ c cs, courier_statuses s !! c = Some cs →
                  eligible s (c, cs) = false) →
         ∃ s' o,
           OrderViewSet.create user data now s = (s', Ok o)
           ∧ status o = CREATED ∧ assigned_courier o = None
           ∧ orders s' !! order_pk o = Some o).
Proof.
  intros order now s r. subst r. split; [|split].
  - intros Hnone. apply available_couriers_nil in Hnone.
    unfold _try_auto_assignment. by rewrite Hnone.
  - intros (c0 & cs0 & Hrow0 & Hel0).
    destruct (try_auto_assignment_cases order now s)
      as [[Hnil _]|(c & cs & rest & Hhead & ->)].
    + rewrite available_couriers_nil in Hnil.
      rewrite (Hnil c0 cs0 Hrow0) in Hel0. discriminate.
    + apply available_couriers_first in Hhead as (Hrow & Hel & Hmin).
      apply eligible_spec in Hel as (Hav & u & Hu & Hrole).
      exists c, cs, u. simpl fst. simpl snd.
      repeat (split; [done|]).
      rewrite update_workload_orders.
      exact (save_order_lookup (assign_fields c now order) s).
  - intros user data vd cfg Hrole _ _ Hvalid Hcfg Hlt Hnone.
    destruct (is_valid_ok _ _ Hvalid) as [Hd _]. rewrite <- Hd in Hlt.
    apply Z.ltb_lt in Hlt.
    rewrite (create_success user data vd now s cfg Hrole Hvalid Hcfg Hlt).
    set (o0 := new_order s _ _ _ _ _ _).
    assert (Hnil : available_couriers (save_order o0 s) = [])
      by (by apply available_couriers_nil).
    unfold _try_auto_assignment. rewrite Hnil. simpl fst. simpl snd.
    exists (save_order o0 s), o0.
    repeat (split; [done|]). apply save_order_lookup.
Qed.

Lemma auto_assign_least_loaded_witness :
  (∃ c cs u,
     courier_statuses busy_depot !! c = Some cs
     ∧ is_available cs = true
     ∧ users busy_depot !! c = Some u ∧ role u = COURIER
     ∧ (∀ c' cs', courier_statuses busy_depot !! c' = Some cs' →
                  eligible busy_depot (c', cs') = true →
                  current_orders_count cs ≤ current_orders_count cs')
     ∧ assigned_courier
         (snd (_try_auto_assignment (waybill CREATED None) 10 busy_depot))
       = Some c
     ∧ status (snd (_try_auto_assignment (waybill CREATED None) 10
                      busy_depot))
       = ASSIGNED
     ∧ assigned_at
         (snd (_try_auto_assignment (waybill CREATED None) 10 busy_depot))
       = Some 10
     ∧ orders (fst (_try_auto_assignment (waybill CREATED None) 10
                      busy_depot))
         !! order_pk (waybill CREATED None)
       = Some (snd (_try_auto_assignment (waybill CREATED None) 10
                      busy_depot)))
  ∧ _try_auto_assignment (waybill CREATED None) 10 (empty_depot 5000 2000)
    = (empty_depot 5000 2000, waybill CREATED None)
  ∧ (∃ s' o,
       OrderViewSet.create alice (parcel 500) 10 (empty_depot 5000 2000)
       = (s', Ok o)
       ∧ status o = CREATED ∧ assigned_courier o = None
       ∧ orders s' !! order_pk o = Some o).
Proof.
  assert (Hnone : ∀ c cs,
            courier_statuses (empty_depot 5000 2000) !! c = Some cs →
            eligible (empty_depot 5000 2000) (c, cs) = false).
  { intros c cs Hrow. simpl in Hrow. rewrite lookup_empty in Hrow.
    discriminate. }
  split; [|split].
  - apply (proj1 (proj2 (auto_assign_least_loaded (waybill CREATED None) 10
                           busy_depot))).
    exists 11%nat, (loaded true 3). split; vm_compute; reflexivity.
  - exact (proj1 (auto_assign_least_loaded (waybill CREATED None) 10
                    (empty_depot 5000 2000)) Hnone).
  - apply (proj2 (proj2 (auto_assign_least_loaded (waybill CREATED None) 10
                           (empty_depot 5000 2000)))
             alice (parcel 500) (parcel 500) (tariff 5000 2000));
      first [exact Hnone | reflexivity].
Defined.

(** ** Counting live orders *)

Section Counting.

Implicit Types (m : gmap nat Order) (c pk : nat) (o : Order).

Lemma filter_length_perm {A} (f : A → bool) (l l' : list A) :
  l ≡ₚ l' → length (List.filter f l) = length (List.filter f l').
Proof.
  induction 1 as [|x l l' _ IH|x y l|l l' l'' _ IH1 _ IH2]; simpl.
  - done.
  - destruct (f x); simpl; congruence.
  - destruct (f x), (f y); reflexivity.
  - congruence.
Qed.

Lemma count_live_nonneg c m : 0 ≤ Z.of_nat (count_live c m).
Proof. lia. Qed.

Lemma count_live_insert_fresh c m pk o :
  m !! pk = None →
  Z.of_nat (count_live c (<[pk := o]> m))
  = Z.of_nat (count_live c m) + delta c o.
Proof.
  intros Hnone. unfold count_live, delta.
  rewrite (filter_length_perm _ _ _ (map_to_list_insert m pk o Hnone)).
  simpl. destruct (live_for c o); simpl; lia.
Qed.

Lemma count_live_insert c m pk o o' :
  m !! pk = Some o →
  Z.of_nat (count_live c (<[pk := o']> m))
  = Z.of_nat (count_live c m) - delta c o + delta c o'.
Proof.
  intros Hsome.
  rewrite <- (insert_delete_eq m pk o').
  rewrite <- (insert_delete_id m pk o Hsome) at 2.
  rewrite !count_live_insert_fresh by apply lookup_delete_eq. lia.
Qed.

(** A stored order that is live for [c] is counted. *)
Lemma delta_le_count_live c m pk o :
  m !! pk = Some o → delta c o ≤ Z.of_nat (count_live c m).
Proof.
  intros Hsome.
  rewrite <- (insert_delete_id m pk o Hsome).
  rewrite count_live_insert_fresh by apply lookup_delete_eq.
  pose proof (count_live_nonneg c (delete pk m)). lia.
Qed.

End Counting.

(** ** Consistency is kept by every request *)

Section Consistency.

Implicit Types (s : Store) (c pk : nat) (o : Order) (now : Z).

Lemma consistent_workload_nonneg s c : consistent s → 0 ≤ workload s c.
Proof. intros [Hw _]. rewrite Hw. unfold live_count. lia. Qed.

Lemma consistent_workload_live s c pk o :
  consistent s → orders s !! pk = Some o → delta c o ≤ workload s c.
Proof.
  intros [Hw _] Hsome. rewrite Hw. unfold live_count.
  by eapply delta_le_count_live.
Qed.

(** Only the order rows and the counters matter. *)
Lemma consistent_same_books s s' :
  orders s' = orders s → (∀ c, workload s' c = workload s c) →
  consistent s → consistent s'.
Proof.
  intros Ho Hw [H1 H2]. split.
  - intros c. rewrite Hw, H1. unfold live_count. by rewrite Ho.
  - intros pk o. rewrite Ho. apply H2.
Qed.

(** An order row is replaced and the counters follow its contribution. *)
Lemma consistent_replace s s' o o' :
  consistent s →
  orders s !! order_pk o = Some o →
  order_pk o' = order_pk o →
  orders s' = <[order_pk o := o']> (orders s) →
  (status o' = CREATED → assigned_courier o' = None) →
  (∀ c, workload s' c = workload s c - delta c o + delta c o') →
  consistent s'.
Proof.
  intros [H1 H2] Hsome Hpk Ho Hcreated Hw. split.
  - intros c. rewrite Hw, H1. unfold live_count. rewrite Ho.
    by rewrite (count_live_insert c _ _ o o' Hsome).
  - intros pk x. rewrite Ho.
    destruct (decide (pk = order_pk o)) as [->|Hne].
    + rewrite lookup_insert_eq. intros [= <-]. done.
    + rewrite lookup_insert_ne by done. apply H2.
Qed.

(** An order row is added under a key no row has. *)
Lemma consistent_add s s' o' :
  consistent s →
  orders s !! order_pk o' = None →
  orders s' = <[order_pk o' := o']> (orders s) →
  (status o' = CREATED → assigned_courier o' = None) →
  (∀ c, workload s' c = workload s c + delta c o') →
  consistent s'.
Proof.
  intros [H1 H2] Hnone Ho Hcreated Hw. split.
  - intros c. rewrite Hw, H1. unfold live_count. rewrite Ho.
    by rewrite (count_live_insert_fresh c _ _ o' Hnone).
  - intros pk x. rewrite Ho.
    destruct (decide (pk = order_pk o')) as [->|Hne].
    + rewrite lookup_insert_eq. intros [= <-]. done.
    + rewrite lookup_insert_ne by done. apply H2.
Qed.

Lemma get_object_lookup user pk s o :
  OrderViewSet.get_object user pk s = Ok o → orders s !! pk = Some o.
Proof.
  unfold OrderViewSet.get_object.
  destruct (orders s !! pk) as [x|]; [|discriminate].
  destruct (OrderViewSet.in_queryset user x); [|discriminate].
  by intros [= ->].
Qed.

Lemma new_order_fresh s cust p d km pr now :
  orders s !! order_pk (new_order s cust p d km pr now) = None.
Proof.
  simpl. apply not_elem_of_dom. apply is_fresh.
Qed.

End Consistency.

Lemma delta_status (c : nat) (o : Order) :
  delta c o
  = if bool_decide (assigned_courier o = Some c)
    then match status o with
         | ASSIGNED | PICKED_UP | IN_TRANSIT => 1
         | _ => 0
         end
    else 0.
Proof.
  unfold delta, live_for.
  destruct (bool_decide (assigned_courier o = Some c)), (status o);
    reflexivity.
Qed.

Lemma apply_status_transition_consistent
  (order : Order) (requested : OrderStatus) (now : Z) (s : Store) :
  consistent s → orders s !! order_pk order = Some order →
  consistent (fst (OrderViewSet.apply_status_transition order requested now s)).
Proof.
  intros Hcons Hsome.
  unfold OrderViewSet.apply_status_transition,
    OrderStatusUpdateSerializer.validate_status,
    OrderStatusUpdateSerializer.update.
  cbv zeta.
  destruct (bool_decide (requested ∈ _)) eqn:Hvalid; simpl negb; cbv iota;
    [|exact Hcons].
  set (o' := OrderStatusUpdateSerializer.update_fields order requested now).
  assert (Hpk : order_pk o' = order_pk order)
    by (subst o'; by destruct requested).
  assert (Hco : assigned_courier o' = assigned_courier order)
    by (subst o'; by destruct requested).
  assert (Hst : status o' = requested) by (subst o'; by destruct requested).
  pose proof (proj2 Hcons _ _ Hsome) as [_ Hcreated].
  assert (Hlive : ∀ c, delta c order ≤ workload s c)
    by (intros c; by eapply consistent_workload_live).
  destruct (bool_decide (status o' ∈ [DELIVERED; CANCELLED])) eqn:Hend;
    [destruct (assigned_courier o') as [k|] eqn:Hk|]; simpl fst.
  - eapply (consistent_replace s _ order o' Hcons Hsome Hpk).
    + rewrite update_workload_orders. simpl. by rewrite Hpk.
    + rewrite Hst. intros ->. discriminate.
    + intros c. rewrite update_workload_workload, save_order_workload.
      specialize (Hlive c). rewrite delta_status in Hlive.
      rewrite !delta_status, Hk, Hst, <- Hco. rewrite <- Hco in Hlive.
      destruct (status order) eqn:Hs, requested; try discriminate;
        count_cases; specialize (Hcreated eq_refl); congruence.
  - eapply (consistent_replace s _ order o' Hcons Hsome Hpk).
    + simpl. by rewrite Hpk.
    + by rewrite Hk.
    + intros c. rewrite save_order_workload, !delta_status.
      rewrite Hk, <- Hco. count_cases.
  - eapply (consistent_replace s _ order o' Hcons Hsome Hpk).
    + simpl. by rewrite Hpk.
    + rewrite Hst. intros ->. by destruct (status order).
    + intros c. rewrite save_order_workload, !delta_status.
      rewrite Hco, Hst.
      destruct (status order) eqn:Hs, requested; try discriminate;
        count_cases; specialize (Hcreated eq_refl); congruence.
Qed.

Section Requests.

Implicit Types (s : Store) (c k pk : nat) (o : Order) (now : Z).

Lemma validate_courier_id_books (v : nat) now s :
  let r := CourierAssignmentSerializer.validate_courier_id v now s in
  orders (fst r) = orders s
  ∧ (∀ c, workload (fst r) c = workload s c)
  ∧ users (fst r) = users s
  ∧ pricing_configs (fst r) = pricing_configs s.
Proof.
  unfold CourierAssignmentSerializer.validate_courier_id.
  destruct (users s !! v) as [u|]; [|done].
  destruct (negb (bool_decide (role u = COURIER))); [done|].
  pose proof (get_or_create_orders v now s).
  pose proof (get_or_create_workload v now s).
  pose proof (get_or_create_users v now s).
  pose proof (get_or_create_pricing v now s).
  destruct (get_or_create v now s) as [s1 cs].
  by destruct (negb (is_available cs)).
Qed.

(** What a courier id that passes [validate_courier_id] is. *)
Lemma validate_courier_id_ok (v : nat) now s s1 k :
  CourierAssignmentSerializer.validate_courier_id v now s = (s1, Ok k) →
  k = v
  ∧ (∃ u, users s !! v = Some u ∧ role u = COURIER)
  ∧ (∃ cs, courier_statuses s1 !! v = Some cs ∧ is_available cs = true).
Proof.
  unfold CourierAssignmentSerializer.validate_courier_id.
  destruct (users s !! v) as [u|] eqn:Hu; [|discriminate].
  destruct (bool_decide (role u = COURIER)) eqn:Hr; simpl; [|discriminate].
  apply bool_decide_eq_true in Hr.
  pose proof (get_or_create_lookup v now s) as Hl.
  destruct (get_or_create v now s) as [s' cs]. simpl in Hl.
  destruct (is_available cs) eqn:Ha; simpl; [|discriminate].
  intros [= <- <-]. split; [done|]. split; [by exists u | by exists cs].
Qed.

(** An order without a courier is given one, whose counter goes up. *)
Lemma assign_step_consistent s o k now :
  consistent s → orders s !! order_pk o = Some o →
  assigned_courier o = None →
  consistent (_update_courier_workload k 1 now
                (save_order (assign_fields k now o) s)).
Proof.
  intros Hcons Hsome Hnone.
  eapply (consistent_replace s _ o (assign_fields k now o) Hcons Hsome).
  - done.
  - by rewrite update_workload_orders.
  - discriminate.
  - intros c. rewrite update_workload_workload, save_order_workload.
    pose proof (consistent_workload_nonneg s c Hcons).
    rewrite !delta_status, Hnone. simpl. count_cases.
Qed.

(** An order moves from courier [j] to another courier [k]: the two
    counters follow.  [o'] is the order as it is saved. *)
Lemma move_step_consistent s o o' j k now :
  consistent s → orders s !! order_pk o = Some o →
  assigned_courier o = Some j → j ≠ k →
  status o ≠ CREATED → status o ∈ [CREATED; ASSIGNED; PICKED_UP] →
  order_pk o' = order_pk o →
  assigned_courier o' = Some k → status o' = ASSIGNED →
  ∀ s', orders s' = <[order_pk o := o']> (orders s) →
    (∀ c, workload s' c
          = workload (_update_courier_workload k 1 now
                        (_update_courier_workload j (-1) now s)) c) →
    consistent s'.
Proof.
  intros Hcons Hsome Hj Hne Hnc Hst Hpk Hk Hst' s' Ho Hw.
  eapply (consistent_replace s s' o o' Hcons Hsome Hpk Ho).
  - rewrite Hst'. discriminate.
  - intros c. rewrite Hw, !update_workload_workload.
    pose proof (consistent_workload_nonneg s c Hcons).
    pose proof (consistent_workload_live s c _ o Hcons Hsome) as Hlive.
    rewrite delta_status in Hlive. rewrite !delta_status, Hj, Hk, Hst'.
    rewrite Hj in Hlive.
    destruct (status o); try done; count_cases;
      apply elem_of_cons in Hst as [?|Hst]; try done;
      apply elem_of_cons in Hst as [?|Hst]; try done;
      apply elem_of_cons in Hst as [?|Hst]; try done;
      by apply elem_of_nil in Hst.
Qed.

Lemma update_status_consistent user pk requested now s :
  consistent s →
  consistent (fst (OrderViewSet.update_status user pk requested now s)).
Proof.
  intros Hcons. unfold OrderViewSet.update_status.
  destruct (OrderViewSet.get_object user pk s) as [o|e] eqn:Hget; [|done].
  apply get_object_lookup in Hget.
  destruct (proj2 Hcons _ _ Hget) as [<- _].
  case_match; [done|].
  by apply apply_status_transition_consistent.
Qed.

Lemma assign_courier_consistent user pk courier_id now s :
  consistent s →
  consistent (fst (OrderViewSet.assign_courier user pk courier_id now s)).
Proof.
  intros Hcons. unfold OrderViewSet.assign_courier.
  destruct (negb (bool_decide (role user = ADMIN))); [done|].
  destruct (OrderViewSet.get_object user pk s) as [o|e] eqn:Hget; [|done].
  apply get_object_lookup in Hget.
  destruct (proj2 Hcons _ _ Hget) as [<- Hcreated].
  destruct (bool_decide (status o ∈ [CREATED; ASSIGNED])) eqn:Hst;
    simpl negb; cbv iota; [|done].
  apply bool_decide_eq_true in Hst.
  destruct (validate_courier_id_books courier_id now s)
    as (Ho & Hw & _ & _).
  destruct (CourierAssignmentSerializer.validate_courier_id courier_id now s)
    as [s1 [k|e]]; simpl in Ho, Hw; [|by eapply consistent_same_books].
  assert (Hcons1 : consistent s1) by (by eapply consistent_same_books).
  assert (Hsome1 : orders s1 !! order_pk o = Some o) by (by rewrite Ho).
  cbv zeta. destruct (assigned_courier o) as [j|] eqn:Hj.
  - destruct (decide (j = k)) as [->|Hne].
    + rewrite bool_decide_eq_false_2 by (intros H; by apply H).
      rewrite bool_decide_eq_false_2 by (intros H; by apply H).
      simpl fst.
      eapply (consistent_replace s1 _ o (assign_fields k now o)
                Hcons1 Hsome1); [done|done|discriminate|].
      intros c. rewrite save_order_workload, !delta_status, Hj. simpl.
      destruct (status o) eqn:Hs; count_cases;
        try (specialize (Hcreated eq_refl); congruence);
        repeat (apply elem_of_cons in Hst as [?|Hst]; try done);
        by apply elem_of_nil in Hst.
    + rewrite (bool_decide_eq_true_2 (j ≠ k)) by done.
      rewrite (bool_decide_eq_true_2 (Some j ≠ Some k)) by congruence.
      simpl fst.
      eapply (move_step_consistent s1 o (assign_fields k now o) j k now
                Hcons1 Hsome1 Hj Hne); try done.
      * intros Hs. specialize (Hcreated Hs). congruence.
      * status_mem.
      * rewrite update_workload_orders. simpl.
        by rewrite update_workload_orders.
      * intros c.
        by rewrite !update_workload_workload, !save_order_workload,
             !update_workload_workload.
  - rewrite bool_decide_eq_true_2 by done. simpl fst.
    by apply assign_step_consistent.
Qed.

Lemma reassign_courier_consistent user pk courier_id now s :
  consistent s →
  consistent (fst (OrderViewSet.reassign_courier user pk courier_id now s)).
Proof.
  intros Hcons. unfold OrderViewSet.reassign_courier.
  destruct (OrderViewSet.get_object user pk s) as [o|e] eqn:Hget; [|done].
  apply get_object_lookup in Hget.
  destruct (proj2 Hcons _ _ Hget) as [<- Hcreated].
  destruct (bool_decide (status o ∈ [ASSIGNED; PICKED_UP])) eqn:Hst;
    simpl negb; cbv iota; [|done].
  apply bool_decide_eq_true in Hst.
  destruct (assigned_courier o) as [j|] eqn:Hj; [|done].
  destruct (validate_courier_id_books courier_id now s)
    as (Ho & Hw & _ & _).
  destruct (CourierAssignmentSerializer.validate_courier_id courier_id now s)
    as [s1 [k|e]]; simpl in Ho, Hw; [|by eapply consistent_same_books].
  assert (Hcons1 : consistent s1) by (by eapply consistent_same_books).
  assert (Hsome1 : orders s1 !! order_pk o = Some o) by (by rewrite Ho).
  destruct (bool_decide (j = k)) eqn:Hjk; [done|].
  apply bool_decide_eq_false in Hjk. cbv zeta. simpl fst.
  set (o' := reassign_fields k now o).
  assert (Ho' : o' = if bool_decide (status o = PICKED_UP)
                     then set_picked_up_at None
                            (set_status ASSIGNED
                               (set_assigned_at (Some now)
                                  (set_assigned_courier (Some k) o)))
                     else set_assigned_at (Some now)
                            (set_assigned_courier (Some k) o)) by done.
  clearbody o'.
  eapply (move_step_consistent s1 o o' j k now Hcons1 Hsome1 Hj Hjk).
  - intros Hs. specialize (Hcreated Hs). congruence.
  - status_mem.
  - subst o'. by case_bool_decide.
  - subst o'. by case_bool_decide.
  - subst o'. case_bool_decide as Hp; [done|]. simpl. status_mem.
  - assert (Hpk : order_pk o' = order_pk o)
      by (subst o'; by case_bool_decide).
    simpl. by rewrite Hpk, !update_workload_orders.
  - intros c. by rewrite save_order_workload.
Qed.

Lemma accept_order_consistent user pk now s :
  consistent s →
  consistent (fst (OrderViewSet.accept_order user pk now s)).
Proof.
  intros Hcons. unfold OrderViewSet.accept_order.
  destruct (negb (bool_decide (role user = COURIER))); [done|].
  destruct (OrderViewSet.get_object user pk s) as [o|e] eqn:Hget; [|done].
  apply get_object_lookup in Hget.
  destruct (proj2 Hcons _ _ Hget) as [<- Hcreated].
  destruct (bool_decide (status o = CREATED)) eqn:Hst;
    simpl negb; cbv iota; [|done].
  apply bool_decide_eq_true in Hst.
  pose proof (get_or_create_orders (user_pk user) now s) as Ho.
  pose proof (get_or_create_workload (user_pk user) now s) as Hw.
  destruct (get_or_create (user_pk user) now s) as [s1 cs].
  simpl in Ho, Hw.
  assert (Hcons1 : consistent s1) by (by eapply consistent_same_books).
  destruct (negb (is_available cs)); [done|]. simpl fst.
  apply assign_step_consistent; [done|by rewrite Ho|by apply Hcreated].
Qed.

End Requests.

Section Runs.

Implicit Types (s : Store) (c k pk : nat) (o : Order) (now : Z).

Lemma count_live_empty c : count_live c ∅ = 0%nat.
Proof. unfold count_live. by rewrite map_to_list_empty. Qed.

Lemma initial_consistent s : initial s → consistent s.
Proof.
  intros [Ho Hz]. split.
  - intros c. unfold live_count, workload.
    rewrite Ho, count_live_empty.
    destruct (courier_statuses s !! c) as [cs|] eqn:Hc; [|done].
    by apply (Hz c cs).
  - intros pk o. rewrite Ho, lookup_empty. discriminate.
Qed.

Lemma try_auto_assignment_consistent o now s :
  consistent s → orders s !! order_pk o = Some o →
  assigned_courier o = None →
  consistent (fst (_try_auto_assignment o now s)).
Proof.
  intros Hcons Hsome Hnone.
  destruct (try_auto_assignment_cases o now s)
    as [[_ ->]|(c & cs & rest & _ & ->)]; simpl fst; [done|].
  by apply assign_step_consistent.
Qed.

(** A new row in [CREATED] without a courier changes no count. *)
Lemma new_order_consistent s cust p d km pr now :
  consistent s →
  consistent (save_order (new_order s cust p d km pr now) s).
Proof.
  intros Hcons.
  eapply (consistent_add s _ (new_order s cust p d km pr now) Hcons).
  - apply new_order_fresh.
  - done.
  - done.
  - intros c. rewrite save_order_workload, delta_status. simpl.
    count_cases.
Qed.

Lemma create_consistent user data now s :
  consistent s → consistent (fst (OrderViewSet.create user data now s)).
Proof.
  intros Hcons. unfold OrderViewSet.create.
  destruct (negb (bool_decide (role user = CUSTOMER))); [done|].
  destruct (OrderCreateSerializer.is_valid data) as [vd|e]; [|done].
  unfold OrderCreateSerializer.create.
  destruct (first_active (pricing_configs s)) as [cfg|]; [|done].
  cbv zeta. destruct (negb (fits_column _ && fits_column _)); [done|].
  set (o0 := new_order s _ _ _ _ _ _).
  pose proof (try_auto_assignment_consistent o0 now (save_order o0 s)
                (new_order_consistent s _ _ _ _ _ _ Hcons)
                (save_order_lookup o0 s) eq_refl) as H.
  by destruct (_try_auto_assignment o0 now (save_order o0 s)).
Qed.

Lemma update_availability_consistent user a l now s :
  consistent s →
  consistent (fst (CourierStatusViewSet.update_availability user a l now s)).
Proof.
  intros Hcons. unfold CourierStatusViewSet.update_availability.
  destruct (negb (bool_decide (role user = COURIER))); [done|].
  pose proof (get_or_create_orders (user_pk user) now s) as Ho.
  pose proof (get_or_create_workload (user_pk user) now s) as Hw.
  pose proof (get_or_create_count (user_pk user) now s) as Hc.
  destruct (get_or_create (user_pk user) now s) as [s1 cs].
  simpl in Ho, Hw, Hc. simpl fst.
  eapply (consistent_same_books s); [exact Ho| |exact Hcons].
  intros c. unfold workload at 1. simpl.
  destruct (decide (user_pk user = c)) as [<-|Hne].
  - rewrite lookup_insert_eq. simpl. exact Hc.
  - rewrite lookup_insert_ne by done. apply Hw.
Qed.

Lemma service_create_order_consistent cust p d km now s :
  consistent s →
  consistent (fst (OrderService.create_order cust p d km now s)).
Proof.
  intros Hcons. unfold OrderService.create_order.
  destruct (ConfigurationService.calculate_price _ _ _) as [pr|e]; [|done].
  destruct (negb (fits_column _ && fits_column _)); [done|].
  by apply new_order_consistent.
Qed.

Lemma service_assign_courier_consistent o courier now s :
  consistent s → orders s !! order_pk o = Some o →
  consistent (fst (OrderService.assign_courier o courier now s)).
Proof.
  intros Hcons Hsome. unfold OrderService.assign_courier.
  destruct (bool_decide (status o = CREATED)) eqn:Hst; simpl negb; cbv iota;
    [|done].
  apply bool_decide_eq_true in Hst.
  destruct (negb (bool_decide (role courier = COURIER))); [done|].
  set (k := user_pk courier).
  pose proof (get_or_create_orders k now s) as Ho.
  pose proof (get_or_create_workload k now s) as Hw.
  pose proof (get_or_create_count k now s) as Hc.
  destruct (get_or_create k now s) as [s1 cs]. simpl in Ho, Hw, Hc.
  destruct (negb (is_available cs)); simpl fst;
    [by eapply consistent_same_books|].
  pose proof (proj2 Hcons _ _ Hsome) as [_ Hcreated].
  eapply (consistent_replace s _ o (assign_fields k now o) Hcons Hsome).
  - done.
  - simpl. by rewrite Ho.
  - discriminate.
  - intros c. rewrite !delta_status, (Hcreated Hst), Hst. simpl.
    unfold workload at 1. simpl.
    destruct (decide (k = c)) as [<-|Hne].
    + rewrite lookup_insert_eq. simpl. rewrite Hc. count_cases.
    + rewrite lookup_insert_ne by done.
      change (workload s1 c = workload s c - 0
                              + (if bool_decide (Some k = Some c)
                                 then 1 else 0)).
      rewrite Hw. count_cases.
Qed.

(** The pricing requests write to the table of configurations only. *)
Lemma pricing_request_frame now req s :
  is_pricing_request req = true →
  orders (handle now req s) = orders s
  ∧ courier_statuses (handle now req s) = courier_statuses s
  ∧ users (handle now req s) = users s.
Proof.
  destruct req; try discriminate; intros _; simpl.
  - unfold PricingConfigViewSet.create. by repeat case_match.
  - unfold PricingConfigViewSet.activate. by repeat case_match.
  - unfold PricingConfigViewSet.update. by repeat case_match.
  - unfold ConfigurationService.update_pricing_config.
    by repeat case_match.
Qed.

Lemma handle_consistent now req s :
  consistent s → consistent (handle now req s).
Proof.
  intros Hcons.
  destruct (is_pricing_request req) eqn:Hp.
  - destruct (pricing_request_frame now req s Hp) as (Ho & Hc & _).
    eapply consistent_same_books; [exact Ho| |exact Hcons].
    intros c. unfold workload. by rewrite Hc.
  - destruct req; try discriminate; simpl.
    + by apply create_consistent.
    + by apply update_status_consistent.
    + by apply assign_courier_consistent.
    + by apply reassign_courier_consistent.
    + by apply accept_order_consistent.
    + by apply update_availability_consistent.
    + by apply service_create_order_consistent.
    + destruct (orders s !! pk) as [o|] eqn:Hsome; [|done].
      destruct (proj2 Hcons _ _ Hsome) as [<- _].
      by apply service_assign_courier_consistent.
Qed.

Lemma run_consistent reqs s : consistent s → consistent (run reqs s).
Proof.
  revert s. induction reqs as [|[now req] reqs IH]; intros s Hcons; [done|].
  simpl. apply IH. by apply handle_consistent.
Qed.

End Runs.

(** ** C2: the workload counters count the live orders *)

(** C2. From a store without orders whose counters are zero, after every
    sequence of requests (order creation with its automatic assignment,
    status updates, manual assignment, reassignment, acceptance,
    availability updates, the service calls and the pricing requests), the
    [current_orders_count] of every courier status row equals the number of
    orders assigned to that courier whose status is ASSIGNED, PICKED_UP or
    IN_TRANSIT; and a courier who has no row yet has no such order. *)
Theorem workload_counts_live_orders :
  ∀ (s0 : Store) (reqs : list (Z * Request)),
    initial s0 →
    (∀ c cs, courier_statuses (run reqs s0) !! c = Some cs →
             current_orders_count cs = live_count (run reqs s0) c)
    ∧ (∀ c, courier_statuses (run reqs s0) !! c = None →
            live_count (run reqs s0) c = 0).
Proof.
  intros s0 reqs Hinit.
  destruct (run_consistent reqs s0 (initial_consistent s0 Hinit)) as [Hw _].
  split.
  - intros c cs Hrow. rewrite <- Hw. unfold workload. by rewrite Hrow.
  - intros c Hrow. rewrite <- Hw. unfold workload. by rewrite Hrow.
Qed.

Lemma workload_counts_live_orders_witness :
  courier_statuses
    (run [(10, CreateOrder alice (parcel 500));
          (20, ReassignCourier root 0 3);
          (30, UpdateStatus carol 0 PICKED_UP)] depot) !! 3%nat
  = Some {| is_available := true; current_orders_count := 1;
            last_activity := 20; location_description := "" |}
  ∧ 1 = live_count
          (run [(10, CreateOrder alice (parcel 500));
                (20, ReassignCourier root 0 3);
                (30, UpdateStatus carol 0 PICKED_UP)] depot) 3.
Proof.
  split; [reflexivity|].
  refine (proj1 (workload_counts_live_orders depot
                   [(10, CreateOrder alice (parcel 500));
                    (20, ReassignCourier root 0 3);
                    (30, UpdateStatus carol 0 PICKED_UP)] _)
            3%nat
            {| is_available := true; current_orders_count := 1;
               last_activity := 20; location_description := "" |} _).
  - split; [reflexivity|].
    apply (bool_decide_unpack _). vm_compute. exact I.
  - reflexivity.
Defined.

(** ** C7: reassignment *)

(** C7. In a store reached by a run, when [reassign_courier] succeeds, the
    order was stored in ASSIGNED or PICKED_UP under a courier other than the
    new one; the old courier's counter goes down by one, the new courier's
    goes up by one and no other counter moves; the order is stored with the
    new courier, [assigned_at] at [now] and status ASSIGNED, and its
    [picked_up_at] is null when it was in PICKED_UP and untouched
    otherwise. *)
Theorem reassign_moves_order_and_workload :
  ∀ (s0 : Store) (reqs : list (Z * Request)) (user : User)
    (pk courier_id : nat) (now : Z) (s' : Store) (order' : Order),
    initial s0 →
    OrderViewSet.reassign_courier user pk courier_id now (run reqs s0)
    = (s', Ok order') →
    ∃ order old_courier,
      orders (run reqs s0) !! pk = Some order
      ∧ status order ∈ [ASSIGNED; PICKED_UP]
      ∧ assigned_courier order = Some old_courier
      ∧ old_courier ≠ courier_id
      ∧ workload s' old_courier = workload (run reqs s0) old_courier - 1
      ∧ workload s' courier_id = workload (run reqs s0) courier_id + 1
      ∧ (∀ c, c ≠ old_courier → c ≠ courier_id →
              workload s' c = workload (run reqs s0) c)
      ∧ orders s' !! pk = Some order'
      ∧ assigned_courier order' = Some courier_id
      ∧ assigned_at order' = Some now
      ∧ status order' = ASSIGNED
      ∧ (status order = PICKED_UP → picked_up_at order' = None)
      ∧ (status order = ASSIGNED → picked_up_at order' = picked_up_at order).
Proof.
  intros s0 reqs user pk courier_id now s' order' Hinit.
  pose proof (run_consistent reqs s0 (initial_consistent s0 Hinit)) as Hcons.
  set (s := run reqs s0) in *. clearbody s.
  unfold OrderViewSet.reassign_courier.
  destruct (OrderViewSet.get_object user pk s) as [o|e] eqn:Hget;
    [|discriminate].
  apply get_object_lookup in Hget.
  destruct (proj2 Hcons _ _ Hget) as [Hpk _].
  destruct (bool_decide (status o ∈ [ASSIGNED; PICKED_UP])) eqn:Hst;
    simpl negb; cbv iota; [|discriminate].
  apply bool_decide_eq_true in Hst.
  destruct (assigned_courier o) as [j|] eqn:Hj; [|discriminate].
  destruct (validate_courier_id_books courier_id now s) as (Ho & Hw & _ & _).
  destruct (CourierAssignmentSerializer.validate_courier_id courier_id now s)
    as [s1 [k|e]] eqn:Hval; simpl in Ho, Hw; [|discriminate].
  apply validate_courier_id_ok in Hval as (-> & _ & _).
  destruct (bool_decide (j = courier_id)) eqn:Hjk; [discriminate|].
  apply bool_decide_eq_false in Hjk. cbv zeta.
  intros [= <- <-].
  pose proof (consistent_workload_live s j _ o Hcons Hget) as Hlive.
  pose proof (consistent_workload_nonneg s courier_id Hcons) as Hnn.
  rewrite delta_status, Hj, bool_decide_eq_true_2 in Hlive by done.
  exists o, j. split; [done|]. split; [done|]. split; [done|].
  split; [done|].
  assert (Hwl : ∀ c, workload (save_order (reassign_fields courier_id now o)
                         (_update_courier_workload courier_id 1 now
                            (_update_courier_workload j (-1) now s1))) c
                     = if decide (c = courier_id) then workload s c + 1
                       else if decide (c = j) then workload s c - 1
                       else workload s c).
  { intros c. rewrite save_order_workload, !update_workload_workload, Hw.
    pose proof (consistent_workload_nonneg s c Hcons).
    destruct (status o); count_cases; status_mem. }
  split; [rewrite Hwl; count_cases|].
  split; [rewrite Hwl; count_cases|].
  split; [intros c ? ?; rewrite Hwl; count_cases|].
  assert (Hpk' : order_pk (reassign_fields courier_id now o) = pk)
    by (unfold reassign_fields; simpl; by case_bool_decide).
  split; [rewrite <- Hpk'; apply save_order_lookup|].
  unfold reassign_fields. simpl.
  case_bool_decide as Hp; simpl; repeat split; try done;
    try (intros; congruence); status_mem.
Qed.

Lemma reassign_moves_order_and_workload_witness :
  ∃ order old_courier,
    orders (run [(10, CreateOrder alice (parcel 500))] depot) !! 0%nat
    = Some order
    ∧ assigned_courier order = Some old_courier
    ∧ old_courier ≠ 3%nat
    ∧ workload
        (fst (OrderViewSet.reassign_courier root 0 3 20
                (run [(10, CreateOrder alice (parcel 500))] depot)))
        old_courier
      = workload (run [(10, CreateOrder alice (parcel 500))] depot)
          old_courier - 1.
Proof.
  destruct (reassign_moves_order_and_workload depot
              [(10, CreateOrder alice (parcel 500))] root 0 3 20
              (fst (OrderViewSet.reassign_courier root 0 3 20
                      (run [(10, CreateOrder alice (parcel 500))] depot)))
              (reassign_fields 3 20 (waybill ASSIGNED (Some 2%nat))))
    as (o & j & H1 & _ & H2 & H3 & H4 & _).
  - split; [reflexivity|].
    apply (bool_decide_unpack _). vm_compute. exact I.
  - vm_compute. reflexivity.
  - exists o, j. repeat split; assumption.
Defined.

(** ** C6: manual assignment to the courier the order already has *)

(** C6 counterexample. An order is created in the depot and assigned at
    instant 10 to courier 2; the admin then assigns it to courier 2 again at
    instant 50: the view succeeds and the stored order has a new
    [assigned_at]. *)
Lemma same_courier_assign_succeeds :
  match orders (run [(10, CreateOrder alice (parcel 500))] depot) !! 0%nat,
        OrderViewSet.assign_courier root 0 2 50
          (run [(10, CreateOrder alice (parcel 500))] depot) with
  | Some order, (s', Ok order') =>
      assigned_courier order = Some 2%nat
      ∧ assigned_at order = Some 10
      ∧ assigned_at order' = Some 50
      ∧ orders s' !! 0%nat = Some order'
      ∧ order' ≠ order
  | _, _ => False
  end.
Proof. vm_compute. repeat split; discriminate. Qed.

(** C6, amended. For every stored order in CREATED or ASSIGNED that has an
    assigned courier, when that courier has role COURIER and is available, an
    admin's [assign_courier] with the same courier as target does not fail:
    it succeeds, the order keeps its courier, has status ASSIGNED and an
    [assigned_at] refreshed to [now], no other order row changes, and every
    workload counter keeps its value. *)
Theorem same_courier_assign_refreshes :
  ∀ (user : User) (pk k : nat) (now : Z) (s : Store) (order : Order)
    (u : User),
    role user = ADMIN →
    orders s !! pk = Some order →
    order_pk order = pk →
    status order ∈ [CREATED; ASSIGNED] →
    assigned_courier order = Some k →
    users s !! k = Some u → role u = COURIER →
    (∀ cs, courier_statuses s !! k = Some cs → is_available cs = true) →
    ∃ s' order',
      OrderViewSet.assign_courier user pk k now s = (s', Ok order')
      ∧ orders s' = <[pk := order']> (orders s)
      ∧ (∀ c, workload s' c = workload s c)
      ∧ order' = set_assigned_at (Some now) (set_status ASSIGNED order)
      ∧ assigned_courier order' = Some k
      ∧ status order' = ASSIGNED
      ∧ assigned_at order' = Some now.
Proof.
  intros user pk k now s order u Hadmin Hsome Hpk Hst Hk Hu Hrole Hav.
  unfold OrderViewSet.assign_courier.
  rewrite (bool_decide_eq_true_2 _ Hadmin). simpl negb. cbv iota.
  unfold OrderViewSet.get_object, OrderViewSet.in_queryset.
  rewrite Hsome, Hadmin.
  rewrite (bool_decide_eq_true_2 _ Hst). simpl negb. cbv iota.
  unfold CourierAssignmentSerializer.validate_courier_id.
  rewrite Hu, (bool_decide_eq_true_2 _ Hrole). simpl negb. cbv iota.
  pose proof (get_or_create_orders k now s) as Ho.
  pose proof (get_or_create_workload k now s) as Hw.
  assert (Ha : is_available (snd (get_or_create k now s)) = true).
  { unfold get_or_create.
    destruct (courier_statuses s !! k) as [cs|] eqn:Hrow; simpl; [|done].
    by apply Hav. }
  destruct (get_or_create k now s) as [s1 cs]. simpl in Ho, Hw, Ha.
  rewrite Ha. simpl negb. cbv iota zeta. rewrite Hk.
  rewrite (bool_decide_eq_false_2 (k ≠ k)) by (intros H; by apply H).
  rewrite (bool_decide_eq_false_2 (Some k ≠ Some k))
    by (intros H; by apply H).
  eexists _, _. split; [reflexivity|].
  split; [simpl; by rewrite Ho, Hpk|].
  split; [intros c; by rewrite save_order_workload|].
  split; [|done].
  unfold assign_fields. destruct order. simpl in *. by rewrite Hk.
Qed.

Lemma same_courier_assign_refreshes_witness :
  ∃ s' order',
    OrderViewSet.assign_courier root 0 2 50
      (run [(10, CreateOrder alice (parcel 500))] depot) = (s', Ok order')
    ∧ (∀ c, workload s' c
            = workload (run [(10, CreateOrder alice (parcel 500))] depot) c)
    ∧ assigned_at order' = Some 50.
Proof.
  destruct (same_courier_assign_refreshes root 0 2 50
              (run [(10, CreateOrder alice (parcel 500))] depot)
              (waybill ASSIGNED (Some 2%nat)) bob)
    as (s' & o' & H1 & _ & H2 & _ & _ & _ & H3).
  - reflexivity.
  - vm_compute. reflexivity.
  - reflexivity.
  - simpl. apply list_elem_of_further, list_elem_of_here.
  - reflexivity.
  - vm_compute. reflexivity.
  - reflexivity.
  - intros cs. vm_compute. intros [= <-]. reflexivity.
  - exists s', o'. repeat split; assumption.
Defined.

(** ** C8: carried orders and their courier *)

Section Writes.

Implicit Types (s : Store) (c k pk : nat) (o : Order) (now : Z).

(** What a request does to the table of orders: nothing, or one row written
    under its own key in one of the ways of [written]. *)
Lemma handle_writes now req s :
  consistent s →
  orders (handle now req s) = orders s
  ∨ ∃ o', orders (handle now req s) = <[order_pk o' := o']> (orders s)
          ∧ written now req (orders s !! order_pk o') o'.
Proof.
  intros Hcons.
  destruct (is_pricing_request req) eqn:Hp;
    [left; apply (pricing_request_frame now req s Hp)|].
  destruct req; try discriminate; simpl.
  - (* create *)
    unfold OrderViewSet.create.
    destruct (negb (bool_decide (role user = CUSTOMER))); [by left|].
    destruct (OrderCreateSerializer.is_valid data) as [vd|e]; [|by left].
    unfold OrderCreateSerializer.create.
    destruct (first_active (pricing_configs s)) as [cfg|]; [|by left].
    cbv zeta. destruct (negb (fits_column _ && fits_column _)); [by left|].
    set (o0 := new_order s _ _ _ _ _ _).
    pose proof (new_order_fresh s (user_pk user) (data_pickup_address vd)
                  (data_delivery_address vd) (data_distance_km vd)
                  (coefficient
                     (price_of (Dec.of_hundredths (data_distance_km vd)) cfg))
                  now) as Hfresh.
    fold o0 in Hfresh. right.
    destruct (try_auto_assignment_cases o0 now (save_order o0 s))
      as [[_ ->]|(c & cs & rest & _ & ->)]; simpl fst.
    + exists o0. split; [done|]. rewrite Hfresh. exists o0. by auto.
    + exists (assign_fields c now o0). split.
      * rewrite update_workload_orders. simpl. apply insert_insert_eq.
      * change (order_pk (assign_fields c now o0)) with (order_pk o0).
        rewrite Hfresh. exists o0. by eauto.
  - (* update_status *)
    unfold OrderViewSet.update_status.
    destruct (OrderViewSet.get_object user pk s) as [o|e] eqn:Hget;
      [|by left].
    apply get_object_lookup in Hget.
    destruct (proj2 Hcons _ _ Hget) as [<- _].
    case_match; [by left|].
    unfold OrderViewSet.apply_status_transition,
      OrderStatusUpdateSerializer.validate_status,
      OrderStatusUpdateSerializer.update. cbv zeta.
    destruct (bool_decide (requested ∈ _)) eqn:Hvalid; simpl negb; cbv iota;
      [|by left].
    apply bool_decide_eq_true in Hvalid. right.
    set (o' := OrderStatusUpdateSerializer.update_fields o requested now).
    assert (Hpk : order_pk o' = order_pk o)
      by (subst o'; by destruct requested).
    exists o'. rewrite Hpk, Hget. split.
    + repeat case_match; simpl fst;
        rewrite ?update_workload_orders; simpl; by rewrite Hpk.
    + left. by exists user, requested.
  - (* assign_courier *)
    unfold OrderViewSet.assign_courier.
    destruct (negb (bool_decide (role user = ADMIN))); [by left|].
    destruct (OrderViewSet.get_object user pk s) as [o|e] eqn:Hget;
      [|by left].
    apply get_object_lookup in Hget.
    destruct (proj2 Hcons _ _ Hget) as [<- _].
    case_match; [by left|].
    destruct (validate_courier_id_books courier_id now s) as (Ho & _).
    destruct (CourierAssignmentSerializer.validate_courier_id
                courier_id now s) as [s1 [k|e]]; simpl in Ho; [|by left].
    right. exists (assign_fields k now o).
    change (order_pk (assign_fields k now o)) with (order_pk o).
    rewrite Hget. split; [|right; left; by exists k].
    cbv zeta. repeat case_match; simpl fst;
      rewrite ?update_workload_orders; simpl;
      rewrite ?update_workload_orders; by rewrite Ho.
  - (* reassign_courier *)
    unfold OrderViewSet.reassign_courier.
    destruct (OrderViewSet.get_object user pk s) as [o|e] eqn:Hget;
      [|by left].
    apply get_object_lookup in Hget.
    destruct (proj2 Hcons _ _ Hget) as [<- _].
    case_match; [by left|].
    destruct (assigned_courier o) as [j|]; [|by left].
    destruct (validate_courier_id_books courier_id now s) as (Ho & _).
    destruct (CourierAssignmentSerializer.validate_courier_id
                courier_id now s) as [s1 [k|e]]; simpl in Ho; [|by left].
    case_match; [by left|].
    right. exists (reassign_fields k now o).
    assert (Hpk : order_pk (reassign_fields k now o) = order_pk o)
      by (unfold reassign_fields; simpl;
          by destruct (bool_decide (status o = PICKED_UP))).
    rewrite Hpk, Hget. split; [|right; right; by exists k].
    cbv zeta. simpl. by rewrite Hpk, !update_workload_orders, Ho.
  - (* accept_order *)
    unfold OrderViewSet.accept_order.
    destruct (negb (bool_decide (role user = COURIER))); [by left|].
    destruct (OrderViewSet.get_object user pk s) as [o|e] eqn:Hget;
      [|by left].
    apply get_object_lookup in Hget.
    destruct (proj2 Hcons _ _ Hget) as [<- _].
    case_match; [by left|].
    pose proof (get_or_create_orders (user_pk user) now s) as Ho.
    destruct (get_or_create (user_pk user) now s) as [s1 cs]. simpl in Ho.
    destruct (negb (is_available cs)); [by left|].
    right. exists (assign_fields (user_pk user) now o).
    change (order_pk (assign_fields (user_pk user) now o))
      with (order_pk o).
    rewrite Hget. split; [|right; left; by eexists].
    simpl fst. rewrite update_workload_orders. simpl. by rewrite Ho.
  - (* update_availability *)
    left. unfold CourierStatusViewSet.update_availability.
    destruct (negb (bool_decide (role user = COURIER))); [done|].
    pose proof (get_or_create_orders (user_pk user) now s) as Ho.
    by destruct (get_or_create (user_pk user) now s) as [s1 cs].
  - (* OrderService.create_order *)
    unfold OrderService.create_order.
    destruct (ConfigurationService.calculate_price _ _ _) as [pr|e];
      [|by left].
    destruct (negb (fits_column _ && fits_column _)); [by left|].
    set (o0 := new_order s _ _ _ _ _ _).
    assert (Hfresh : orders s !! order_pk o0 = None)
      by apply new_order_fresh.
    right. exists o0. split; [done|]. rewrite Hfresh. exists o0. by auto.
  - (* OrderService.assign_courier *)
    destruct (orders s !! pk) as [o|] eqn:Hsome; [|by left].
    destruct (proj2 Hcons _ _ Hsome) as [<- _].
    unfold OrderService.assign_courier.
    case_match; [by left|]. case_match; [by left|].
    pose proof (get_or_create_orders (user_pk courier) now s) as Ho.
    destruct (get_or_create (user_pk courier) now s) as [s1 cs].
    simpl in Ho. destruct (negb (is_available cs)); [by left|].
    right. exists (assign_fields (user_pk courier) now o).
    change (order_pk (assign_fields (user_pk courier) now o))
      with (order_pk o).
    rewrite Hsome. split; [|right; left; by eexists].
    simpl. by rewrite Ho.
Qed.

Lemma carried_step now req s :
  consistent s → carried_has_courier s → asks_assigned req = false →
  carried_has_courier (handle now req s).
Proof.
  intros Hcons Hcar Hreq pk x.
  destruct (handle_writes now req s Hcons) as [->|(o' & -> & Hwr)];
    [apply Hcar|].
  destruct (decide (pk = order_pk o')) as [->|Hne];
    [|rewrite lookup_insert_ne by done; apply Hcar].
  rewrite lookup_insert_eq. intros [= <-] Hc.
  unfold written in Hwr.
  destruct (orders s !! order_pk o') as [o|] eqn:Hold.
  - destruct Hwr as [(user & requested & -> & Hvalid & ->)
                    |[(k & ->)|(k & ->)]].
    + assert (Hco : assigned_courier
                      (OrderStatusUpdateSerializer.update_fields
                         o requested now) = assigned_courier o)
        by (by destruct requested).
      assert (Hst : status (OrderStatusUpdateSerializer.update_fields
                              o requested now) = requested)
        by (by destruct requested).
      rewrite Hco. rewrite Hst in Hc.
      apply (Hcar _ o Hold). unfold carried in *.
      destruct requested, (status o); simpl in Hvalid; try discriminate;
        status_mem.
    + by eexists.
    + unfold reassign_fields. case_bool_decide; by eexists.
  - destruct Hwr as (o0 & Hs0 & Hc0 & [->|(c & ->)]).
    + unfold carried in Hc. rewrite Hs0 in Hc. status_mem.
    + by eexists.
Qed.

Lemma carried_run reqs s :
  consistent s → carried_has_courier s →
  Forall (fun tr => asks_assigned (snd tr) = false) reqs →
  carried_has_courier (run reqs s).
Proof.
  revert s. induction reqs as [|[now req] reqs IH];
    intros s Hcons Hcar Hall; [done|].
  apply Forall_cons in Hall as [Hreq Hall]. simpl.
  apply IH; [by apply handle_consistent|by apply carried_step|done].
Qed.

End Writes.

(** C8 counterexample. In the depot without courier rows a customer's order
    stays in CREATED; the admin's status update to ASSIGNED, which the
    transition table allows, leaves it in ASSIGNED without a courier.  So
    the claim, that every run from an initial store leaves every carried
    order with a courier, is false. *)
Lemma carried_order_without_courier :
  ¬ (∀ (s0 : Store) (reqs : list (Z * Request)),
       initial s0 → carried_has_courier (run reqs s0)).
Proof.
  intros H.
  assert (Hinit : initial (empty_depot 5000 2000)).
  { split; [reflexivity|]. apply (bool_decide_unpack _). vm_compute.
    exact I. }
  destruct (H (empty_depot 5000 2000)
              [(10, CreateOrder alice (parcel 500));
               (20, UpdateStatus root 0 ASSIGNED)]
              Hinit 0%nat
              (set_assigned_at (Some 20) (waybill ASSIGNED None)))
    as [c Hc].
  - vm_compute. reflexivity.
  - apply list_elem_of_here.
  - discriminate.
Qed.

(** C8, amended. From a store without orders whose counters are zero, after
    every sequence of requests none of which is a status update that asks
    for ASSIGNED, every stored order in ASSIGNED, PICKED_UP, IN_TRANSIT or
    DELIVERED has an assigned courier.  (A status update from CREATED to
    ASSIGNED is allowed by the transition table and assigns no courier.) *)
Theorem carried_orders_have_courier :
  ∀ (s0 : Store) (reqs : list (Z * Request)) (pk : nat) (o : Order),
    initial s0 →
    Forall (fun tr => asks_assigned (snd tr) = false) reqs →
    orders (run reqs s0) !! pk = Some o →
    status o ∈ [ASSIGNED; PICKED_UP; IN_TRANSIT; DELIVERED] →
    assigned_courier o ≠ None.
Proof.
  intros s0 reqs pk o Hinit Hall Hsome Hst.
  assert (Hcar0 : carried_has_courier s0).
  { intros pk' o'. rewrite (proj1 Hinit), lookup_empty. discriminate. }
  destruct (carried_run reqs s0 (initial_consistent s0 Hinit) Hcar0 Hall
              pk o Hsome Hst) as [c ->].
  discriminate.
Qed.

Lemma carried_orders_have_courier_witness :
  assigned_courier
    (set_picked_up_at (Some 30) (set_status PICKED_UP
       (waybill ASSIGNED (Some 2%nat)))) ≠ None.
Proof.
  apply (carried_orders_have_courier depot
           [(10, CreateOrder alice (parcel 500));
            (30, UpdateStatus bob 0 PICKED_UP)] 0%nat).
  - split; [reflexivity|].
    apply (bool_decide_unpack _). vm_compute. exact I.
  - repeat constructor.
  - vm_compute. reflexivity.
  - simpl. apply list_elem_of_further, list_elem_of_here.
Defined.

(** ** C9: stored prices and later pricing configurations *)

Lemma pricing_run_frame (reqs : list (Z * Request)) (s : Store) :
  Forall (fun tr => is_pricing_request (snd tr) = true) reqs →
  orders (run reqs s) = orders s.
Proof.
  revert s. induction reqs as [|[now req] reqs IH]; intros s Hall; [done|].
  apply Forall_cons in Hall as [Hreq Hall]. simpl.
  rewrite (IH _ Hall). apply (pricing_request_frame now req s Hreq).
Qed.

(** A created order is stored at the price of the configuration that was
    active. *)
Lemma create_stores_price (user : User) (data : OrderData) (now : Z)
  (s s1 : Store) (order : Order) (cfg : PricingConfig) :
  first_active (pricing_configs s) = Some cfg →
  OrderViewSet.create user data now s = (s1, Ok order) →
  orders s1 !! order_pk order = Some order
  ∧ price order
    = coefficient (price_of (Dec.of_hundredths (distance_km order)) cfg).
Proof.
  intros Hcfg Hcreate.
  apply create_inv in Hcreate as (_ & vd & cfg' & _ & Hcfg' & _ & Hs & Ho).
  assert (cfg' = cfg) as -> by congruence.
  set (o0 := new_order s _ _ _ _ _ _) in *.
  destruct (try_auto_assignment_cases o0 now (save_order o0 s))
    as [[_ Heq]|(c & cs & rest & _ & Heq)];
    rewrite Heq in Hs, Ho; simpl in Hs, Ho; subst s1 order.
  - split; [apply save_order_lookup | done].
  - split; [|done]. rewrite update_workload_orders.
    exact (save_order_lookup (assign_fields c now o0) (save_order o0 s)).
Qed.

(** C9. An order created while the configuration [cfg] is active is stored
    at the price computed from [cfg]; after any sequence of pricing
    requests (creation of a configuration, activation, update, and the
    service's [update_pricing_config]) the table of orders is the same, so
    the order is still stored with that price. *)
Theorem price_frozen_under_pricing_requests :
  ∀ (user : User) (data : OrderData) (now : Z) (s s1 : Store)
    (order : Order) (cfg : PricingConfig) (reqs : list (Z * Request)),
    first_active (pricing_configs s) = Some cfg →
    OrderViewSet.create user data now s = (s1, Ok order) →
    Forall (fun tr => is_pricing_request (snd tr) = true) reqs →
    orders (run reqs s1) = orders s1
    ∧ orders (run reqs s1) !! order_pk order = Some order
    ∧ price order
      = coefficient (price_of (Dec.of_hundredths (distance_km order)) cfg).
Proof.
  intros user data now s s1 order cfg reqs Hcfg Hcreate Hall.
  destruct (create_stores_price user data now s s1 order cfg Hcfg Hcreate)
    as [Hstored Hprice].
  rewrite (pricing_run_frame reqs s1 Hall). done.
Qed.

Lemma price_frozen_under_pricing_requests_witness :
  first_active
    (pricing_configs
       (run [(20, CreatePricingConfig root 9000 3000);
             (30, UpdatePricingConfig root 0 100 100 false)]
          (fst (OrderViewSet.create alice (parcel 500) 10 depot))))
  = Some {| base_fee := 9000; per_km_rate := 3000; is_active := true;
            config_created_at := 20; created_by := 4 |}
  ∧ orders
      (run [(20, CreatePricingConfig root 9000 3000);
            (30, UpdatePricingConfig root 0 100 100 false)]
         (fst (OrderViewSet.create alice (parcel 500) 10 depot))) !! 0%nat
    = Some (waybill ASSIGNED (Some 2%nat))
  ∧ price (waybill ASSIGNED (Some 2%nat)) = 15000.
Proof.
  split; [reflexivity|].
  destruct (price_frozen_under_pricing_requests alice (parcel 500) 10 depot
              (fst (OrderViewSet.create alice (parcel 500) 10 depot))
              (waybill ASSIGNED (Some 2%nat)) (tariff 5000 2000)
              [(20, CreatePricingConfig root 9000 3000);
               (30, UpdatePricingConfig root 0 100 100 false)])
    as (_ & H & _).
  - reflexivity.
  - vm_compute. reflexivity.
  - repeat constructor.
  - split; [exact H | reflexivity].
Defined.

(** C1, at an instance: a delivered order cannot go back to CREATED, the
    answer names both statuses and the store is handed back. *)
Lemma status_transition_iff_table_witness :
  OrderViewSet.apply_status_transition
    (waybill DELIVERED (Some 2%nat)) CREATED 40 depot
  = (depot, Err (ValidationError "Cannot transition from DELIVERED to CREATED")).
Proof.
  apply (proj1 (proj2 (status_transition_iff_table
                         (waybill DELIVERED (Some 2%nat)) CREATED 40 depot))).
  reflexivity.
Defined.

(** ** The scenarios of the specification, evaluated *)

(** An order placed in the depot is assigned at once to [bob], who takes it
    through every status; the four instants are stamped in turn and his
    counter is back at zero. *)
Example full_lifecycle :
  let s := run [(10, CreateOrder alice (parcel 500));
                (20, UpdateStatus bob 0 PICKED_UP);
                (30, UpdateStatus bob 0 IN_TRANSIT);
                (40, UpdateStatus bob 0 DELIVERED)] depot in
  orders s !! 0%nat
  = Some {| order_pk := 0; customer := 1; assigned_courier := Some 2%nat;
            pickup_address := "12 Bole Road";
            delivery_address := "7 Churchill Avenue";
            distance_km := 500; price := 15000; status := DELIVERED;
            created_at := 10; assigned_at := Some 10;
            picked_up_at := Some 20; in_transit_at := Some 30;
            delivered_at := Some 40 |}
  ∧ workload s 2 = 0.
Proof. vm_compute. split; reflexivity. Qed.

(** CREATED to DELIVERED in one step is refused. *)
Example created_to_delivered_refused :
  snd (OrderViewSet.apply_status_transition (waybill CREATED None)
         DELIVERED 20 depot)
  = Err (ValidationError "Cannot transition from CREATED to DELIVERED").
Proof. reflexivity. Qed.

(** With workloads 3, 1, 1 and 5 the order goes to a courier of workload 1;
    the unavailable courier of workload 0 is not in the query set. *)
Example least_loaded_of_four :
  map (fun row => (fst row, current_orders_count (snd row)))
    (available_couriers busy_depot)
  = [(12%nat, 1); (13%nat, 1); (11%nat, 3); (14%nat, 5)]
  ∧ match snd (OrderViewSet.create alice (parcel 500) 10 busy_depot) with
    | Ok order => assigned_courier order = Some 12%nat
    | Err _ => False
    end.
Proof. vm_compute. split; reflexivity. Qed.

(** * Further properties of the views and services *)

(** ** What a request may do to an order row *)

Section Changes.

Implicit Types (s : Store) (c k pk : nat) (o : Order) (now : Z).

(** Every request leaves the table of orders as it was, or writes one row
    under its own key: a new row of the shape [added], or a stored row
    rewritten in one of the ways of [changed]. *)
Lemma handle_changes now req s :
  consistent s →
  orders (handle now req s) = orders s
  ∨ ∃ o', orders (handle now req s) = <[order_pk o' := o']> (orders s)
          ∧ match orders s !! order_pk o' with
            | Some o => changed now o o'
            | None => added now o'
            end.
Proof.
  intros Hcons.
  destruct (is_pricing_request req) eqn:Hp;
    [left; apply (pricing_request_frame now req s Hp)|].
  destruct req; try discriminate; simpl.
  - (* create *)
    unfold OrderViewSet.create.
    destruct (negb (bool_decide (role user = CUSTOMER))); [by left|].
    destruct (OrderCreateSerializer.is_valid data) as [vd|e]; [|by left].
    unfold OrderCreateSerializer.create.
    destruct (first_active (pricing_configs s)) as [cfg|]; [|by left].
    cbv zeta. destruct (negb (fits_column _ && fits_column _)); [by left|].
    set (o0 := new_order s _ _ _ _ _ _).
    assert (Hfresh : orders s !! order_pk o0 = None)
      by apply new_order_fresh.
    right.
    destruct (try_auto_assignment_cases o0 now (save_order o0 s))
      as [[_ ->]|(c & cs & rest & _ & ->)]; simpl fst.
    + exists o0. split; [done|]. rewrite Hfresh. exists o0.
      repeat (split; [done|]). by left.
    + exists (assign_fields c now o0). split.
      * rewrite update_workload_orders. simpl. apply insert_insert_eq.
      * change (order_pk (assign_fields c now o0)) with (order_pk o0).
        rewrite Hfresh. exists o0. repeat (split; [done|]).
        right. by exists c.
  - (* update_status *)
    unfold OrderViewSet.update_status.
    destruct (OrderViewSet.get_object user pk s) as [o|e] eqn:Hget;
      [|by left].
    apply get_object_lookup in Hget.
    destruct (proj2 Hcons _ _ Hget) as [<- _].
    case_match; [by left|].
    unfold OrderViewSet.apply_status_transition,
      OrderStatusUpdateSerializer.validate_status,
      OrderStatusUpdateSerializer.update. cbv zeta.
    destruct (bool_decide (requested ∈ _)) eqn:Hvalid; simpl negb; cbv iota;
      [|by left].
    apply bool_decide_eq_true in Hvalid. right.
    set (o' := OrderStatusUpdateSerializer.update_fields o requested now).
    assert (Hpk : order_pk o' = order_pk o)
      by (subst o'; by destruct requested).
    exists o'. rewrite Hpk, Hget. split.
    + repeat case_match; simpl fst;
        rewrite ?update_workload_orders; simpl; by rewrite Hpk.
    + left. by exists requested.
  - (* assign_courier *)
    unfold OrderViewSet.assign_courier.
    destruct (negb (bool_decide (role user = ADMIN))); [by left|].
    destruct (OrderViewSet.get_object user pk s) as [o|e] eqn:Hget;
      [|by left].
    apply get_object_lookup in Hget.
    destruct (proj2 Hcons _ _ Hget) as [<- _].
    destruct (bool_decide (status o ∈ [CREATED; ASSIGNED])) eqn:Hst;
      simpl negb; cbv iota; [|by left].
    apply bool_decide_eq_true in Hst.
    destruct (validate_courier_id_books courier_id now s) as (Ho & _).
    destruct (CourierAssignmentSerializer.validate_courier_id
                courier_id now s) as [s1 [k|e]]; simpl in Ho; [|by left].
    right. exists (assign_fields k now o).
    change (order_pk (assign_fields k now o)) with (order_pk o).
    rewrite Hget. split; [|right; left; by exists k].
    cbv zeta. repeat case_match; simpl fst;
      rewrite ?update_workload_orders; simpl;
      rewrite ?update_workload_orders; by rewrite Ho.
  - (* reassign_courier *)
    unfold OrderViewSet.reassign_courier.
    destruct (OrderViewSet.get_object user pk s) as [o|e] eqn:Hget;
      [|by left].
    apply get_object_lookup in Hget.
    destruct (proj2 Hcons _ _ Hget) as [<- _].
    destruct (bool_decide (status o ∈ [ASSIGNED; PICKED_UP])) eqn:Hst;
      simpl negb; cbv iota; [|by left].
    apply bool_decide_eq_true in Hst.
    destruct (assigned_courier o) as [j|]; [|by left].
    destruct (validate_courier_id_books courier_id now s) as (Ho & _).
    destruct (CourierAssignmentSerializer.validate_courier_id
                courier_id now s) as [s1 [k|e]]; simpl in Ho; [|by left].
    case_match; [by left|].
    right. exists (reassign_fields k now o).
    assert (Hpk : order_pk (reassign_fields k now o) = order_pk o)
      by (unfold reassign_fields; simpl;
          by destruct (bool_decide (status o = PICKED_UP))).
    rewrite Hpk, Hget. split; [|right; right; by exists k].
    cbv zeta. simpl. by rewrite Hpk, !update_workload_orders, Ho.
  - (* accept_order *)
    unfold OrderViewSet.accept_order.
    destruct (negb (bool_decide (role user = COURIER))); [by left|].
    destruct (OrderViewSet.get_object user pk s) as [o|e] eqn:Hget;
      [|by left].
    apply get_object_lookup in Hget.
    destruct (proj2 Hcons _ _ Hget) as [<- _].
    destruct (bool_decide (status o = CREATED)) eqn:Hst;
      simpl negb; cbv iota; [|by left].
    apply bool_decide_eq_true in Hst.
    pose proof (get_or_create_orders (user_pk user) now s) as Ho.
    destruct (get_or_create (user_pk user) now s) as [s1 cs]. simpl in Ho.
    destruct (negb (is_available cs)); [by left|].
    right. exists (assign_fields (user_pk user) now o).
    change (order_pk (assign_fields (user_pk user) now o))
      with (order_pk o).
    rewrite Hget. split.
    + simpl fst. rewrite update_workload_orders. simpl. by rewrite Ho.
    + right; left. exists (user_pk user). split; [|done].
      rewrite Hst. apply list_elem_of_here.
  - (* update_availability *)
    left. unfold CourierStatusViewSet.update_availability.
    destruct (negb (bool_decide (role user = COURIER))); [done|].
    pose proof (get_or_create_orders (user_pk user) now s) as Ho.
    by destruct (get_or_create (user_pk user) now s) as [s1 cs].
  - (* OrderService.create_order *)
    unfold OrderService.create_order.
    destruct (ConfigurationService.calculate_price _ _ _) as [pr|e];
      [|by left].
    destruct (negb (fits_column _ && fits_column _)); [by left|].
    set (o0 := new_order s _ _ _ _ _ _).
    assert (Hfresh : orders s !! order_pk o0 = None)
      by apply new_order_fresh.
    right. exists o0. split; [done|]. rewrite Hfresh. exists o0.
    repeat (split; [done|]). by left.
  - (* OrderService.assign_courier *)
    destruct (orders s !! pk) as [o|] eqn:Hsome; [|by left].
    destruct (proj2 Hcons _ _ Hsome) as [<- _].
    unfold OrderService.assign_courier.
    destruct (bool_decide (status o = CREATED)) eqn:Hst;
      simpl negb; cbv iota; [|by left].
    apply bool_decide_eq_true in Hst.
    case_match; [by left|].
    pose proof (get_or_create_orders (user_pk courier) now s) as Ho.
    destruct (get_or_create (user_pk courier) now s) as [s1 cs].
    simpl in Ho. destruct (negb (is_available cs)); [by left|].
    right. exists (assign_fields (user_pk courier) now o).
    change (order_pk (assign_fields (user_pk courier) now o))
      with (order_pk o).
    rewrite Hsome. split.
    + simpl. by rewrite Ho.
    + right; left. exists (user_pk courier). split; [|done].
      rewrite Hst. apply list_elem_of_here.
Qed.

End Changes.

(** ** Runs: what stays and what is ordered *)

Section RunInvariants.

Implicit Types (s : Store) (c k pk : nat) (o : Order) (now t : Z).









End RunInvariants.





(** ** The instants of an order are in order *)

Section Instants.

Implicit Types (s : Store) (o : Order) (now t : Z).

Lemma stamps_ok_mono t t' o : t ≤ t' → stamps_ok t o → stamps_ok t' o.
Proof.
  unfold stamps_ok. intros Hle.
  destruct (assigned_at o), (picked_up_at o), (in_transit_at o),
    (delivered_at o); intuition lia.
Qed.

Lemma added_stamps now o' : added now o' → stamps_ok now o'.
Proof.
  intros (o0 & Hst & Hco & Hc & Ha & Hp & Hi & Hd & [->|(c & ->)]).
  - unfold stamps_ok. rewrite Ha, Hp, Hi, Hd, Hc, Hst.
    repeat split; try done; try lia. apply list_elem_of_here.
  - unfold stamps_ok, assign_fields. simpl. rewrite Hp, Hi, Hd, Hc.
    repeat split; try done; try lia. apply list_elem_of_here.
Qed.

Lemma changed_stamps t now o o' :
  t ≤ now → stamps_ok t o → changed now o o' → stamps_ok now o'.
Proof.
  intros Hle Hok Hch.
  apply (stamps_ok_mono t now o Hle) in Hok.
  destruct Hch as [(requested & Hst & ->)|[(k & Hst & ->)|(k & Hst & ->)]].
  - destruct o as [pk cu co pa da km pr st cr a p i d].
    unfold stamps_ok in *. simpl in *.
    destruct st, requested; simpl in Hst; try (exfalso; status_mem; fail);
      simpl; destruct a, p, i, d; simpl in *;
      intuition (try lia; try discriminate; try done; status_mem).
  - destruct o as [pk cu co pa da km pr st cr a p i d].
    unfold stamps_ok in *. simpl in *.
    destruct st; try (exfalso; status_mem; fail);
      simpl; destruct a, p, i, d; simpl in *;
      intuition (try lia; try discriminate; try done; status_mem).
  - destruct o as [pk cu co pa da km pr st cr a p i d].
    unfold stamps_ok, reassign_fields in *. simpl in *.
    destruct st; try (exfalso; status_mem; fail);
      simpl; destruct a, p, i, d; simpl in *;
      intuition (try lia; try discriminate; try done; status_mem).
Qed.

Lemma handle_stamps t now req s :
  consistent s → stamps_inv t s → t ≤ now →
  stamps_inv now (handle now req s).
Proof.
  intros Hcons Hinv Hle pk o.
  destruct (handle_changes now req s Hcons) as [->|(o' & -> & Hch)].
  - intros Hsome. eapply stamps_ok_mono; [exact Hle|]. by eapply Hinv.
  - destruct (decide (pk = order_pk o')) as [->|Hne].
    + rewrite lookup_insert_eq. intros [= <-].
      destruct (orders s !! order_pk o') as [o|] eqn:Hold.
      * eapply changed_stamps; [exact Hle| |exact Hch]. by eapply Hinv.
      * by apply added_stamps.
    + rewrite lookup_insert_ne by done. intros Hsome.
      eapply stamps_ok_mono; [exact Hle|]. by eapply Hinv.
Qed.

Lemma run_stamps reqs t s :
  consistent s → stamps_inv t s → clock_ok t reqs →
  stamps_inv (last_instant t reqs) (run reqs s).
Proof.
  revert t s. induction reqs as [|[now req] reqs IH];
    intros t s Hcons Hinv Hclock; [done|].
  destruct Hclock as [Hle Hclock]. simpl.
  apply IH; [by apply handle_consistent| |done].
  by eapply handle_stamps.
Qed.

End Instants.

(** X3. When the requests of a run are served at instants that do not go
    back, every stored order has its instants in order: [created_at] is not
    after [assigned_at], which is not after [picked_up_at], then
    [in_transit_at], then [delivered_at], each instant being set only when
    the one before it is; and the status tells which are set: none in
    CREATED, [assigned_at] alone in ASSIGNED, up to [picked_up_at] in
    PICKED_UP, up to [in_transit_at] in IN_TRANSIT, all in DELIVERED.  The
    way back from PICKED_UP to ASSIGNED on reassignment keeps this, since it
    clears [picked_up_at]. *)
Theorem instants_are_ordered :
  ∀ (s0 : Store) (reqs : list (Z * Request)) (t0 : Z) (pk : nat) (o : Order),
    initial s0 → clock_ok t0 reqs →
    orders (run reqs s0) !! pk = Some o →
    (∀ a, assigned_at o = Some a → created_at o ≤ a)
    ∧ (∀ p, picked_up_at o = Some p → ∃ a, assigned_at o = Some a ∧ a ≤ p)
    ∧ (∀ i, in_transit_at o = Some i →
            ∃ p, picked_up_at o = Some p ∧ p ≤ i)
    ∧ (∀ d, delivered_at o = Some d →
            ∃ i, in_transit_at o = Some i ∧ i ≤ d)
    ∧ (status o = CREATED → assigned_at o = None)
    ∧ (status o = ASSIGNED →
       is_Some (assigned_at o) ∧ picked_up_at o = None)
    ∧ (status o = PICKED_UP →
       is_Some (picked_up_at o) ∧ in_transit_at o = None)
    ∧ (status o = IN_TRANSIT →
       is_Some (in_transit_at o) ∧ delivered_at o = None)
    ∧ (status o = DELIVERED → is_Some (delivered_at o)).
Proof.
  intros s0 reqs t0 pk o Hinit Hclock Hsome.
  assert (Hinv0 : stamps_inv t0 s0).
  { intros pk' o'. rewrite (proj1 Hinit), lookup_empty. discriminate. }
  pose proof (run_stamps reqs t0 s0 (initial_consistent s0 Hinit) Hinv0
                Hclock pk o Hsome) as Hok.
  unfold stamps_ok in Hok.
  destruct (assigned_at o) as [a|], (picked_up_at o) as [p|],
    (in_transit_at o) as [i|], (delivered_at o) as [d|];
    destruct (status o);
    repeat split; intros; simplify_eq; try done; try (by eauto);
    try (exfalso; status_mem; fail);
    intuition (try lia; try discriminate; eauto; status_mem).
Qed.

Lemma instants_are_ordered_witness :
  ∃ i, in_transit_at
         (set_picked_up_at (Some 20) (set_in_transit_at (Some 30)
            (set_delivered_at (Some 40) (waybill DELIVERED (Some 2%nat)))))
       = Some i
       ∧ i ≤ 40.
Proof.
  refine (proj1 (proj2 (proj2 (proj2
    (instants_are_ordered depot
       [(10, CreateOrder alice (parcel 500));
        (20, UpdateStatus bob 0 PICKED_UP);
        (30, UpdateStatus bob 0 IN_TRANSIT);
        (40, UpdateStatus bob 0 DELIVERED)] 0 0%nat _ _ _ _)))) 40 _).
  - split; [reflexivity|].
    apply (bool_decide_unpack _). vm_compute. exact I.
  - simpl. lia.
  - vm_compute. reflexivity.
  - reflexivity.
Defined.

(** ** Counters follow the order a view writes *)

Section Effects.

Implicit Types (s : Store) (c k pk : nat) (o : Order) (now : Z).

(** Between two consistent stores that differ by one order row, every
    counter moves by what the row contributes after, less what it
    contributed before. *)
Lemma workload_follows_row s s' o o' :
  consistent s → consistent s' →
  orders s !! order_pk o' = Some o →
  orders s' = <[order_pk o' := o']> (orders s) →
  ∀ c, workload s' c = workload s c - delta c o + delta c o'.
Proof.
  intros [Hw _] [Hw' _] Hsome Ho c.
  rewrite Hw, Hw'. unfold live_count. rewrite Ho.
  by rewrite (count_live_insert c _ _ o o' Hsome).
Qed.

Lemma accept_order_ok user pk now s s' order' :
  OrderViewSet.accept_order user pk now s = (s', Ok order') →
  role user = COURIER
  ∧ (∀ cs, courier_statuses s !! user_pk user = Some cs →
           is_available cs = true)
  ∧ ∃ order,
      orders s !! pk = Some order ∧ status order = CREATED
      ∧ order' = assign_fields (user_pk user) now order
      ∧ orders s' = <[order_pk order := order']> (orders s).
Proof.
  unfold OrderViewSet.accept_order.
  destruct (bool_decide (role user = COURIER)) eqn:Hrole; simpl negb;
    cbv iota; [|discriminate].
  apply bool_decide_eq_true in Hrole.
  destruct (OrderViewSet.get_object user pk s) as [o|e] eqn:Hget;
    [|discriminate].
  apply get_object_lookup in Hget.
  destruct (bool_decide (status o = CREATED)) eqn:Hst; simpl negb; cbv iota;
    [|discriminate].
  apply bool_decide_eq_true in Hst.
  pose proof (get_or_create_orders (user_pk user) now s) as Ho.
  assert (Hav : ∀ cs0, courier_statuses s !! user_pk user = Some cs0 →
                       snd (get_or_create (user_pk user) now s) = cs0).
  { intros cs0 Hrow. unfold get_or_create. by rewrite Hrow. }
  destruct (get_or_create (user_pk user) now s) as [s1 cs].
  simpl in Ho, Hav.
  destruct (is_available cs) eqn:Ha; simpl negb; cbv iota; [|discriminate].
  intros [= <- <-]. split; [done|]. split.
  - intros cs0 Hrow. by rewrite <- (Hav cs0 Hrow).
  - exists o. repeat (split; [done|]).
    rewrite update_workload_orders. simpl. by rewrite Ho.
Qed.

Lemma assign_courier_ok user pk courier_id now s s' order' :
  OrderViewSet.assign_courier user pk courier_id now s = (s', Ok order') →
  role user = ADMIN
  ∧ (∃ u, users s !! courier_id = Some u ∧ role u = COURIER)
  ∧ (∀ cs, courier_statuses s !! courier_id = Some cs →
           is_available cs = true)
  ∧ ∃ order,
      orders s !! pk = Some order ∧ status order ∈ [CREATED; ASSIGNED]
      ∧ order' = assign_fields courier_id now order
      ∧ orders s' = <[order_pk order := order']> (orders s).
Proof.
  unfold OrderViewSet.assign_courier.
  destruct (bool_decide (role user = ADMIN)) eqn:Hrole; simpl negb;
    cbv iota; [|discriminate].
  apply bool_decide_eq_true in Hrole.
  destruct (OrderViewSet.get_object user pk s) as [o|e] eqn:Hget;
    [|discriminate].
  apply get_object_lookup in Hget.
  destruct (bool_decide (status o ∈ [CREATED; ASSIGNED])) eqn:Hst;
    simpl negb; cbv iota; [|discriminate].
  apply bool_decide_eq_true in Hst.
  destruct (validate_courier_id_books courier_id now s) as (Ho & _).
  assert (Hav : ∀ cs0, courier_statuses s !! courier_id = Some cs0 →
                       is_ok (snd (CourierAssignmentSerializer.validate_courier_id
                                     courier_id now s)) = true →
                       is_available cs0 = true).
  { intros cs0 Hrow. unfold CourierAssignmentSerializer.validate_courier_id,
      get_or_create. rewrite Hrow.
    repeat case_match; simpl; try discriminate.
    intros _. by destruct (is_available cs0). }
  destruct (CourierAssignmentSerializer.validate_courier_id courier_id now s)
    as [s1 [k|e]] eqn:Hval; simpl in Ho, Hav; [|discriminate].
  apply validate_courier_id_ok in Hval as (-> & Hu & _).
  cbv zeta. intros Heq.
  assert (Hres : order' = assign_fields courier_id now o
                 ∧ orders s' = <[order_pk o := order']> (orders s)).
  { revert Heq. repeat case_match; intros [= <- <-]; (split; [done|]);
      rewrite ?update_workload_orders; simpl;
      rewrite ?update_workload_orders; by rewrite Ho. }
  destruct Hres as [-> Hos].
  split; [done|]. split; [done|]. split; [intros cs0 Hrow; by apply Hav|].
  by exists o.
Qed.

Lemma update_status_ok user pk requested now s s' order' :
  OrderViewSet.update_status user pk requested now s = (s', Ok order') →
  ∃ order,
    orders s !! pk = Some order
    ∧ OrderViewSet.in_queryset user order = true
    ∧ (role user = COURIER → assigned_courier order = Some (user_pk user))
    ∧ requested ∈ OrderStatusUpdateSerializer.valid_transitions (status order)
    ∧ order' = OrderStatusUpdateSerializer.update_fields order requested now
    ∧ orders s' = <[order_pk order := order']> (orders s).
Proof.
  unfold OrderViewSet.update_status, OrderViewSet.get_object.
  destruct (orders s !! pk) as [o|] eqn:Hsome; [|discriminate].
  destruct (OrderViewSet.in_queryset user o) eqn:Hq; [|discriminate].
  destruct (bool_decide (role user = COURIER)
            && negb (bool_decide (assigned_courier o = Some (user_pk user))))
    eqn:Hauth; [discriminate|].
  unfold OrderViewSet.apply_status_transition,
    OrderStatusUpdateSerializer.validate_status,
    OrderStatusUpdateSerializer.update. cbv zeta.
  destruct (bool_decide (requested ∈ _)) eqn:Hvalid; simpl negb; cbv iota;
    [|discriminate].
  apply bool_decide_eq_true in Hvalid.
  set (o' := OrderStatusUpdateSerializer.update_fields o requested now).
  assert (Hpk : order_pk o' = order_pk o)
    by (subst o'; by destruct requested).
  intros Heq. exists o.
  assert (Hres : order' = o' ∧ orders s' = <[order_pk o := o']> (orders s)).
  { revert Heq. repeat case_match; intros [= <- <-]; (split; [done|]);
      rewrite ?update_workload_orders; simpl; by rewrite Hpk. }
  destruct Hres as [-> Hos]. repeat (split; [done|]). split; [|done].
  intros Hrole. apply andb_false_iff in Hauth as [Hf|Hf].
  - apply bool_decide_eq_false in Hf. done.
  - apply negb_false_iff, bool_decide_eq_true in Hf. done.
Qed.

End Effects.

(** X4. In a store reached by a run, when [accept_order] succeeds the caller
    is a courier whose row, if there is one, is available; the order was
    stored in CREATED without a courier; it is stored again with the caller
    as courier, status ASSIGNED and [assigned_at] at [now]; the caller's
    counter goes up by one and no other counter moves. *)
Theorem accept_order_assigns_caller :
  ∀ (s0 : Store) (reqs : list (Z * Request)) (user : User) (pk : nat)
    (now : Z) (s' : Store) (order' : Order),
    initial s0 →
    OrderViewSet.accept_order user pk now (run reqs s0) = (s', Ok order') →
    role user = COURIER
    ∧ (∀ cs, courier_statuses (run reqs s0) !! user_pk user = Some cs →
             is_available cs = true)
    ∧ ∃ order,
        orders (run reqs s0) !! pk = Some order
        ∧ status order = CREATED ∧ assigned_courier order = None
        ∧ order' = assign_fields (user_pk user) now order
        ∧ orders s' = <[pk := order']> (orders (run reqs s0))
        ∧ workload s' (user_pk user)
          = workload (run reqs s0) (user_pk user) + 1
        ∧ (∀ c, c ≠ user_pk user →
                workload s' c = workload (run reqs s0) c).
Proof.
  intros s0 reqs user pk now s' order' Hinit Heq.
  pose proof (run_consistent reqs s0 (initial_consistent s0 Hinit)) as Hcons.
  set (s := run reqs s0) in *. clearbody s.
  pose proof (accept_order_consistent user pk now s Hcons) as Hcons'.
  rewrite Heq in Hcons'. simpl in Hcons'.
  apply accept_order_ok in Heq as (Hrole & Hav & o & Hsome & Hst & -> & Hos).
  destruct (proj2 Hcons _ _ Hsome) as [Hpk Hcreated].
  split; [done|]. split; [done|]. exists o.
  repeat (split; [by auto|]).
  split; [by rewrite <- Hpk|].
  pose proof (workload_follows_row s s' o
                (assign_fields (user_pk user) now o) Hcons Hcons') as Hw.
  simpl in Hw. rewrite Hpk in Hw. specialize (Hw Hsome).
  rewrite Hpk in Hos. specialize (Hw Hos).
  split; [|intros c Hne]; rewrite Hw, !delta_status; simpl;
    rewrite (Hcreated Hst); count_cases.
Qed.

Lemma accept_order_assigns_caller_witness :
  workload
    (fst (OrderViewSet.accept_order carol 0 20
            (run [(10, CreateOrder alice (parcel 500))]
               (empty_depot 5000 2000)))) 3
  = workload (run [(10, CreateOrder alice (parcel 500))]
                (empty_depot 5000 2000)) 3 + 1.
Proof.
  destruct (accept_order_assigns_caller (empty_depot 5000 2000)
              [(10, CreateOrder alice (parcel 500))] carol 0 20
              (fst (OrderViewSet.accept_order carol 0 20
                      (run [(10, CreateOrder alice (parcel 500))]
                         (empty_depot 5000 2000))))
              (assign_fields 3 20 (set_assigned_at None
                                     (waybill CREATED None))))
    as (_ & _ & o & _ & _ & _ & _ & _ & H & _).
  - split; [reflexivity|].
    apply (bool_decide_unpack _). vm_compute. exact I.
  - vm_compute. reflexivity.
  - exact H.
Defined.

(** X5. In a store reached by a run, when the admin's [assign_courier]
    succeeds, the target is a user of role COURIER whose row, if there is
    one, is available; the order was stored in CREATED or ASSIGNED and is
    stored again with the target as courier, status ASSIGNED and
    [assigned_at] at [now]; and every counter moves by one down for the
    courier who had the order and one up for the target (so not at all when
    they are the same). *)
Theorem manual_assign_moves_workload :
  ∀ (s0 : Store) (reqs : list (Z * Request)) (user : User)
    (pk courier_id : nat) (now : Z) (s' : Store) (order' : Order),
    initial s0 →
    OrderViewSet.assign_courier user pk courier_id now (run reqs s0)
    = (s', Ok order') →
    role user = ADMIN
    ∧ (∃ u, users (run reqs s0) !! courier_id = Some u ∧ role u = COURIER)
    ∧ (∀ cs, courier_statuses (run reqs s0) !! courier_id = Some cs →
             is_available cs = true)
    ∧ ∃ order,
        orders (run reqs s0) !! pk = Some order
        ∧ status order ∈ [CREATED; ASSIGNED]
        ∧ order' = assign_fields courier_id now order
        ∧ orders s' = <[pk := order']> (orders (run reqs s0))
        ∧ ∀ c, workload s' c
               = workload (run reqs s0) c
                 - (if decide (assigned_courier order = Some c) then 1 else 0)
                 + (if decide (c = courier_id) then 1 else 0).
Proof.
  intros s0 reqs user pk k now s' order' Hinit Heq.
  pose proof (run_consistent reqs s0 (initial_consistent s0 Hinit)) as Hcons.
  set (s := run reqs s0) in *. clearbody s.
  pose proof (assign_courier_consistent user pk k now s Hcons) as Hcons'.
  rewrite Heq in Hcons'. simpl in Hcons'.
  apply assign_courier_ok in Heq
    as (Hrole & Hu & Hav & o & Hsome & Hst & -> & Hos).
  destruct (proj2 Hcons _ _ Hsome) as [Hpk Hcreated].
  repeat (split; [done|]). exists o. repeat (split; [done|]).
  split; [by rewrite <- Hpk|].
  pose proof (workload_follows_row s s' o (assign_fields k now o)
                Hcons Hcons') as Hw.
  simpl in Hw. rewrite Hpk in Hw. specialize (Hw Hsome).
  rewrite Hpk in Hos. specialize (Hw Hos).
  intros c. rewrite Hw, !delta_status. simpl.
  destruct (status o) eqn:Hs; try (exfalso; status_mem; fail).
  - rewrite (Hcreated eq_refl). count_cases.
  - count_cases.
Qed.

Lemma manual_assign_moves_workload_witness :
  workload
    (fst (OrderViewSet.assign_courier root 0 3 20
            (run [(10, CreateOrder alice (parcel 500))] depot))) 2
  = workload (run [(10, CreateOrder alice (parcel 500))] depot) 2
    - (if decide (assigned_courier (waybill ASSIGNED (Some 2%nat))
                  = Some 2%nat) then 1 else 0)
    + (if decide (2%nat = 3%nat) then 1 else 0).
Proof.
  destruct (manual_assign_moves_workload depot
              [(10, CreateOrder alice (parcel 500))] root 0 3 20
              (fst (OrderViewSet.assign_courier root 0 3 20
                      (run [(10, CreateOrder alice (parcel 500))] depot)))
              (assign_fields 3 20 (waybill ASSIGNED (Some 2%nat))))
    as (_ & _ & _ & o & Ho & _ & _ & _ & H).
  - split; [reflexivity|].
    apply (bool_decide_unpack _). vm_compute. exact I.
  - vm_compute. reflexivity.
  - assert (Heq : o = waybill ASSIGNED (Some 2%nat)).
    { vm_compute in Ho. by injection Ho as <-. }
    rewrite <- Heq. apply H.
Defined.

(** X6. In a store reached by a run, when [update_status] succeeds the
    caller could see the order and is not a courier other than the assigned
    one; a move to DELIVERED or CANCELLED takes one off the counter of the
    order's courier, if it has one, and no other counter moves; a move to
    any other status moves no counter. *)
Theorem status_update_moves_workload :
  ∀ (s0 : Store) (reqs : list (Z * Request)) (user : User) (pk : nat)
    (requested : OrderStatus) (now : Z) (s' : Store) (order' : Order),
    initial s0 →
    OrderViewSet.update_status user pk requested now (run reqs s0)
    = (s', Ok order') →
    ∃ order,
      orders (run reqs s0) !! pk = Some order
      ∧ (role user = COURIER → assigned_courier order = Some (user_pk user))
      ∧ orders s' = <[pk := order']> (orders (run reqs s0))
      ∧ assigned_courier order' = assigned_courier order
      ∧ ∀ c, workload s' c
             = workload (run reqs s0) c
               - (if decide (requested ∈ [DELIVERED; CANCELLED]
                             ∧ assigned_courier order = Some c)
                  then 1 else 0).
Proof.
  intros s0 reqs user pk requested now s' order' Hinit Heq.
  pose proof (run_consistent reqs s0 (initial_consistent s0 Hinit)) as Hcons.
  set (s := run reqs s0) in *. clearbody s.
  pose proof (update_status_consistent user pk requested now s Hcons)
    as Hcons'.
  rewrite Heq in Hcons'. simpl in Hcons'.
  apply update_status_ok in Heq
    as (o & Hsome & _ & Hauth & Hvalid & -> & Hos).
  destruct (proj2 Hcons _ _ Hsome) as [Hpk Hcreated].
  set (o' := OrderStatusUpdateSerializer.update_fields o requested now) in *.
  assert (Hpk' : order_pk o' = pk) by (subst o'; by destruct requested).
  assert (Hco : assigned_courier o' = assigned_courier o)
    by (subst o'; by destruct requested).
  assert (Hst : status o' = requested) by (subst o'; by destruct requested).
  exists o. repeat (split; [done|]). split; [by rewrite <- Hpk|].
  split; [done|].
  pose proof (workload_follows_row s s' o o' Hcons Hcons') as Hw.
  rewrite Hpk' in Hw. specialize (Hw Hsome).
  rewrite Hpk in Hos. specialize (Hw Hos).
  intros c. rewrite Hw, !delta_status, Hco, Hst. clear Hw Hos.
  destruct (status o) eqn:Hs, requested; simpl in Hvalid;
    try (exfalso; status_mem; fail);
    repeat case_bool_decide; repeat case_decide; try lia;
    try (specialize (Hcreated eq_refl); congruence);
    exfalso; status_mem.
Qed.

Lemma status_update_moves_workload_witness :
  workload
    (fst (OrderViewSet.update_status bob 0 CANCELLED 20
            (run [(10, CreateOrder alice (parcel 500))] depot))) 2
  = 0.
Proof.
  destruct (status_update_moves_workload depot
              [(10, CreateOrder alice (parcel 500))] bob 0 CANCELLED 20
              (fst (OrderViewSet.update_status bob 0 CANCELLED 20
                      (run [(10, CreateOrder alice (parcel 500))] depot)))
              (set_status CANCELLED (waybill ASSIGNED (Some 2%nat))))
    as (o & Ho & _ & _ & _ & H).
  - split; [reflexivity|].
    apply (bool_decide_unpack _). vm_compute. exact I.
  - vm_compute. reflexivity.
  - assert (Heq : o = waybill ASSIGNED (Some 2%nat)).
    { vm_compute in Ho. by injection Ho as <-. }
    rewrite (H 2%nat), Heq. reflexivity.
Defined.

(** ** A request answered with an error *)

Section Failures.

Implicit Types (s : Store) (c k pk : nat) (o : Order) (now : Z).

(** A row that is read is not created. *)
Lemma get_or_create_existing k now s cs :
  courier_statuses s !! k = Some cs → get_or_create k now s = (s, cs).
Proof. intros Hrow. unfold get_or_create. by rewrite Hrow. Qed.

(** A row that has just been created is available. *)
Lemma get_or_create_unavailable k now s :
  is_available (snd (get_or_create k now s)) = false →
  fst (get_or_create k now s) = s.
Proof.
  unfold get_or_create.
  by destruct (courier_statuses s !! k).
Qed.

Lemma validate_courier_id_err v now s :
  is_ok (snd (CourierAssignmentSerializer.validate_courier_id v now s))
  = false →
  fst (CourierAssignmentSerializer.validate_courier_id v now s) = s.
Proof.
  unfold CourierAssignmentSerializer.validate_courier_id.
  destruct (users s !! v) as [u|]; [|done].
  destruct (negb (bool_decide (role u = COURIER))); [done|].
  pose proof (get_or_create_unavailable v now s) as H.
  destruct (get_or_create v now s) as [s1 cs]. simpl in H.
  destruct (is_available cs); simpl; [discriminate|].
  intros _. by apply H.
Qed.

(** In a consistent store the courier of a live order has a row. *)
Lemma consistent_live_row s pk o j :
  consistent s → orders s !! pk = Some o →
  assigned_courier o = Some j →
  status o ∈ [ASSIGNED; PICKED_UP; IN_TRANSIT] →
  is_Some (courier_statuses s !! j).
Proof.
  intros Hcons Hsome Hj Hst.
  pose proof (consistent_workload_live s j pk o Hcons Hsome) as Hlive.
  rewrite delta_status, Hj, bool_decide_eq_true_2 in Hlive by done.
  unfold workload in Hlive.
  destruct (courier_statuses s !! j) as [cs|]; [by eexists|].
  exfalso. destruct (status o); try lia; status_mem.
Qed.

Lemma create_err user data now s :
  is_ok (snd (OrderViewSet.create user data now s)) = false →
  fst (OrderViewSet.create user data now s) = s.
Proof.
  unfold OrderViewSet.create, OrderCreateSerializer.create.
  destruct (negb (bool_decide (role user = CUSTOMER))); [done|].
  destruct (OrderCreateSerializer.is_valid data) as [vd|e]; [|done].
  destruct (first_active (pricing_configs s)) as [cfg|]; [|done].
  cbv zeta. destruct (negb (fits_column _ && fits_column _)); [done|].
  by destruct (_try_auto_assignment _ _ _).
Qed.

Lemma update_status_err user pk requested now s :
  is_ok (snd (OrderViewSet.update_status user pk requested now s)) = false →
  fst (OrderViewSet.update_status user pk requested now s) = s.
Proof.
  unfold OrderViewSet.update_status,
    OrderViewSet.apply_status_transition,
    OrderStatusUpdateSerializer.validate_status,
    OrderStatusUpdateSerializer.update.
  repeat case_match; simpl; done.
Qed.

Lemma assign_courier_err user pk courier_id now s :
  is_ok (snd (OrderViewSet.assign_courier user pk courier_id now s))
  = false →
  fst (OrderViewSet.assign_courier user pk courier_id now s) = s.
Proof.
  unfold OrderViewSet.assign_courier.
  destruct (negb (bool_decide (role user = ADMIN))); [done|].
  destruct (OrderViewSet.get_object user pk s) as [o|e]; [|done].
  destruct (negb (bool_decide (status o ∈ [CREATED; ASSIGNED]))); [done|].
  pose proof (validate_courier_id_err courier_id now s) as Hv.
  destruct (CourierAssignmentSerializer.validate_courier_id courier_id now s)
    as [s1 [k|e]]; simpl in Hv.
  - cbv zeta. by repeat case_match.
  - intros _. by apply Hv.
Qed.

Lemma reassign_courier_err user pk courier_id now s :
  consistent s →
  is_ok (snd (OrderViewSet.reassign_courier user pk courier_id now s))
  = false →
  fst (OrderViewSet.reassign_courier user pk courier_id now s) = s.
Proof.
  intros Hcons. unfold OrderViewSet.reassign_courier.
  destruct (OrderViewSet.get_object user pk s) as [o|e] eqn:Hget; [|done].
  apply get_object_lookup in Hget.
  destruct (bool_decide (status o ∈ [ASSIGNED; PICKED_UP])) eqn:Hst;
    simpl negb; cbv iota; [|done].
  apply bool_decide_eq_true in Hst.
  destruct (assigned_courier o) as [j|] eqn:Hj; [|done].
  pose proof (validate_courier_id_err courier_id now s) as Hv.
  destruct (CourierAssignmentSerializer.validate_courier_id courier_id now s)
    as [s1 [k|e]] eqn:Hval; simpl in Hv; [|intros _; by apply Hv].
  destruct (bool_decide (j = k)) eqn:Hjk; [|discriminate].
  apply bool_decide_eq_true in Hjk. subst k. intros _. simpl.
  pose proof (validate_courier_id_ok _ _ _ _ _ Hval) as (-> & _ & _).
  destruct (consistent_live_row s pk o courier_id Hcons Hget Hj)
    as [cs Hrow]; [status_mem|].
  revert Hval. unfold CourierAssignmentSerializer.validate_courier_id.
  rewrite (get_or_create_existing _ _ _ _ Hrow).
  repeat case_match; intros [= <-]; done.
Qed.

Lemma accept_order_err user pk now s :
  is_ok (snd (OrderViewSet.accept_order user pk now s)) = false →
  fst (OrderViewSet.accept_order user pk now s) = s.
Proof.
  unfold OrderViewSet.accept_order.
  destruct (negb (bool_decide (role user = COURIER))); [done|].
  destruct (OrderViewSet.get_object user pk s) as [o|e]; [|done].
  destruct (negb (bool_decide (status o = CREATED))); [done|].
  pose proof (get_or_create_unavailable (user_pk user) now s) as H.
  destruct (get_or_create (user_pk user) now s) as [s1 cs]. simpl in H.
  destruct (is_available cs); simpl; [discriminate|].
  intros _. by apply H.
Qed.

Lemma service_assign_courier_err o courier now s :
  is_ok (snd (OrderService.assign_courier o courier now s)) = false →
  fst (OrderService.assign_courier o courier now s) = s.
Proof.
  unfold OrderService.assign_courier.
  destruct (negb (bool_decide (status o = CREATED))); [done|].
  destruct (negb (bool_decide (role courier = COURIER))); [done|].
  pose proof (get_or_create_unavailable (user_pk courier) now s) as H.
  destruct (get_or_create (user_pk courier) now s) as [s1 cs]. simpl in H.
  destruct (is_available cs); simpl; [discriminate|].
  intros _. by apply H.
Qed.

Lemma handle_err now req s :
  consistent s → succeeds now req s = false → handle now req s = s.
Proof.
  intros Hcons. destruct req; simpl.
  - apply create_err.
  - apply update_status_err.
  - apply assign_courier_err.
  - by apply reassign_courier_err.
  - apply accept_order_err.
  - unfold CourierStatusViewSet.update_availability.
    destruct (negb (bool_decide (role user = COURIER))); [done|].
    by destruct (get_or_create (user_pk user) now s).
  - unfold OrderService.create_order.
    destruct (ConfigurationService.calculate_price _ _ _); [|done].
    by destruct (negb (fits_column _ && fits_column _)).
  - destruct (orders s !! pk) as [o|]; [|done].
    apply service_assign_courier_err.
  - unfold PricingConfigViewSet.create. by repeat case_match.
  - unfold PricingConfigViewSet.activate. by repeat case_match.
  - unfold PricingConfigViewSet.update. by repeat case_match.
  - unfold ConfigurationService.update_pricing_config.
    by repeat case_match.
Qed.

End Failures.

(** X7. In a store reached by a run, a request that is answered with an
    error leaves the whole store as it was: no order row, no courier status
    row and no pricing configuration is written.  (The row that
    [get_or_create] may add before a view fails is never added there: the
    views fail after it only for a courier whose row exists.) *)
Theorem failed_request_changes_nothing :
  ∀ (s0 : Store) (reqs : list (Z * Request)) (now : Z) (req : Request),
    initial s0 →
    succeeds now req (run reqs s0) = false →
    handle now req (run reqs s0) = run reqs s0.
Proof.
  intros s0 reqs now req Hinit Hfail.
  apply handle_err; [|done].
  apply run_consistent. by apply initial_consistent.
Qed.

Lemma failed_request_changes_nothing_witness :
  handle 20 (ReassignCourier root 0 2)
    (run [(10, CreateOrder alice (parcel 500))] depot)
  = run [(10, CreateOrder alice (parcel 500))] depot.
Proof.
  apply (failed_request_changes_nothing depot
           [(10, CreateOrder alice (parcel 500))] 20
           (ReassignCourier root 0 2)).
  - split; [reflexivity|].
    apply (bool_decide_unpack _). vm_compute. exact I.
  - vm_compute. reflexivity.
Defined.

(** ** Availability and authorization *)




(** X9. Who can change or follow an order.  When [update_status] succeeds,
    or [reassign_courier] succeeds, or [tracking_info] answers, the caller
    is an admin, or the customer of the order, or its assigned courier; a
    courier who sees an order only because it is in CREATED can do none of
    the three. *)
Theorem order_actions_need_a_party :
  ∀ (user : User) (pk : nat) (now : Z) (s : Store),
    let party (order : option Order) :=
      ∃ o, order = Some o
           ∧ (role user = ADMIN
              ∨ (role user = CUSTOMER ∧ customer o = user_pk user)
              ∨ (role user = COURIER
                 ∧ assigned_courier o = Some (user_pk user))) in
    (∀ requested,
       is_ok (snd (OrderViewSet.update_status user pk requested now s))
       = true → party (orders s !! pk))
    ∧ (∀ courier_id,
         is_ok (snd (OrderViewSet.reassign_courier user pk courier_id now s))
         = true → party (orders s !! pk))
    ∧ (is_ok (tracking_info user pk s) = true → party (orders s !! pk)).
Proof.
  intros user pk now s party.
  assert (Hq : ∀ o, OrderViewSet.in_queryset user o = true →
             (role user = COURIER →
              assigned_courier o = Some (user_pk user)) →
             role user = ADMIN
             ∨ (role user = CUSTOMER ∧ customer o = user_pk user)
             ∨ (role user = COURIER
                ∧ assigned_courier o = Some (user_pk user))).
  { intros o. unfold OrderViewSet.in_queryset.
    destruct (role user); intros Hin Hc.
    - right; left. split; [done|]. by apply bool_decide_eq_true in Hin.
    - right; right. split; [done|]. by apply Hc.
    - by left. }
  subst party. cbv beta. repeat split.
  - intros requested.
    destruct (OrderViewSet.update_status user pk requested now s)
      as [s' [o'|e]] eqn:Heq; [|discriminate].
    intros _. apply update_status_ok in Heq as (o & Hsome & Hin & Hc & _).
    exists o. split; [done|]. by apply Hq.
  - intros courier_id. unfold OrderViewSet.reassign_courier,
      OrderViewSet.get_object.
    destruct (orders s !! pk) as [o|]; [|discriminate].
    destruct (OrderViewSet.in_queryset user o) eqn:Hin; [|discriminate].
    destruct (bool_decide (status o ∈ [ASSIGNED; PICKED_UP])) eqn:Hst;
      simpl negb; cbv iota; [|discriminate].
    apply bool_decide_eq_true in Hst. intros _.
    exists o. split; [done|]. apply Hq; [done|].
    intros Hrole. revert Hin. unfold OrderViewSet.in_queryset.
    rewrite Hrole. intros Hin. apply orb_true_iff in Hin as [Hin|Hin].
    + by apply bool_decide_eq_true in Hin.
    + apply bool_decide_eq_true in Hin. rewrite Hin in Hst.
      exfalso. status_mem.
  - unfold tracking_info, OrderViewSet.get_object.
    destruct (orders s !! pk) as [o|]; [|discriminate].
    destruct (OrderViewSet.in_queryset user o) eqn:Hin; [|discriminate].
    destruct (bool_decide (role user = CUSTOMER)
              && negb (bool_decide (customer o = user_pk user)));
      [discriminate|].
    destruct (bool_decide (role user = COURIER)
              && negb (bool_decide
                         (assigned_courier o = Some (user_pk user))))
      eqn:Hc; [discriminate|].
    intros _. exists o. split; [done|]. apply Hq; [done|].
    intros Hrole. apply andb_false_iff in Hc as [Hf|Hf].
    + apply bool_decide_eq_false in Hf. done.
    + by apply negb_false_iff, bool_decide_eq_true in Hf.
Qed.

Lemma order_actions_need_a_party_witness :
  ∃ o, orders (run [(10, CreateOrder alice (parcel 500))] depot) !! 0%nat
       = Some o
       ∧ (role bob = ADMIN
          ∨ (role bob = CUSTOMER ∧ customer o = user_pk bob)
          ∨ (role bob = COURIER ∧ assigned_courier o = Some (user_pk bob))).
Proof.
  apply (proj1 (order_actions_need_a_party bob 0 20
                  (run [(10, CreateOrder alice (parcel 500))] depot))
           PICKED_UP).
  vm_compute. reflexivity.
Defined.

(** ** Pricing configurations *)

Section Pricing.

Implicit Types (l : list PricingConfig) (x c : PricingConfig).

Lemma filter_active_deactivate l :
  List.filter is_active (map deactivate l) = [].
Proof. induction l as [|c l IH]; simpl; done. Qed.

Lemma first_active_deactivate_app l x :
  is_active x = true → first_active (map deactivate l ++ [x]) = Some x.
Proof.
  intros Hx. unfold first_active.
  induction l as [|c l IH]; simpl; [by rewrite Hx | exact IH].
Qed.

Lemma filter_active_insert l (pk : nat) x c :
  map deactivate l !! pk = Some c → is_active x = true →
  List.filter is_active (<[pk := x]> (map deactivate l)) = [x].
Proof.
  revert pk. induction l as [|c0 l IH]; intros pk Hpk Hx; [done|].
  destruct pk as [|pk]; simpl.
  - by rewrite Hx, filter_active_deactivate.
  - simpl in Hpk. by apply IH.
Qed.

Lemma first_active_filter l :
  first_active l = head (List.filter is_active l).
Proof.
  unfold first_active. induction l as [|c l IH]; simpl; [done|].
  by destruct (is_active c).
Qed.

End Pricing.

Lemma pricing_is_valid_fits (b r : Z) :
  Z.abs b < 10 ^ 10 → Z.abs r < 10 ^ 10 →
  PricingConfigViewSet.is_valid b r = Ok (b, r).
Proof.
  intros Hb Hr. unfold PricingConfigViewSet.is_valid, run_decimal_field.
  apply Z.ltb_lt in Hb, Hr. unfold fits_column. by rewrite Hb, Hr.
Qed.

Lemma pricing_is_valid_wide (b r : Z) :
  10 ^ 10 ≤ Z.abs b ∨ 10 ^ 10 ≤ Z.abs r →
  ∃ field rest,
    PricingConfigViewSet.is_valid b r
    = Err (FieldErrors ((field, TooManyDigits) :: rest)).
Proof.
  intros Hwide. unfold PricingConfigViewSet.is_valid, run_decimal_field.
  unfold fits_column.
  destruct (Z.abs b <? 10 ^ 10) eqn:Hb; destruct (Z.abs r <? 10 ^ 10) eqn:Hr;
    simpl; try (by eexists _, _).
  apply Z.ltb_lt in Hb, Hr. lia.
Qed.

(** X10. When the [create] of [PricingConfigViewSet] runs for an admin with
    a base fee and a rate of at most ten digits, the new configuration, with
    these amounts, is appended and is the one and only active configuration,
    whatever was active before; no order and no courier row is touched;
    every order the view [create] answers next is priced from it, and it
    does answer an order to a customer whose request the validators accept,
    with addresses in ASCII text and a price of at most ten digits.  An
    amount of more than ten digits is refused by its field, and a caller who
    is not an admin is refused; the store is then left as it was. *)
Theorem created_config_is_the_active_one :
  ∀ (user : User) (b r : Z) (now : Z) (s : Store),
    (role user ≠ ADMIN →
     PricingConfigViewSet.create user b r now s = (s, Err PermissionDenied))
    ∧ (role user = ADMIN →
       10 ^ 10 ≤ Z.abs b ∨ 10 ^ 10 ≤ Z.abs r →
       ∃ field rest,
         PricingConfigViewSet.create user b r now s
         = (s, Err (FieldErrors ((field, TooManyDigits) :: rest))))
    ∧ (role user = ADMIN →
       Z.abs b < 10 ^ 10 → Z.abs r < 10 ^ 10 →
       ∃ s' cfg,
         PricingConfigViewSet.create user b r now s = (s', Ok cfg)
         ∧ base_fee cfg = b ∧ per_km_rate cfg = r
         ∧ pricing_configs s' = map deactivate (pricing_configs s) ++ [cfg]
         ∧ active_configs s' = [cfg]
         ∧ orders s' = orders s
         ∧ courier_statuses s' = courier_statuses s
         ∧ (∀ buyer data later s'' order,
              OrderViewSet.create buyer data later s' = (s'', Ok order) →
              price order
              = coefficient
                  (price_of (Dec.of_hundredths (data_distance_km data)) cfg))
         ∧ (∀ buyer data vd later,
              role buyer = CUSTOMER →
              ascii_text (data_pickup_address data) = true →
              ascii_text (data_delivery_address data) = true →
              OrderCreateSerializer.is_valid data = Ok vd →
              Z.abs (coefficient
                       (price_of (Dec.of_hundredths (data_distance_km data))
                          cfg))
              < 10 ^ 10 →
              ∃ s'' order,
                OrderViewSet.create buyer data later s' = (s'', Ok order)
                ∧ price order
                  = coefficient
                      (price_of (Dec.of_hundredths (data_distance_km data))
                         cfg))).
Proof.
  intros user b r now s. unfold PricingConfigViewSet.create.
  split; [|split].
  - intros Hne. by rewrite (bool_decide_eq_false_2 _ Hne).
  - intros Hadmin Hwide. rewrite (bool_decide_eq_true_2 _ Hadmin).
    simpl negb. cbv iota.
    destruct (pricing_is_valid_wide b r Hwide) as (field & rest & ->).
    by exists field, rest.
  - intros Hadmin Hb Hr. rewrite (bool_decide_eq_true_2 _ Hadmin).
    simpl negb. cbv iota. rewrite (pricing_is_valid_fits b r Hb Hr).
    cbv iota zeta.
    set (cfg := {| base_fee := b; per_km_rate := r; is_active := true;
                   config_created_at := now; created_by := user_pk user |}).
    assert (Hfa : first_active
              (pricing_configs
                 (with_pricing_configs (fun l => l ++ [cfg])
                    (with_pricing_configs (map deactivate) s)))
            = Some cfg) by (by apply first_active_deactivate_app).
    eexists _, cfg. split; [reflexivity|].
    repeat (split; [done|]). split.
    { unfold active_configs. simpl.
      by rewrite List.filter_app, filter_active_deactivate. }
    repeat (split; [done|]). split.
    + intros buyer data later s'' order Hcreate.
      destruct (create_stores_price _ _ _ _ _ _ _ Hfa Hcreate) as [_ ->].
      apply create_inv in Hcreate
        as (_ & vd & cfg' & Hvalid & _ & _ & _ & Ho).
      destruct (is_valid_ok _ _ Hvalid) as [Hkm _].
      assert (Hd : distance_km order = data_distance_km vd);
        [|by rewrite Hd, Hkm].
      rewrite Ho.
      match goal with
      | |- context [_try_auto_assignment ?o ?n ?st] =>
          destruct (try_auto_assignment_cases o n st)
            as [[_ ->]|(c & cs & rest & _ & ->)]
      end; done.
    + intros buyer data vd later Hrole _ _ Hvalid Hlt.
      exact (create_priced buyer data vd later _ cfg Hrole Hvalid Hfa Hlt).
Qed.

Lemma created_config_is_the_active_one_witness :
  (∃ s' cfg,
     PricingConfigViewSet.create root 9000 3000 20 depot = (s', Ok cfg)
     ∧ active_configs s' = [cfg]
     ∧ base_fee cfg = 9000)
  ∧ (∃ field rest,
       PricingConfigViewSet.create root 10000000000 3000 20 depot
       = (depot, Err (FieldErrors ((field, TooManyDigits) :: rest)))).
Proof.
  split.
  - destruct (proj2 (proj2 (created_config_is_the_active_one root 9000 3000
                              20 depot)))
      as (s' & cfg & H1 & H2 & _ & _ & H3 & _); try reflexivity.
    exists s', cfg. repeat split; assumption.
  - apply (proj1 (proj2 (created_config_is_the_active_one root 10000000000
                           3000 20 depot))); [reflexivity|].
    left. vm_compute. discriminate.
Defined.

(** X11. When an admin activates the stored configuration of key [pk], that
    configuration, with its base fee and rate, becomes the one and only
    active configuration, and no configuration is added or removed; a key
    that has no row is answered 404 and a caller who is not an admin is
    refused, the store being left as it was. *)
Theorem activated_config_is_the_active_one :
  ∀ (user : User) (pk : nat) (s : Store),
    (role user ≠ ADMIN →
     PricingConfigViewSet.activate user pk s = (s, Err PermissionDenied))
    ∧ (role user = ADMIN → pricing_configs s !! pk = None →
       PricingConfigViewSet.activate user pk s = (s, Err Http404))
    ∧ (∀ config, role user = ADMIN → pricing_configs s !! pk = Some config →
       ∃ s',
         PricingConfigViewSet.activate user pk s
         = (s', Ok (activate_config config))
         ∧ active_configs s' = [activate_config config]
         ∧ first_active (pricing_configs s') = Some (activate_config config)
         ∧ length (pricing_configs s') = length (pricing_configs s)
         ∧ orders s' = orders s
         ∧ courier_statuses s' = courier_statuses s).
Proof.
  intros user pk s. unfold PricingConfigViewSet.activate. split; [|split].
  - intros Hne. by rewrite (bool_decide_eq_false_2 _ Hne).
  - intros Hadmin Hnone. by rewrite (bool_decide_eq_true_2 _ Hadmin), Hnone.
  - intros config Hadmin Hsome.
    rewrite (bool_decide_eq_true_2 _ Hadmin), Hsome. simpl negb.
    cbv iota zeta. eexists. split; [reflexivity|].
    assert (Hf : active_configs
                   (with_pricing_configs
                      (fun l => <[pk := activate_config config]> l)
                      (with_pricing_configs (map deactivate) s))
                 = [activate_config config]).
    { unfold active_configs. simpl.
      apply (filter_active_insert _ _ _ (deactivate config)); [|done].
      by rewrite list_lookup_fmap, Hsome. }
    split; [exact Hf|]. split.
    + rewrite first_active_filter.
      unfold active_configs in Hf. by rewrite Hf.
    + simpl. by rewrite length_insert, length_map.
Qed.

Lemma activated_config_is_the_active_one_witness :
  ∃ s',
    PricingConfigViewSet.activate root 0
      (fst (PricingConfigViewSet.create root 9000 3000 20 depot))
    = (s', Ok (activate_config (deactivate (tariff 5000 2000))))
    ∧ active_configs s' = [activate_config (deactivate (tariff 5000 2000))].
Proof.
  destruct (proj2 (proj2 (activated_config_is_the_active_one root 0
              (fst (PricingConfigViewSet.create root 9000 3000 20 depot))))
              (deactivate (tariff 5000 2000)))
    as (s' & H1 & H2 & _).
  - reflexivity.
  - reflexivity.
  - exists s'. split; assumption.
Defined.

Lemma Decimal_lt_hundredths (x y : Z) :
  Decimal_lt (Dec.of_hundredths x) (Dec.of_hundredths y) = (x <? y).
Proof.
  unfold Decimal_lt, Dec.of_hundredths. cbn [coefficient exponent].
  replace (Z.min (-2) (-2)) with (-2) by reflexivity.
  replace (-2 - -2) with 0 by reflexivity.
  replace (10 ^ 0) with 1 by reflexivity.
  by rewrite !Z.mul_1_r.
Qed.

Lemma filter_active_deactivate_active (l : list PricingConfig) :
  List.filter is_active
    (map (fun c => if is_active c then deactivate c else c) l) = [].
Proof.
  induction l as [|c l IH]; simpl; [done|].
  destruct (is_active c) eqn:Hc; simpl; [done|]. by rewrite Hc.
Qed.

(** X12. [ConfigurationService.update_pricing_config] accepts the amounts
    exactly when the base fee is between 0.01 and 1000.00, the rate between
    0.01 and 100.00, and the caller is an admin.  When it accepts, the new
    configuration is appended and is the one and only active configuration;
    when it refuses, the store is left as it was. *)
Theorem update_pricing_config_bounds :
  ∀ (b r : Z) (admin_user : User) (now : Z) (s : Store),
    let res := ConfigurationService.update_pricing_config
                 b r admin_user now s in
    (is_ok (snd res) = true
     ↔ 1 ≤ b ≤ 100000 ∧ 1 ≤ r ≤ 10000 ∧ role admin_user = ADMIN)
    ∧ (is_ok (snd res) = false → fst res = s)
    ∧ (is_ok (snd res) = true →
       ∃ cfg, snd res = Ok cfg
              ∧ base_fee cfg = b ∧ per_km_rate cfg = r
              ∧ active_configs (fst res) = [cfg]
              ∧ length (pricing_configs (fst res))
                = S (length (pricing_configs s))).
Proof.
  intros b r admin_user now s res. subst res.
  unfold ConfigurationService.update_pricing_config.
  destruct (Z.ltb_spec b 1); [by repeat split; try done; lia|].
  destruct (Z.ltb_spec r 1); [by repeat split; try done; lia|].
  destruct (Z.ltb_spec 100000 b); [by repeat split; try done; lia|].
  destruct (Z.ltb_spec 10000 r); [by repeat split; try done; lia|].
  destruct (bool_decide (role admin_user = ADMIN)) eqn:Hrole; simpl negb;
    cbv iota zeta.
  - apply bool_decide_eq_true in Hrole. simpl.
    split; [split; [intros _; repeat split; done || lia | done]|].
    split; [discriminate|]. intros _. eexists. split; [reflexivity|].
    repeat (split; [done|]). split.
    + unfold active_configs. simpl.
      by rewrite List.filter_app, filter_active_deactivate_active.
    + simpl. rewrite length_app, length_map. simpl. lia.
  - apply bool_decide_eq_false in Hrole. simpl.
    split; [split; [discriminate | tauto]|]. split; [done | discriminate].
Qed.

Lemma update_pricing_config_bounds_witness :
  ∃ cfg,
    snd (ConfigurationService.update_pricing_config 9000 3000 root 20 depot)
    = Ok cfg
    ∧ active_configs
        (fst (ConfigurationService.update_pricing_config 9000 3000 root 20
                depot)) = [cfg].
Proof.
  destruct (proj2 (proj2 (update_pricing_config_bounds 9000 3000 root 20
                            depot)))
    as (cfg & H1 & _ & _ & H2 & _).
  - reflexivity.
  - exists cfg. split; assumption.
Defined.

(** X13. For amounts with two decimal places,
    [validate_configuration_change] reports [is_valid] exactly when the base
    fee is between 0.01 and 1000.00 and the rate between 0.01 and 100.00,
    that is, exactly when [update_pricing_config] would accept them from an
    admin; it reports no error in that case, whatever warnings it gives, and
    never more than two errors. *)
Theorem validation_agrees_with_update :
  ∀ (b r : Z) (admin_user : User) (now : Z) (s : Store),
    let v := validate_configuration_change
               (Dec.of_hundredths b) (Dec.of_hundredths r) in
    (validation_is_valid v = true ↔ 1 ≤ b ≤ 100000 ∧ 1 ≤ r ≤ 10000)
    ∧ (validation_is_valid v = true ↔ validation_errors v = [])
    ∧ (length (validation_errors v) ≤ 2)%nat
    ∧ (role admin_user = ADMIN →
       validation_is_valid v
       = is_ok (snd (ConfigurationService.update_pricing_config
                       b r admin_user now s))).
Proof.
  intros b r admin_user now s v. subst v.
  unfold validate_configuration_change, check_amount,
    ConfigurationService.update_pricing_config.
  cbv zeta. rewrite !Decimal_lt_hundredths.
  destruct (Z.ltb_spec b 1), (Z.ltb_spec r 1), (Z.ltb_spec 100000 b),
    (Z.ltb_spec 10000 r), (Z.ltb_spec b 1000), (Z.ltb_spec r 500),
    (Z.ltb_spec 20000 b), (Z.ltb_spec 5000 r); try lia; simpl;
    (split; [split; [try discriminate; intros _; lia | try done; lia]|]);
    (split; [split; try done; discriminate|]);
    (split; [lia|]);
    intros Hrole; rewrite ?(bool_decide_eq_true_2 _ Hrole); reflexivity.
Qed.

Lemma validation_agrees_with_update_witness :
  validation_is_valid
    (validate_configuration_change (Dec.of_hundredths 500)
       (Dec.of_hundredths 20000))
  = is_ok (snd (ConfigurationService.update_pricing_config 500 20000 root 20
                  depot)).
Proof.
  apply (proj2 (proj2 (proj2
    (validation_agrees_with_update 500 20000 root 20 depot)))).
  reflexivity.
Defined.

(** ** Prices *)

Lemma round_half_even_mono (n m d : Z) :
  0 ≤ n ≤ m → 0 < d → Dec.round_half_even n d ≤ Dec.round_half_even m d.
Proof.
  intros Hnm Hd. unfold Dec.round_half_even.
  pose proof (Z.div_mod n d ltac:(lia)) as Hn.
  pose proof (Z.div_mod m d ltac:(lia)) as Hm.
  pose proof (Z.mod_pos_bound n d Hd) as Hrn.
  pose proof (Z.mod_pos_bound m d Hd) as Hrm.
  pose proof (Z.div_le_mono n m d Hd ltac:(lia)) as Hq.
  set (q1 := n / d) in *. set (r1 := n mod d) in *.
  set (q2 := m / d) in *. set (r2 := m mod d) in *.
  clearbody q1 r1 q2 r2.
  assert (Hcase : q1 = q2 ∨ q1 + 1 ≤ q2) by lia.
  destruct Hcase as [->|Hlt].
  - assert (r1 ≤ r2) by lia.
    destruct (Z.ltb_spec (2 * r1) d), (Z.ltb_spec (2 * r2) d),
      (Z.ltb_spec d (2 * r1)), (Z.ltb_spec d (2 * r2)),
      (Z.even q2); lia.
  - destruct (Z.ltb_spec (2 * r1) d), (Z.ltb_spec (2 * r2) d),
      (Z.ltb_spec d (2 * r1)), (Z.ltb_spec d (2 * r2)),
      (Z.even q1), (Z.even q2); lia.
Qed.

Lemma round_half_even_exact (q d : Z) :
  0 < d → Dec.round_half_even (d * q) d = q.
Proof.
  intros Hd. unfold Dec.round_half_even.
  rewrite (Z.mul_comm d q), Z.div_mul, Z.mod_mul by lia.
  destruct (Z.ltb_spec (2 * 0) d); [done | lia].
Qed.

Lemma price_of_nonneg (distance : Z) (c : PricingConfig) :
  0 ≤ exact_price distance (base_fee c) (per_km_rate c) →
  coefficient (price_of (Dec.of_hundredths distance) c)
  = Dec.round_half_even
      (exact_price distance (base_fee c) (per_km_rate c)) 100.
Proof.
  intros Hx. rewrite price_of_hundredths. cbn [coefficient].
  set (x := exact_price _ _ _) in *. clearbody x.
  destruct (Z.sgn_spec x) as [[Hp Hs]|[[Hz Hs]|[Hn Hs]]]; rewrite Hs.
  - by rewrite Z.abs_eq, Z.mul_1_l by lia.
  - subst x. reflexivity.
  - lia.
Qed.

(** X14. With a base fee and a rate that are not negative, the price of
    [price_of] (the expression of [OrderCreateSerializer.create] and
    [calculate_price]) does not go down when the distance goes up, and is
    never below the base fee; at distance zero it is the base fee. *)
Theorem price_grows_with_distance :
  ∀ (cfg : PricingConfig) (d1 d2 : Z),
    0 ≤ base_fee cfg → 0 ≤ per_km_rate cfg → 0 ≤ d1 ≤ d2 →
    coefficient (price_of (Dec.of_hundredths d1) cfg)
    ≤ coefficient (price_of (Dec.of_hundredths d2) cfg)
    ∧ base_fee cfg ≤ coefficient (price_of (Dec.of_hundredths d1) cfg)
    ∧ coefficient (price_of (Dec.of_hundredths 0) cfg) = base_fee cfg.
Proof.
  intros cfg d1 d2 Hb Hr Hd.
  assert (Hx : ∀ d, 0 ≤ d →
            base_fee cfg * 100
            ≤ exact_price d (base_fee cfg) (per_km_rate cfg))
    by (intros d Hd0; unfold exact_price; nia).
  assert (H0 : exact_price 0 (base_fee cfg) (per_km_rate cfg)
               = 100 * base_fee cfg) by (unfold exact_price; lia).
  assert (Hbase : coefficient (price_of (Dec.of_hundredths 0) cfg)
                  = base_fee cfg).
  { rewrite price_of_nonneg by (rewrite H0; lia).
    rewrite H0. by apply round_half_even_exact. }
  assert (Hmono : ∀ a b, 0 ≤ a ≤ b →
            coefficient (price_of (Dec.of_hundredths a) cfg)
            ≤ coefficient (price_of (Dec.of_hundredths b) cfg)).
  { intros a b Hab.
    pose proof (Hx a ltac:(lia)). pose proof (Hx b ltac:(lia)).
    rewrite !price_of_nonneg by lia.
    apply round_half_even_mono; [|lia].
    split; [lia|]. unfold exact_price. nia. }
  split; [by apply Hmono|]. split; [|exact Hbase].
  rewrite <- Hbase. apply Hmono. lia.
Qed.

Lemma price_grows_with_distance_witness :
  coefficient (price_of (Dec.of_hundredths 5) (tariff 5000 10))
  ≤ coefficient (price_of (Dec.of_hundredths 15) (tariff 5000 10))
  ∧ 5000 ≤ coefficient (price_of (Dec.of_hundredths 5) (tariff 5000 10)).
Proof.
  destruct (price_grows_with_distance (tariff 5000 10) 5 15)
    as (H1 & H2 & _); simpl; try lia.
  split; assumption.
Defined.

(** ** Creation *)

(** X15. [OrderService.create_order] and [OrderCreateSerializer.create]
    are two paths to the same row: on the same store, customer, addresses
    and distance they leave the same store and create the same order at the
    same price; without an active configuration both fail with the same
    message, the service with a [ValueError] and the serializer with a
    validation error; and when the distance or the rounded price has more
    than ten digits both raise [decimal.InvalidOperation] on saving the
    row. *)
Theorem service_and_serializer_create_alike :
  ∀ (user : User) (data : OrderData) (now : Z) (s : Store),
    fst (OrderService.create_order user (data_pickup_address data)
           (data_delivery_address data) (data_distance_km data) now s)
    = fst (OrderCreateSerializer.create user data now s)
    ∧ match snd (OrderService.create_order user (data_pickup_address data)
                   (data_delivery_address data) (data_distance_km data)
                   now s),
            snd (OrderCreateSerializer.create user data now s) with
      | Ok o1, Ok o2 => o1 = o2
      | Err (ValueError m1), Err (ValidationError m2) =>
          m1 = m2 ∧ first_active (pricing_configs s) = None
      | Err InvalidOperation, Err InvalidOperation =>
          ∃ cfg,
            first_active (pricing_configs s) = Some cfg
            ∧ (10 ^ 10 ≤ Z.abs (data_distance_km data)
               ∨ 10 ^ 10
                 ≤ Z.abs (coefficient
                            (price_of
                               (Dec.of_hundredths (data_distance_km data))
                               cfg)))
      | _, _ => False
      end.
Proof.
  intros user data now s.
  unfold OrderService.create_order, OrderCreateSerializer.create,
    ConfigurationService.calculate_price,
    ConfigurationService.get_active_pricing_config.
  destruct (first_active (pricing_configs s)) as [cfg|]; [|done].
  cbv zeta. unfold fits_column.
  destruct (Z.ltb_spec (Z.abs (data_distance_km data)) (10 ^ 10)) as [Hd|Hd];
    destruct (Z.ltb_spec (Z.abs (coefficient
                (price_of (Dec.of_hundredths (data_distance_km data)) cfg)))
                (10 ^ 10)) as [Hp|Hp];
    cbn [negb andb fst snd]; [done|..];
    (split; [done|]); exists cfg; (split; [done|]); auto.
Qed.

(** What the view [create] leaves behind when it succeeds. *)
Lemma create_ok :
  ∀ (user : User) (data : OrderData) (now : Z) (s s' : Store)
    (order : Order),
    OrderViewSet.create user data now s = (s', Ok order) →
    orders s !! order_pk order = None
    ∧ orders s' = <[order_pk order := order]> (orders s)
    ∧ (∀ pk o, orders s !! pk = Some o → orders s' !! pk = Some o)
    ∧ role user = CUSTOMER
    ∧ customer order = user_pk user
    ∧ created_at order = now
    ∧ pickup_address order = strip (data_pickup_address data)
    ∧ delivery_address order = strip (data_delivery_address data)
    ∧ distance_km order = data_distance_km data
    ∧ status order ∈ [CREATED; ASSIGNED]
    ∧ pricing_configs s' = pricing_configs s.
Proof.
  intros user data now s s' order. unfold OrderViewSet.create.
  destruct (bool_decide (role user = CUSTOMER)) eqn:Hrole; simpl negb;
    cbv iota; [|discriminate].
  apply bool_decide_eq_true in Hrole.
  destruct (OrderCreateSerializer.is_valid data) as [vd|e] eqn:Hvalid;
    [|discriminate].
  assert (Hvd : data_pickup_address vd = strip (data_pickup_address data)
                ∧ data_delivery_address vd
                  = strip (data_delivery_address data)
                ∧ data_distance_km vd = data_distance_km data).
  { by apply is_valid_spec in Hvalid
      as (_ & _ & _ & _ & _ & _ & _ & ->). }
  destruct Hvd as (Hp & Hdl & Hkm).
  unfold OrderCreateSerializer.create.
  destruct (first_active (pricing_configs s)) as [cfg|]; [|discriminate].
  cbv zeta.
  destruct (negb (fits_column _ && fits_column _)); [discriminate|].
  set (o0 := new_order s _ _ _ _ _ _).
  assert (Hfresh : orders s !! order_pk o0 = None) by apply new_order_fresh.
  assert (Hkeep : ∀ m : gmap nat Order, m = <[order_pk o0 := o0]> (orders s)
            ∨ (∃ x, order_pk x = order_pk o0
                    ∧ m = <[order_pk o0 := x]>
                            (<[order_pk o0 := o0]> (orders s))) →
            ∀ pk o, orders s !! pk = Some o → m !! pk = Some o).
  { intros m Hm pk o Hsome.
    assert (pk ≠ order_pk o0) by (intros ->; congruence).
    destruct Hm as [->|(x & _ & ->)]; by rewrite !lookup_insert_ne. }
  destruct (try_auto_assignment_cases o0 now (save_order o0 s))
    as [[_ ->]|(c & cs & rest & _ & ->)]; intros [= <- <-].
  - split; [done|]. split; [done|]. split; [apply Hkeep; by left|].
    repeat (split; [done|]). split; [apply list_elem_of_here | done].
  - split; [done|]. split.
    { rewrite update_workload_orders. simpl. apply insert_insert_eq. }
    split.
    { apply Hkeep. right. exists (assign_fields c now o0).
      split; [done|]. by rewrite update_workload_orders. }
    repeat (split; [done|]).
    split; [apply list_elem_of_further, list_elem_of_here|].
    by rewrite update_workload_pricing.
Qed.



(** X17. In a store reached by a run, when [create] succeeds the counter of
    the courier the new order is assigned to, if any, goes up by one, and no
    other counter moves. *)
Theorem create_moves_one_counter :
  ∀ (s0 : Store) (reqs : list (Z * Request)) (user : User)
    (data : OrderData) (now : Z) (s' : Store) (order : Order),
    initial s0 →
    OrderViewSet.create user data now (run reqs s0) = (s', Ok order) →
    ∀ c, workload s' c
         = workload (run reqs s0) c
           + (if decide (assigned_courier order = Some c) then 1 else 0).
Proof.
  intros s0 reqs user data now s' order Hinit Heq c.
  pose proof (run_consistent reqs s0 (initial_consistent s0 Hinit)) as Hcons.
  set (s := run reqs s0) in *. clearbody s.
  pose proof (create_consistent user data now s Hcons) as Hcons'.
  rewrite Heq in Hcons'. simpl in Hcons'.
  apply create_ok in Heq as (Hfresh & Hos & _ & _ & _ & _ & _ & _ & _ & Hst & _).
  rewrite (proj1 Hcons' c), (proj1 Hcons c). unfold live_count.
  assert (Hstored : orders s' !! order_pk order = Some order)
    by (rewrite Hos; apply lookup_insert_eq).
  destruct (proj2 Hcons' _ _ Hstored) as [_ Hcreated].
  rewrite Hos, (count_live_insert_fresh c _ _ order Hfresh), delta_status.
  destruct (status order) eqn:Hs; try (exfalso; status_mem; fail).
  - rewrite (Hcreated eq_refl). count_cases.
  - count_cases.
Qed.

Lemma create_moves_one_counter_witness :
  workload (fst (OrderViewSet.create alice (parcel 700) 20
                   (run [(10, CreateOrder alice (parcel 500))] depot))) 2
  = workload (run [(10, CreateOrder alice (parcel 500))] depot) 2 + 1.
Proof.
  refine (create_moves_one_counter depot
            [(10, CreateOrder alice (parcel 500))] alice (parcel 700) 20
            (fst (OrderViewSet.create alice (parcel 700) 20
                    (run [(10, CreateOrder alice (parcel 500))] depot)))
            {| order_pk := 1; customer := 1;
               assigned_courier := Some 2%nat;
               pickup_address := "12 Bole Road";
               delivery_address := "7 Churchill Avenue";
               distance_km := 700; price := 19000; status := ASSIGNED;
               created_at := 20; assigned_at := Some 20;
               picked_up_at := None; in_transit_at := None;
               delivered_at := None |} _ _ 2%nat).
  - split; [reflexivity|].
    apply (bool_decide_unpack _). vm_compute. exact I.
  - vm_compute. reflexivity.
Defined.

(** ** Listings *)

(** X18. In a store reached by a run, the orders [available_orders] lists
    for a courier are exactly the stored orders in CREATED; each of them has
    no courier, and the calling courier, unless their row says they are
    unavailable, can accept each of them: [accept_order] succeeds and
    returns the order assigned to them. *)
Theorem available_orders_can_be_accepted :
  ∀ (s0 : Store) (reqs : list (Z * Request)) (user : User)
    (listed : list Order),
    initial s0 →
    available_orders user (run reqs s0) = Ok listed →
    role user = COURIER
    ∧ (∀ o, o ∈ listed ↔
            (orders (run reqs s0) !! order_pk o = Some o
             ∧ status o = CREATED))
    ∧ (∀ o now,
         o ∈ listed →
         assigned_courier o = None
         ∧ ((∀ cs, courier_statuses (run reqs s0) !! user_pk user = Some cs →
                   is_available cs = true) →
            ∃ s', OrderViewSet.accept_order user (order_pk o) now
                    (run reqs s0)
                  = (s', Ok (assign_fields (user_pk user) now o)))).
Proof.
  intros s0 reqs user listed Hinit.
  pose proof (run_consistent reqs s0 (initial_consistent s0 Hinit)) as Hcons.
  set (s := run reqs s0) in *. clearbody s.
  unfold available_orders.
  destruct (bool_decide (role user = COURIER)) eqn:Hrole; simpl negb;
    cbv iota; [|discriminate].
  apply bool_decide_eq_true in Hrole. intros [= <-].
  assert (Hin : ∀ o, o ∈ List.filter
                          (fun o => bool_decide (status o = CREATED))
                          (map snd (map_to_list (orders s)))
                     ↔ orders s !! order_pk o = Some o ∧ status o = CREATED).
  { intros o. rewrite list_elem_of_In, filter_In, <- list_elem_of_In,
      bool_decide_eq_true, list_elem_of_fmap. split.
    - intros [([pk x] & -> & Hx) Hst]. simpl in *.
      apply elem_of_map_to_list in Hx.
      destruct (proj2 Hcons _ _ Hx) as [-> _]. done.
    - intros [Hsome Hst]. split; [|done].
      exists (order_pk o, o). split; [done|].
      by apply elem_of_map_to_list. }
  split; [done|]. split; [exact Hin|].
  intros o now Ho. apply Hin in Ho as [Hsome Hst].
  destruct (proj2 Hcons _ _ Hsome) as [_ Hcreated].
  split; [by apply Hcreated|]. intros Hav.
  unfold OrderViewSet.accept_order, OrderViewSet.get_object,
    OrderViewSet.in_queryset.
  rewrite (bool_decide_eq_true_2 _ Hrole), Hsome, Hrole.
  rewrite (bool_decide_eq_true_2 (status o = CREATED)) by done.
  rewrite orb_true_r. simpl negb. cbv iota.
  rewrite (bool_decide_eq_true_2 (status o = CREATED)) by done.
  simpl negb. cbv iota.
  assert (Ha : is_available (snd (get_or_create (user_pk user) now s))
               = true).
  { unfold get_or_create.
    destruct (courier_statuses s !! user_pk user) as [cs|] eqn:Hrow;
      simpl; [by apply (Hav cs) | done]. }
  destruct (get_or_create (user_pk user) now s) as [s1 cs]. simpl in Ha.
  rewrite Ha. simpl negb. cbv iota zeta. by eexists.
Qed.

Lemma available_orders_can_be_accepted_witness :
  ∃ s', OrderViewSet.accept_order carol 0 20
          (run [(10, CreateOrder alice (parcel 500))] (empty_depot 5000 2000))
        = (s', Ok (assign_fields 3 20
                     (set_assigned_at None (waybill CREATED None)))).
Proof.
  destruct (available_orders_can_be_accepted (empty_depot 5000 2000)
              [(10, CreateOrder alice (parcel 500))] carol
              [set_assigned_at None (waybill CREATED None)])
    as (_ & _ & H).
  - split; [reflexivity|].
    apply (bool_decide_unpack _). vm_compute. exact I.
  - vm_compute. reflexivity.
  - destruct (H (set_assigned_at None (waybill CREATED None)) 20)
      as [_ Hacc]; [apply list_elem_of_here|].
    apply Hacc. intros cs. vm_compute. discriminate.
Defined.

(** X19. The method [available_couriers] answers admins and couriers, and
    nobody else, with the couriers the automatic assignment would consider:
    the list holds exactly the available rows of users of role COURIER, it
    is sorted by [current_orders_count], and its first row, when there is
    one, is the courier [_try_auto_assignment] gives the next order to.  As
    a request reaches it, only admins are answered, since [get_permissions]
    guards every extra action with [IsAdminUser]. *)
Theorem available_couriers_lists_the_candidates :
  ∀ (user : User) (s : Store),
    (is_ok (available_couriers_view user s) = true
     ↔ role user = ADMIN ∨ role user = COURIER)
    ∧ (is_ok (request_available_couriers user s) = true
       ↔ role user = ADMIN)
    ∧ ∀ l,
        available_couriers_view user s = Ok l →
        StronglySorted count_le l
        ∧ (∀ c cs, (c, cs) ∈ l ↔
                   courier_statuses s !! c = Some cs
                   ∧ is_available cs = true
                   ∧ ∃ u, users s !! c = Some u ∧ role u = COURIER)
        ∧ (∀ order now,
             assigned_courier (snd (_try_auto_assignment order now s))
             = match l with
               | [] => assigned_courier order
               | (c, _) :: _ => Some c
               end).
Proof.
  intros user s.
  unfold request_available_couriers, available_couriers_view,
    has_permission, courier_status_permission.
  simpl bool_decide.
  split; [|split].
  - destruct (role user) eqn:Hrole; simpl; split; try done;
      try (intros [?|?]; discriminate); intros _; by auto.
  - destruct (role user) eqn:Hrole; simpl; split; try done.
  - intros l. destruct (negb (bool_decide (role user ∈ [ADMIN; COURIER])));
      [discriminate|]. intros [= <-].
    split; [apply order_by_sorted|]. split.
    + intros c cs. unfold available_couriers.
      rewrite order_by_elem, elem_of_filter_rows, eligible_spec. simpl.
      tauto.
    + intros order now. unfold _try_auto_assignment.
      by destruct (available_couriers s) as [|[c cs] rest].
Qed.

Lemma available_couriers_lists_the_candidates_witness :
  StronglySorted count_le
    [(12%nat, loaded true 1); (13%nat, loaded true 1);
     (11%nat, loaded true 3); (14%nat, loaded true 5)].
Proof.
  refine (proj1 (proj2 (proj2 (available_couriers_lists_the_candidates
                                 root busy_depot)) _ _)).
  vm_compute. reflexivity.
Defined.

(** X20. The courier self-service actions cannot be reached: the permission
    class [get_permissions] gives [update_availability] and [my_profile] is
    [IsAdminUser], and both methods answer 403 to everyone who is not a
    courier; so whoever calls, the request is answered with an error and the
    store is left as it was. *)
Theorem courier_self_service_is_refused :
  ∀ (user : User) (a : option bool) (l : option string) (now : Z)
    (s : Store),
    (∃ e, request_update_availability user a l now s = (s, Err e))
    ∧ (∃ e, request_my_profile user now s = (s, Err e)).
Proof.
  intros user a l now s.
  unfold request_update_availability, request_my_profile, has_permission,
    courier_status_permission,
    CourierStatusViewSet.update_availability, my_profile.
  simpl bool_decide.
  destruct (role user) eqn:Hrole; simpl; split; by eexists.
Qed.

Lemma filter_map_snd_length {A B} (f : B → bool) (l : list (A * B)) :
  length (List.filter f (map snd l))
  = length (List.filter (fun row => f (snd row)) l).
Proof.
  induction l as [|[a b] l IH]; simpl; [done|].
  destruct (f b); simpl; by rewrite IH.
Qed.

(** X21. In a store reached by a run, the method [my_profile] answers a
    courier with a number of current active orders that equals the
    [current_orders_count] of the row it returns; the orders it lists are
    assigned to the caller and in ASSIGNED, PICKED_UP or IN_TRANSIT; and it
    writes no order row. *)
Theorem my_profile_counts_match :
  ∀ (s0 : Store) (reqs : list (Z * Request)) (user : User) (now : Z)
    (s' : Store) (p : CourierProfile),
    initial s0 →
    my_profile user now (run reqs s0) = (s', Ok p) →
    role user = COURIER
    ∧ Z.of_nat (current_active_orders p)
      = current_orders_count (profile_courier_status p)
    ∧ current_active_orders p = length (current_orders p)
    ∧ (∀ o, o ∈ current_orders p →
            assigned_courier o = Some (user_pk user)
            ∧ status o ∈ [ASSIGNED; PICKED_UP; IN_TRANSIT])
    ∧ orders s' = orders (run reqs s0).
Proof.
  intros s0 reqs user now s' p Hinit.
  pose proof (run_consistent reqs s0 (initial_consistent s0 Hinit)) as Hcons.
  set (s := run reqs s0) in *. clearbody s.
  unfold my_profile.
  destruct (bool_decide (role user = COURIER)) eqn:Hrole; simpl negb;
    cbv iota; [|discriminate].
  apply bool_decide_eq_true in Hrole.
  pose proof (get_or_create_orders (user_pk user) now s) as Ho.
  pose proof (get_or_create_count (user_pk user) now s) as Hc.
  destruct (get_or_create (user_pk user) now s) as [s1 cs].
  simpl in Ho, Hc. cbv zeta. intros [= <- <-]. simpl.
  split; [done|]. split.
  - rewrite Hc, (proj1 Hcons). unfold live_count, count_live.
    by rewrite Ho, filter_map_snd_length.
  - split; [done|]. split; [|done].
    intros o Hin. apply list_elem_of_In, filter_In in Hin as [_ Hf].
    apply andb_true_iff in Hf as [H1 H2].
    by apply bool_decide_eq_true in H1, H2.
Qed.

Lemma my_profile_counts_match_witness :
  Z.of_nat
    (current_active_orders
       {| profile_courier_status :=
            {| is_available := true; current_orders_count := 1;
               last_activity := 10; location_description := "" |};
          total_completed_orders := 0; current_active_orders := 1;
          current_orders := [waybill ASSIGNED (Some 2%nat)] |})
  = 1.
Proof.
  refine (proj1 (proj2 (my_profile_counts_match depot
                          [(10, CreateOrder alice (parcel 500))] bob 20
                          (run [(10, CreateOrder alice (parcel 500))] depot)
                          _ _ _))).
  - split; [reflexivity|].
    apply (bool_decide_unpack _). vm_compute. exact I.
  - vm_compute. reflexivity.
Defined.

(** ** Tracking *)

(** X22. What [tracking_info] shows.  The steps marked completed are always
    a first part of the timeline: a step is never completed unless every
    step before it is.  For an order that is not cancelled, a step after
    the first is completed exactly when its progress is at most the
    progress of the order's status.  A cancelled order is shown at 0
    percent with the first four steps completed and the last not, however
    far it had come.  And along the transition table the progress goes up
    strictly, except into CANCELLED. *)
Theorem tracking_marks_a_prefix :
  ∀ (order : Order),
    (∀ (i j : nat) (a b : TrackingStep),
       (i ≤ j)%nat →
       tracking_steps order !! i = Some a →
       tracking_steps order !! j = Some b →
       step_completed b = true → step_completed a = true)
    ∧ (status order ≠ CANCELLED →
       ∀ st, st ∈ tracking_steps order → step_status st ≠ CREATED →
             (step_completed st = true
              ↔ step_progress st ≤ progress_map (status order)))
    ∧ (status order = CANCELLED →
       progress_map (status order) = 0
       ∧ map step_completed (tracking_steps order)
         = [true; true; true; true; false])
    ∧ (∀ st',
         st' ∈ OrderStatusUpdateSerializer.valid_transitions (status order) →
         st' ≠ CANCELLED →
         progress_map (status order) < progress_map st').
Proof.
  intros order. unfold tracking_steps. split; [|split; [|split]].
  - intros i j a b Hij Ha Hb.
    destruct (status order);
      destruct i as [|[|[|[|[|i]]]]]; try discriminate;
      destruct j as [|[|[|[|[|j]]]]]; try discriminate; try lia;
      simpl in Ha, Hb; injection Ha as <-; injection Hb as <-; done.
  - intros Hnc st Hin Hfirst.
    repeat (apply elem_of_cons in Hin as [->|Hin]);
      try (by apply elem_of_nil in Hin);
      destruct (status order); simpl in *; try done;
      split; try done; try lia; discriminate.
  - intros ->. done.
  - intros st' Hin Hnc.
    destruct (status order), st'; simpl in *; try done; try lia;
      exfalso; status_mem.
Qed.

Lemma tracking_marks_a_prefix_witness :
  progress_map (status (waybill ASSIGNED (Some 2%nat)))
  < progress_map PICKED_UP.
Proof.
  apply (proj2 (proj2 (proj2
    (tracking_marks_a_prefix (waybill ASSIGNED (Some 2%nat)))))).
  - simpl. apply list_elem_of_here.
  - discriminate.
Defined.

(** ** [OrderService.assign_courier] *)

(** X23. When [OrderService.assign_courier] succeeds, the order it was
    given is in CREATED, the user is a courier whose row, if there is one,
    is available; the order is stored under its key with that courier,
    status ASSIGNED and [assigned_at] at [now]; the courier's counter is one
    more than it was (with no floor) and no other counter moves.  An order
    that is not in CREATED is refused with the status in the message, and
    the store is left as it was. *)
Theorem service_assign_courier_effects :
  ∀ (order : Order) (courier : User) (now : Z) (s : Store),
    (status order ≠ CREATED →
     OrderService.assign_courier order courier now s
     = (s, Err (ValueError ("Cannot assign courier to order with status "
                            +:+ status_name (status order)))))
    ∧ (∀ s' order',
         OrderService.assign_courier order courier now s = (s', Ok order') →
         status order = CREATED
         ∧ role courier = COURIER
         ∧ (∀ cs, courier_statuses s !! user_pk courier = Some cs →
                  is_available cs = true)
         ∧ order' = assign_fields (user_pk courier) now order
         ∧ orders s' = <[order_pk order := order']> (orders s)
         ∧ workload s' (user_pk courier)
           = workload s (user_pk courier) + 1
         ∧ (∀ c, c ≠ user_pk courier → workload s' c = workload s c)).
Proof.
  intros order courier now s. unfold OrderService.assign_courier. split.
  - intros Hne. by rewrite (bool_decide_eq_false_2 _ Hne).
  - intros s' order'.
    destruct (bool_decide (status order = CREATED)) eqn:Hst; simpl negb;
      cbv iota; [|discriminate].
    apply bool_decide_eq_true in Hst.
    destruct (bool_decide (role courier = COURIER)) eqn:Hrole; simpl negb;
      cbv iota; [|discriminate].
    apply bool_decide_eq_true in Hrole.
    set (k := user_pk courier).
    pose proof (get_or_create_orders k now s) as Ho.
    pose proof (get_or_create_workload k now s) as Hw.
    pose proof (get_or_create_count k now s) as Hc.
    assert (Hav : ∀ cs0, courier_statuses s !! k = Some cs0 →
                         snd (get_or_create k now s) = cs0).
    { intros cs0 Hrow. unfold get_or_create. by rewrite Hrow. }
    destruct (get_or_create k now s) as [s1 cs]. simpl in Ho, Hw, Hc, Hav.
    destruct (is_available cs) eqn:Ha; simpl negb; cbv iota zeta;
      [|discriminate].
    intros [= <- <-]. repeat (split; [done|]).
    split; [intros cs0 Hrow; by rewrite <- (Hav cs0 Hrow)|].
    split; [done|]. split; [simpl; by rewrite Ho|].
    unfold workload at 1 3. simpl. split.
    + by rewrite lookup_insert_eq, <- Hc.
    + intros c Hne. rewrite lookup_insert_ne by done. apply Hw.
Qed.

Lemma service_assign_courier_effects_witness :
  workload
    (fst (OrderService.assign_courier
            (set_assigned_at None (waybill CREATED None)) carol 20
            (run [(10, CreateOrder alice (parcel 500))]
               (empty_depot 5000 2000)))) 3
  = workload (run [(10, CreateOrder alice (parcel 500))]
                (empty_depot 5000 2000)) 3 + 1.
Proof.
  destruct (proj2 (service_assign_courier_effects
                     (set_assigned_at None (waybill CREATED None)) carol 20
                     (run [(10, CreateOrder alice (parcel 500))]
                        (empty_depot 5000 2000)))
              (fst (OrderService.assign_courier
                      (set_assigned_at None (waybill CREATED None)) carol 20
                      (run [(10, CreateOrder alice (parcel 500))]
                         (empty_depot 5000 2000))))
              (assign_fields 3 20
                 (set_assigned_at None (waybill CREATED None))))
    as (_ & _ & _ & _ & _ & H & _).
  - vm_compute. reflexivity.
  - exact H.
Defined.



(** ** The floor of the workload counter *)

(** X25. In a store reached by a run no counter is negative, and the floor
    [max(0, ...)] of [_update_courier_workload] never clips where the views
    use it: taking one off the counter of a courier who carries an order in
    ASSIGNED, PICKED_UP or IN_TRANSIT gives exactly one less, and adding one
    gives exactly one more. *)
Theorem workload_floor_never_clips :
  ∀ (s0 : Store) (reqs : list (Z * Request)),
    initial s0 →
    counters_nonneg (run reqs s0)
    ∧ (∀ pk o c now,
         orders (run reqs s0) !! pk = Some o →
         assigned_courier o = Some c →
         status o ∈ [ASSIGNED; PICKED_UP; IN_TRANSIT] →
         workload (_update_courier_workload c (-1) now (run reqs s0)) c
         = workload (run reqs s0) c - 1)
    ∧ (∀ c now,
         workload (_update_courier_workload c 1 now (run reqs s0)) c
         = workload (run reqs s0) c + 1).
Proof.
  intros s0 reqs Hinit.
  pose proof (run_consistent reqs s0 (initial_consistent s0 Hinit)) as Hcons.
  set (s := run reqs s0) in *. clearbody s.
  assert (Hnn : counters_nonneg s).
  { intros c. rewrite (proj1 Hcons). unfold live_count. lia. }
  split; [exact Hnn|]. split.
  - intros pk o c now Hsome Hc Hst.
    pose proof (consistent_workload_live s c pk o Hcons Hsome) as Hlive.
    rewrite delta_status, Hc, bool_decide_eq_true_2 in Hlive by done.
    rewrite update_workload_workload, decide_True by done.
    assert (1 ≤ workload s c) by (destruct (status o); try lia; status_mem).
    lia.
  - intros c now. rewrite update_workload_workload, decide_True by done.
    specialize (Hnn c). lia.
Qed.

Lemma workload_floor_never_clips_witness :
  workload
    (_update_courier_workload 2 (-1) 20
       (run [(10, CreateOrder alice (parcel 500))] depot)) 2
  = workload (run [(10, CreateOrder alice (parcel 500))] depot) 2 - 1.
Proof.
  refine (proj1 (proj2 (workload_floor_never_clips depot
                          [(10, CreateOrder alice (parcel 500))] _))
            0%nat (waybill ASSIGNED (Some 2%nat)) 2%nat 20 _ _ _).
  - split; [reflexivity|].
    apply (bool_decide_unpack _). vm_compute. exact I.
  - vm_compute. reflexivity.
  - reflexivity.
  - simpl. apply list_elem_of_here.
Defined.

(** ** The active configuration as the endpoint shows it *)

(** X26. What [PricingConfigViewSet.active] shows an admin is the
    configuration orders are priced from: when it answers a configuration,
    that configuration is stored and active, every order the view [create]
    answers in this store is priced from it,
    [ConfigurationService.calculate_price] without a configuration of its
    own gives the same price, and the view does answer an order to a
    customer whose request the validators accept, with addresses in ASCII
    text and a price of at most ten digits.  It answers 404 exactly when no
    stored configuration is active, which is when such a request is refused
    for want of a configuration. *)
Theorem active_endpoint_shows_the_pricing_config :
  ∀ (admin : User) (s : Store),
    role admin = ADMIN →
    (∀ cfg,
       pricing_config_active admin s = Ok cfg →
       cfg ∈ pricing_configs s ∧ is_active cfg = true
       ∧ (∀ buyer data now s' order,
            OrderViewSet.create buyer data now s = (s', Ok order) →
            price order
            = coefficient
                (price_of (Dec.of_hundredths (data_distance_km data)) cfg))
       ∧ (∀ distance,
            ConfigurationService.calculate_price
              (Dec.of_hundredths distance) None s
            = Ok (price_of (Dec.of_hundredths distance) cfg))
       ∧ (∀ buyer data vd now,
            role buyer = CUSTOMER →
            ascii_text (data_pickup_address data) = true →
            ascii_text (data_delivery_address data) = true →
            OrderCreateSerializer.is_valid data = Ok vd →
            Z.abs (coefficient
                     (price_of (Dec.of_hundredths (data_distance_km data))
                        cfg))
            < 10 ^ 10 →
            ∃ s' order,
              OrderViewSet.create buyer data now s = (s', Ok order)
              ∧ price order
                = coefficient
                    (price_of (Dec.of_hundredths (data_distance_km data))
                       cfg)))
    ∧ (pricing_config_active admin s = Err Http404
       ↔ ∀ c, c ∈ pricing_configs s → is_active c = false)
    ∧ (pricing_config_active admin s = Err Http404 →
       ∀ buyer data now,
         role buyer = CUSTOMER →
         ascii_text (data_pickup_address data) = true →
         ascii_text (data_delivery_address data) = true →
         is_ok (OrderCreateSerializer.is_valid data) = true →
         OrderViewSet.create buyer data now s
         = (s, Err (ValidationError no_active_config))).
Proof.
  intros admin s Hadmin. unfold pricing_config_active.
  rewrite (bool_decide_eq_true_2 _ Hadmin). simpl negb. cbv iota.
  destruct (first_active (pricing_configs s)) as [cfg0|] eqn:Hfa.
  - split; [|split].
    + intros cfg [= <-].
      destruct (List.find_some _ _ Hfa) as [Hin Hact].
      split; [by apply list_elem_of_In|]. split; [done|].
      split; [|split].
      * intros buyer data now s' order Hcreate.
        destruct (create_stores_price _ _ _ _ _ _ _ Hfa Hcreate) as [_ ->].
        apply create_ok in Hcreate
          as (_ & _ & _ & _ & _ & _ & _ & _ & -> & _).
        done.
      * intros distance.
        unfold ConfigurationService.calculate_price,
          ConfigurationService.get_active_pricing_config.
        by rewrite Hfa.
      * intros buyer data vd now Hrole _ _ Hvalid Hlt.
        exact (create_priced buyer data vd now s cfg0 Hrole Hvalid Hfa Hlt).
    + split; [discriminate|]. intros Hnone.
      destruct (List.find_some _ _ Hfa) as [Hin Hact].
      rewrite (Hnone cfg0) in Hact by (by apply list_elem_of_In).
      discriminate.
    + discriminate.
  - split; [discriminate|]. split.
    + split; [|done]. intros _ c Hin.
      apply (List.find_none _ _ Hfa). by apply list_elem_of_In.
    + intros _ buyer data now Hrole _ _ Hvalid. unfold OrderViewSet.create.
      rewrite (bool_decide_eq_true_2 _ Hrole). simpl negb. cbv iota.
      destruct (OrderCreateSerializer.is_valid data) as [vd|e];
        [|discriminate].
      unfold OrderCreateSerializer.create. by rewrite Hfa.
Qed.

Lemma active_endpoint_shows_the_pricing_config_witness :
  (tariff 5000 2000 ∈ pricing_configs (empty_depot 5000 2000)
   ∧ is_active (tariff 5000 2000) = true
   ∧ ∃ s' order,
       OrderViewSet.create alice (parcel 500) 10 (empty_depot 5000 2000)
       = (s', Ok order)
       ∧ price order = 15000)
  ∧ OrderViewSet.create alice (parcel 500) 10 closed_depot
    = (closed_depot, Err (ValidationError no_active_config)).
Proof.
  split.
  - destruct (proj1 (active_endpoint_shows_the_pricing_config root
                       (empty_depot 5000 2000) eq_refl)
                (tariff 5000 2000) eq_refl) as (Hin & Hact & _ & _ & Hok).
    split; [exact Hin|]. split; [exact Hact|].
    apply (Hok alice (parcel 500) (parcel 500) 10); reflexivity.
  - apply (proj2 (proj2 (active_endpoint_shows_the_pricing_config root
                           closed_depot eq_refl))); reflexivity.
Defined.

(** ** Who may reassign *)

(** X27. [get_permissions] asks only for an authenticated user on
    [reassign_courier], and the method checks no role: for every user who
    has the order in their query set, a customer or a courier as well, the
    request is answered and the store is written exactly as for an admin.
    [assign_courier], which [get_permissions] keeps to admins, refuses
    everyone else. *)
Theorem reassign_courier_ignores_the_role :
  ∀ (user admin : User) (pk courier_id : nat) (now : Z) (s : Store)
    (o : Order),
    role admin = ADMIN →
    orders s !! pk = Some o →
    OrderViewSet.in_queryset user o = true →
    has_permission (order_permission "reassign_courier") user = true
    ∧ OrderViewSet.reassign_courier user pk courier_id now s
      = OrderViewSet.reassign_courier admin pk courier_id now s
    ∧ (role user ≠ ADMIN →
       has_permission (order_permission "assign_courier") user = false
       ∧ OrderViewSet.assign_courier user pk courier_id now s
         = (s, Err PermissionDenied)).
Proof.
  intros user admin pk courier_id now s o Hadmin Hsome Hin.
  split; [reflexivity|]. split.
  - unfold OrderViewSet.reassign_courier, OrderViewSet.get_object.
    rewrite Hsome, Hin. unfold OrderViewSet.in_queryset. by rewrite Hadmin.
  - intros Hne. unfold OrderViewSet.assign_courier. simpl.
    by rewrite (bool_decide_eq_false_2 _ Hne).
Qed.

Lemma reassign_courier_ignores_the_role_witness :
  OrderViewSet.reassign_courier alice 0 3 20
    (run [(10, CreateOrder alice (parcel 500))] depot)
  = OrderViewSet.reassign_courier root 0 3 20
      (run [(10, CreateOrder alice (parcel 500))] depot)
  ∧ is_ok (snd (OrderViewSet.reassign_courier alice 0 3 20
                  (run [(10, CreateOrder alice (parcel 500))] depot)))
    = true.
Proof.
  split; [|vm_compute; reflexivity].
  refine (proj1 (proj2 (reassign_courier_ignores_the_role alice root 0 3 20
                          (run [(10, CreateOrder alice (parcel 500))] depot)
                          (waybill ASSIGNED (Some 2%nat)) _ _ _))).
  - reflexivity.
  - vm_compute. reflexivity.
  - vm_compute. reflexivity.
Defined.
